(** * pyxet core: copy, move, delete and duplicate across storage backends

    A shallow embedding of [python/pyxet/pyxet/core.py].

    - Python strings are modelled as [string], the string methods the module
      uses are written out in [PyStr].
    - Calls on filesystem and file objects go through an abstract backend: a
      state [W] and a [handler] that answers each call with a value or an
      exception and a next state.  Nothing is assumed about the answers.
    - A function of the module is a computation that, from a state of the
      backend, yields an outcome, the next state and the log of what it did:
      the calls it made, the chunks it read, what it printed, the semaphore
      it took and released.
    - A file opened for reading carries the finite sequence of outcomes of its
      [read] calls, so the copy loop is structural.
    - A job given to the thread pool runs when it is submitted; what it
      raised is kept in its future and raised again by [result()].
    - [_copy] calls itself on the directories a wildcard matches; a [fuel]
      argument bounds the depth of these calls. *)

From Stdlib Require Import String Ascii List ZArith Bool Arith Lia.
Import ListNotations.
Open Scope string_scope.

(** ** Python string operations used by the module *)
Module PyStr.

  (** [s[:n]] *)
Fixpoint take (n : nat) (s : string) : string :=
  match n, s with
  | S k, String c r => String c (take k r)
  | _, _ => EmptyString
  end.

  (** [s[n:]] *)
Fixpoint drop (n : nat) (s : string) : string :=
  match n, s with
  | S k, String _ r => drop k r
  | _, _ => s
  end.

  (** [sub in s] for a non-empty [sub]; [s.find(sub) == -1] is its negation. *)
Fixpoint contains (sub s : string) : bool :=
  match s with
  | EmptyString => (sub =? EmptyString)
  | String _ r => prefix sub s || contains sub r
  end.

  (** [s.split(sep)] for a non-empty [sep]: left to right, occurrences of
      [sep] do not overlap.  [skip] counts the characters of a separator
      still to be passed over, [cur] is the part being collected. *)
Fixpoint split_go (sep : string) (skip : nat) (cur s : string) : list string :=
  match s with
  | EmptyString => [cur]
  | String c r =>
      match skip with
      | S k => split_go sep k cur r
      | O =>
          if prefix sep s
          then cur :: split_go sep (String.length sep - 1) EmptyString r
          else split_go sep 0 (cur ++ String c EmptyString) r
      end
  end.

Definition split (sep s : string) : list string := split_go sep 0 EmptyString s.

  (** [sep.join(l)] *)
Definition join (sep : string) (l : list string) : string := String.concat sep l.

  (** [s.rstrip(c)] for a one-character argument *)
Fixpoint rstrip (c : ascii) (s : string) : string :=
  match s with
  | EmptyString => EmptyString
  | String a r =>
      let r' := rstrip c r in
      if Ascii.eqb a c && (r' =? EmptyString) then EmptyString else String a r'
  end.

  (** [s.lstrip(c)] for a one-character argument *)
Fixpoint lstrip (c : ascii) (s : string) : string :=
  match s with
  | EmptyString => EmptyString
  | String a r => if Ascii.eqb a c then lstrip c r else s
  end.

  (** [s.endswith(c)] for a one-character argument *)
Fixpoint endswith (c : ascii) (s : string) : bool :=
  match s with
  | EmptyString => false
  | String a EmptyString => Ascii.eqb a c
  | String _ r => endswith c r
  end.

  (** [l[-1]] on the result of a split (never empty) *)
Definition last_item (l : list string) : string := last l EmptyString.

  (** [l[:-1]] *)
Definition but_last (l : list string) : list string := removelast l.

  (** the line feed of ["\n"] *)
Definition nl : string := String (ascii_of_nat 10) EmptyString.

End PyStr.

(** ** Exceptions *)

Inductive exn :=
| ValueError (msg : string)
| IndexError (msg : string)
| BackendError (msg : string).

(** [str(e)] *)
Definition str_exn (e : exn) : string :=
  match e with ValueError m => m | IndexError m => m | BackendError m => m end.

(** ** Relative paths *)

Definition _ltrim_match (s match_ : string) : exn + string :=
  if Nat.ltb (String.length s) (String.length match_)
  then inl (ValueError ("Path " ++ s ++ " not in directory " ++ match_))
  else if negb (PyStr.take (String.length match_) s =? match_)
  then inl (ValueError ("Path " ++ s ++ " not in directory " ++ match_))
  else inr (PyStr.drop (String.length match_) s).

(** ** Backend objects and the calls made on them *)

(** The [protocol] attribute of a filesystem object: a string, or for some
    fsspec implementations a list of aliases. *)
Inductive proto :=
| PStr (s : string)
| PList (l : list string).

Record handle := mk_handle {
  fs_id : nat;
  protocol : proto;
  domain : string
}.

(** The entries of an [info] dictionary that the module reads. *)
Record info := mk_info {
  itype : string;
  isize : option Z
}.

(** The fields of a parsed xet URL that the module reads. *)
Record parsed_url := mk_parsed {
  branch : string;
  path : string
}.

(** Calls that leave the module: constructors of filesystem objects, methods
    of filesystem objects and of file objects opened for writing. *)
Inductive op :=
| XetFS_new
| Filesystem (tag : string)
| Info (fs : handle) (p : string)
| AddDeduplicationHints (fs : handle) (p : string)
| OpenRb (fs : handle) (p : string)
| OpenWb (fs : handle) (p : string)
| Write (f : nat) (chunk : string)
| Close (f : nat)
| CpFile (fs : handle) (src dst : string)
| BranchInfo (fs : handle) (p : string)
| IsDir (fs : handle) (p : string)
| IsDirOrBranch (fs : handle) (p : string)
| Glob (fs : handle) (p : string)
| Find (fs : handle) (p : string)
| Makedirs (fs : handle) (p : string)
| Mv (fs : handle) (src dst : string)
| Rm (fs : handle) (p : string)
| StartTransaction (fs : handle) (message : string)
| EndTransaction (fs : handle)
| GetUsername (fs : handle)
| DuplicateRepo (fs : handle) (src dst : string)
| SetRepoAttr (fs : handle) (dest attr : string) (value : bool).

(** What a call answers when it does not raise.  A file opened for reading
    is a file object together with the finite sequence of outcomes of its
    successive [read] calls; past the end of that sequence [read] returns the
    empty chunk. *)
Definition answer (o : op) : Type :=
  match o with
  | XetFS_new | Filesystem _ => handle
  | Info _ _ => info
  | OpenRb _ _ => (nat * list (exn + string))%type
  | OpenWb _ _ => nat
  | IsDir _ _ | IsDirOrBranch _ _ => bool
  | Glob _ _ | Find _ _ => list (string * info)
  | GetUsername _ => string
  | _ => unit
  end.

(** What an execution leaves behind, in order. *)
Inductive event :=
| Call (o : op)
| Read (f : nat) (n : Z)
| Stdout (text : string)
| Stderr (text : string)
| Acquire (sem : nat)
| Release (sem : nat).

(** Outcome of a computation; [Diverge] is a recursion that was cut off. *)
Inductive res (A : Type) :=
| Ok (a : A)
| Raise (e : exn)
| Diverge.
Arguments Ok {A} a.
Arguments Raise {A} e.
Arguments Diverge {A}.

(** A submitted job once it has run: [None] when it returned, the exception
    when it raised. *)
Definition future := option exn.

Definition is_xet (p : proto) : bool :=
  match p with PStr s => s =? "xet" | PList _ => false end.

Definition proto_eqb (p q : proto) : bool :=
  match p, q with
  | PStr a, PStr b => a =? b
  | PList a, PList b => if list_eq_dec string_dec a b then true else false
  | _, _ => false
  end.

(** The events that are calls, as opposed to console output, reads and the
    semaphore. *)
Definition is_call (e : event) : bool :=
  match e with Call _ => true | _ => false end.

(** ** A scripted backend for the examples *)

Module Mock.

  (** What the backend is told to answer. *)
Record script := mk_script {
  refuses : op -> bool;
  listing : list (string * info);
  source_size : option Z;
  directory : bool;
  chunks : list (exn + string)
}.

  (** The state of the backend: the number of calls it has answered. *)
Definition world : Type := nat.

Definition reply (s : script) (o : op) : answer o :=
  match o return answer o with
  | XetFS_new => mk_handle 0 (PStr "xet") "xethub.com"
  | Filesystem tag =>
      mk_handle (String.length tag)
        (if tag =? "s3" then PList ["s3"; "s3a"] else PStr tag) ""
  | Info _ _ => mk_info "file" (source_size s)
  | OpenRb _ _ => (10, chunks s)
  | OpenWb _ _ => 11
  | IsDir _ _ | IsDirOrBranch _ _ => directory s
  | Glob _ _ | Find _ _ => listing s
  | GetUsername _ => "alice"
  | _ => tt
  end.

Definition backend (s : script) (o : op) (w : world)
    : (exn + answer o) * world :=
  (if refuses s o then inl (BackendError "refused") else inr (reply s o), S w).

  (** A stand-in for [parse_url] on [user/repo/branch/path]. *)
Definition parse_url (url domain : string) : exn + parsed_url :=
  let p := if prefix "xet://" url then PyStr.drop 6 url else url in
  match PyStr.split "/" p with
  | _ :: _ :: b :: rest => inr (mk_parsed b (PyStr.join "/" rest))
  | [_; _] => inr (mk_parsed "" "")
  | _ => inl (ValueError ("Invalid Xet URL " ++ url))
  end.

Definition repr_list (l : list string) : string :=
  "[" ++ PyStr.join ", " (map (fun s => "'" ++ s ++ "'") l) ++ "]".

Definition abspath (p : string) : string :=
  if prefix "/" p then p else "/home/alice/" ++ p.

Definition CHUNK_SIZE : Z := 1024.

Definition MAX_CONCURRENT_COPIES : nat := 0.

Definition nothing_refused (o : op) : bool := false.

  (** The handles the backend hands out. *)
Definition s3 : handle := mk_handle 2 (PStr "s3") "".

Definition gcs : handle := mk_handle 3 (PStr "gcs") "".

Definition xet : handle := mk_handle 0 (PStr "xet") "xethub.com".

Definition local : handle := mk_handle 4 (PStr "file") "".

  (** A plain file of three bytes. *)
Definition plain : script :=
  mk_script nothing_refused [] (Some 3%Z) false [inr "abc"].

  (** A directory holding a sub-directory and a file. *)
Definition tree : script :=
  mk_script nothing_refused
    [("bucket/dir/sub", mk_info "directory" (Some 0%Z));
     ("bucket/dir/a.txt", mk_info "file" (Some 3%Z))]
    (Some 0%Z) true [inr "abc"].

  (** A source that cannot be opened. *)
Definition unreadable : script :=
  mk_script (fun o => match o with OpenRb _ _ => true | _ => false end)
    [] (Some 3%Z) false [].

  (** A file of 50,000,000 bytes, read here as one short chunk. *)
Definition large : script :=
  mk_script nothing_refused [] (Some 50000000%Z) false [inr "abc"].

  (** A directory holding two files and no sub-directory. *)
Definition files : script :=
  mk_script nothing_refused
    [("bucket/dir/a.txt", mk_info "file" (Some 3%Z));
     ("bucket/dir/b.txt", mk_info "file" (Some 3%Z))]
    (Some 0%Z) true [inr "abc"].

  (** A source of two chunks. *)
Definition two_chunks : script :=
  mk_script nothing_refused [] (Some 6%Z) false [inr "abc"; inr "def"].

  (** A source whose second read raises. *)
Definition broken_read : script :=
  mk_script nothing_refused [] (Some 6%Z) false
    [inr "abc"; inl (BackendError "connection reset"); inr "def"].

  (** A xet service on which no branch is found. *)
Definition no_branch : script :=
  mk_script (fun o => match o with BranchInfo _ _ => true | _ => false end)
    [] (Some 3%Z) false [inr "abc"].

  (** A backend that refuses to move. *)
Definition stuck_mv : script :=
  mk_script (fun o => match o with Mv _ _ _ => true | _ => false end)
    [] (Some 3%Z) false [].

  (** A backend that refuses to remove [b.txt]. *)
Definition stuck_rm : script :=
  mk_script
    (fun o => match o with
              | Rm _ p => p =? "xet://alice/repo/main/b.txt"
              | _ => false
              end)
    [] (Some 3%Z) false [].

  (** A xet service that refuses to change an attribute. *)
Definition no_attr : script :=
  mk_script (fun o => match o with SetRepoAttr _ _ _ _ => true | _ => false end)
    [] (Some 3%Z) false [].

  (** A xet service that refuses to duplicate. *)
Definition no_duplicate : script :=
  mk_script (fun o => match o with DuplicateRepo _ _ _ => true | _ => false end)
    [] (Some 3%Z) false [].

  (** A source whose size cannot be looked up. *)
Definition no_info : script :=
  mk_script (fun o => match o with Info _ _ => true | _ => false end)
    [] None false [inr "abc"].

  (** A xet service that refuses deduplication hints. *)
Definition no_hints : script :=
  mk_script
    (fun o => match o with AddDeduplicationHints _ _ => true | _ => false end)
    [] (Some 50000000%Z) false [inr "abc"].

  (** An existing directory that holds nothing. *)
Definition empty_directory : script :=
  mk_script nothing_refused [] (Some 0%Z) true [].

End Mock.

(** ** The module *)

Section Core.

  (** The state of everything outside the module, and how it answers a call. *)
  Variable W : Type.
  Variable handler : forall o : op, W -> (exn + answer o) * W.

  (** [os.path.abspath], which depends on the working directory. *)
  Variable abspath : string -> string.
  (** [url_parsing.parse_url(url, domain)]. *)
  Variable parse_url : string -> string -> exn + parsed_url.
  (** [repr] of a list of strings, as an f-string renders it. *)
  Variable repr_list : list string -> string.
  (** [config.CHUNK_SIZE] and the semaphore [config.MAX_CONCURRENT_COPIES]. *)
  Variable CHUNK_SIZE : Z.
  Variable MAX_CONCURRENT_COPIES : nat.

  (** Computations: from a state of the outside to an outcome, the next state
      and the events issued. *)
Definition M (A : Type) : Type := W -> res A * W * list event.

Definition ret {A} (a : A) : M A := fun w => (Ok a, w, []).

Definition raise {A} (e : exn) : M A := fun w => (Raise e, w, []).

Definition diverge {A} : M A := fun w => (Diverge, w, []).

Definition bind {A B} (m : M A) (k : A -> M B) : M B :=
  fun w =>
    let '(r, w1, l1) := m w in
    match r with
    | Ok a => let '(r2, w2, l2) := k a w1 in (r2, w2, (l1 ++ l2)%list)
    | Raise e => (Raise e, w1, l1)
    | Diverge => (Diverge, w1, l1)
    end.

  Notation "x <- m ;; k" := (bind m (fun x => k))
    (at level 61, m at next level, right associativity).
  Notation "' pat <- m ;; k" := (bind m (fun x => match x with pat => k end))
    (at level 61, pat pattern, m at next level, right associativity).
  Notation "m ;; k" := (bind m (fun _ => k))
    (at level 61, right associativity).

Definition emit (e : event) : M unit := fun w => (Ok tt, w, [e]).

Definition call (o : op) : M (answer o) :=
  fun w =>
    let '(a, w1) := handler o w in
    match a with
    | inr v => (Ok v, w1, [Call o])
    | inl e => (Raise e, w1, [Call o])
    end.

Definition print (text : string) : M unit := emit (Stdout text).

Definition eprint (text : string) : M unit := emit (Stderr text).

Definition lift {A} (r : exn + A) : M A :=
  match r with inr a => ret a | inl e => raise e end.

  (** [try: m  except Exception as e: h e] *)
Definition try_except {A} (m : M A) (h : exn -> M A) : M A :=
  fun w =>
    let '(r, w1, l1) := m w in
    match r with
    | Raise e => let '(r2, w2, l2) := h e w1 in (r2, w2, (l1 ++ l2)%list)
    | _ => (r, w1, l1)
    end.

  (** Leaving a [with] block: [fin] runs on the way out, normal or not; an
      exception of [fin] replaces the outcome of the block. *)
Definition finally_ {A} (m : M A) (fin : M unit) : M A :=
  fun w =>
    let '(r, w1, l1) := m w in
    match r with
    | Diverge => (Diverge, w1, l1)
    | _ =>
        let '(c, w2, l2) := fin w1 in
        match c with
        | Ok _ => (r, w2, (l1 ++ l2)%list)
        | Raise e => (Raise e, w2, (l1 ++ l2)%list)
        | Diverge => (Diverge, w2, (l1 ++ l2)%list)
        end
    end.

  (** [with sem: m] *)
Definition with_semaphore {A} (sem : nat) (m : M A) : M A :=
  emit (Acquire sem) ;; finally_ m (emit (Release sem)).

  (** [executor.submit(job)], the job run when it is submitted. *)
Definition submit (job : M unit) : M future :=
  fun w =>
    let '(r, w1, l1) := job w in
    match r with
    | Ok _ => (Ok None, w1, l1)
    | Raise e => (Ok (Some e), w1, l1)
    | Diverge => (Diverge, w1, l1)
    end.

  (** [for future in futures: future.result()] *)
Fixpoint results (futures : list future) : M unit :=
  match futures with
  | [] => ret tt
  | None :: rest => results rest
  | Some e :: _ => raise e
  end.

  (** [f"{fs.protocol}"] *)
Definition str_proto (p : proto) : string :=
  match p with PStr s => s | PList l => repr_list l end.

Definition _get_fs_and_path (uri : string) : M (handle * string) :=
  if negb (PyStr.contains "://" uri) then
    fs <- call (Filesystem "file") ;;
    ret (fs, abspath uri)
  else
    let split := PyStr.split "://" uri in
    (if negb (Nat.eqb (List.length split) 2)
     then eprint ("Invalid URL: " ++ uri) else ret tt) ;;
    if nth 0 split "" =? "xet" then
      fs <- call XetFS_new ;;
      ret (fs, nth 1 split "")
    else
      fs <- call (Filesystem (nth 0 split "")) ;;
      let fs :=
        match protocol fs with
        | PList _ => mk_handle (fs_id fs) (PStr (nth 0 split "")) (domain fs)
        | PStr _ => fs
        end in
      ret (fs, nth 1 split "").

  (** The buffered copy loop over an opened source and destination. *)
Fixpoint copy_chunks (source_file : nat) (reads : list (exn + string))
    (dest_file : nat) (buffer_size : Z) : M unit :=
  emit (Read source_file buffer_size) ;;
  match reads with
  | [] => ret tt
  | inl e :: _ => raise e
  | inr chunk :: rest =>
      if chunk =? "" then ret tt
      else call (Write dest_file chunk) ;;
           copy_chunks source_file rest dest_file buffer_size
  end.

  (** The body of the [try] block of [_single_file_copy]. *)
Definition _single_file_copy_try (src_fs : handle) (src_path : string)
    (dest_fs : handle) (dest_path : string) (buffer_size : Z)
    (size_hint : option Z) : M unit :=
  (if is_xet (protocol dest_fs) then
     size_hint <- match size_hint with
                  | None => i <- call (Info src_fs src_path) ;; ret (isize i)
                  | Some _ => ret size_hint
                  end ;;
     match size_hint with
     | Some n => if (50000000 <=? n)%Z
                 then call (AddDeduplicationHints dest_fs dest_path)
                 else ret tt
     | None => ret tt
     end
   else ret tt) ;;
  ' (source_file, reads) <- call (OpenRb src_fs src_path) ;;
  finally_
    (dest_file <- call (OpenWb dest_fs dest_path) ;;
     finally_ (copy_chunks source_file reads dest_file buffer_size)
              (call (Close dest_file)))
    (call (Close source_file)).

Definition _single_file_copy (src_fs : handle) (src_path : string)
    (dest_fs : handle) (dest_path : string) (buffer_size : Z)
    (size_hint : option Z) (max_concurrent_copies : nat) : M unit :=
  if PyStr.last_item (PyStr.split "/" dest_path) =? ".gitattributes" then
    print "Skipping .gitattributes as that is required for Xet Magic"
  else
    print ("Copying " ++ src_path ++ " to " ++ dest_path ++ "...") ;;
    if is_xet (protocol src_fs) && is_xet (protocol dest_fs) then
      call (CpFile dest_fs src_path dest_path)
    else
      with_semaphore max_concurrent_copies
        (try_except
           (_single_file_copy_try src_fs src_path dest_fs dest_path
              buffer_size size_hint)
           (fun e =>
              let proto := protocol src_fs in
              print ("Failed to copy " ++ str_proto proto ++ "://"
                     ++ src_path ++ ": " ++ str_exn e))).

Definition _validate_xet_copy (src_fs : handle) (src_path : string)
    (dest_fs : handle) (dest_path : string) : M unit :=
  let srcproto := protocol src_fs in
  let destproto := protocol dest_fs in
  (if is_xet srcproto then call (BranchInfo src_fs src_path) else ret tt) ;;
  if is_xet destproto then
    branch_to_branch <-
      (if is_xet srcproto then
         src_parse <- lift (parse_url src_path (domain src_fs)) ;;
         dest_parse <- lift (parse_url dest_path (domain dest_fs)) ;;
         ret ((path src_parse =? "") && (path dest_parse =? ""))
       else ret false) ;;
    if branch_to_branch then ret tt
    else call (BranchInfo dest_fs dest_path)
  else ret tt.

Definition _isdir (fs : handle) (p : string) : M bool :=
  if is_xet (protocol fs) then call (IsDirOrBranch fs p)
  else call (IsDir fs p).

  (** [dest_for_this_path] of both loops of [_copy]. *)
Definition dest_for (dest_path relpath : string) : string :=
  if dest_path =? "/" then "/" ++ relpath else dest_path ++ "/" ++ relpath.

  (** The loop of [_copy] over the matches of a wildcard; [copy] is [_copy]
      itself, for the matches that are directories. *)
Fixpoint glob_entries
    (copy : string -> string -> bool -> option handle -> option handle ->
            nat -> M unit)
    (src_fs : handle) (src_root_dir : string) (dest_fs : handle)
    (dest_path : string) (recursive : bool)
    (items : list (string * info)) : M (list future) :=
  match items with
  | [] => ret []
  | (p, i) :: rest =>
      if (itype i =? "directory") && negb recursive then
        glob_entries copy src_fs src_root_dir dest_fs dest_path recursive rest
      else
        t <- lift (_ltrim_match p src_root_dir) ;;
        let relpath := PyStr.lstrip "/" t in
        let dest_for_this_path := dest_for dest_path relpath in
        let dest_dir :=
          PyStr.join "/" (PyStr.but_last (PyStr.split "/" dest_for_this_path)) in
        call (Makedirs dest_fs dest_dir) ;;
        fut <- (if itype i =? "directory" then
                  submit (copy (str_proto (protocol src_fs) ++ "://" ++ p)
                               (str_proto (protocol dest_fs) ++ "://"
                                ++ dest_for_this_path)
                               true (Some src_fs) (Some dest_fs)
                               MAX_CONCURRENT_COPIES)
                else
                  submit (_single_file_copy src_fs p dest_fs
                            dest_for_this_path CHUNK_SIZE (isize i)
                            MAX_CONCURRENT_COPIES)) ;;
        futures <- glob_entries copy src_fs src_root_dir dest_fs dest_path
                     recursive rest ;;
        ret (fut :: futures)
  end.

  (** The loop of [_copy] over the entries found under a directory. *)
Fixpoint find_entries (src_fs : handle) (src_path : string)
    (dest_fs : handle) (dest_path : string) (recursive : bool)
    (items : list (string * info)) : M (list future) :=
  match items with
  | [] => ret []
  | (p, i) :: rest =>
      if (itype i =? "directory") && negb recursive then
        find_entries src_fs src_path dest_fs dest_path recursive rest
      else
        t <- lift (_ltrim_match p src_path) ;;
        let relpath := PyStr.lstrip "/" t in
        let dest_for_this_path := dest_for dest_path relpath in
        let dest_dir :=
          PyStr.join "/" (PyStr.but_last (PyStr.split "/" dest_for_this_path)) in
        call (Makedirs dest_fs dest_dir) ;;
        fut <- submit (_single_file_copy src_fs p dest_fs dest_for_this_path
                         CHUNK_SIZE (isize i) MAX_CONCURRENT_COPIES) ;;
        futures <- find_entries src_fs src_path dest_fs dest_path recursive
                     rest ;;
        ret (fut :: futures)
  end.

  (** Trailing slashes removed unless the path is exactly ["/"]. *)
Definition normalize (p : string) : string :=
  if negb (p =? "/") then PyStr.rstrip "/" p else p.

  (** [_copy]; [fuel] bounds the depth of the calls of [_copy] on matches of
      a wildcard that are directories. *)
Fixpoint _copy (fuel : nat) (source destination : string) (recursive : bool)
    (_src_fs _dest_fs : option handle) (max_concurrent_copies : nat)
    : M unit :=
  match fuel with
  | O => diverge
  | S fuel' =>
      ' (src_fs, src_path) <- _get_fs_and_path source ;;
      ' (dest_fs, dest_path) <- _get_fs_and_path destination ;;
      let src_fs := match _src_fs with Some f => f | None => src_fs end in
      let dest_fs := match _dest_fs with Some f => f | None => dest_fs end in
      let srcproto := protocol src_fs in
      let destproto := protocol dest_fs in
      _validate_xet_copy src_fs src_path dest_fs dest_path ;;
      let src_path := normalize src_path in
      let dest_path := normalize dest_path in
      src_isdir <- _isdir src_fs src_path ;;
      if PyStr.contains "*" src_path then
        let src_root_dir :=
          PyStr.join "/" (PyStr.but_last (PyStr.split "/" src_path)) in
        if PyStr.contains "*" src_root_dir then
          raise (ValueError ("Invalid glob " ++ source
                   ++ ". Wildcards can only appear in the last position"))
        else
          items <- call (Glob src_fs src_path) ;;
          futures <- glob_entries (_copy fuel') src_fs src_root_dir dest_fs
                       dest_path recursive items ;;
          results futures
      else if (src_isdir : bool) then
        if is_xet srcproto && is_xet destproto then
          print ("Copying " ++ src_path ++ " to " ++ dest_path ++ "...") ;;
          call (CpFile dest_fs src_path dest_path)
        else
          items <- call (Find src_fs src_path) ;;
          futures <- find_entries src_fs src_path dest_fs dest_path recursive
                       items ;;
          results futures
      else
        _single_file_copy src_fs src_path dest_fs dest_path CHUNK_SIZE None
          max_concurrent_copies
  end.

  (** The message of [_mv]; its string is not an f-string, the braces are
      printed as they are. *)
Definition cross_protocol_message : string :=
  "Unable to move between different protocols {src_fs.protocol}, {dest_fs.protocol}"
  ++ PyStr.nl ++ "You may want to copy instead".

Definition _mv (source target : string) (recursive : bool)
    (message : string) : M unit :=
  let message :=
    if message =? "" then
      if negb recursive then "move " ++ source ++ " to " ++ target
      else "move " ++ source ++ " to " ++ target ++ " recursively"
    else message in
  ' (src_fs, src_path) <- _get_fs_and_path source ;;
  ' (dest_fs, dest_path) <- _get_fs_and_path target ;;
  (if negb (proto_eqb (protocol src_fs) (protocol dest_fs)) then
     eprint cross_protocol_message
   else ret tt) ;;
  let destproto_is_xet := is_xet (protocol dest_fs) in
  try_except
    ((if destproto_is_xet then call (StartTransaction dest_fs message)
      else ret tt) ;;
     call (Mv dest_fs src_path dest_path) ;;
     (if destproto_is_xet then call (EndTransaction dest_fs) else ret tt))
    (fun e => print (str_exn e)).

Definition is_branch_root (p : parsed_url) : bool :=
  Nat.eqb (String.length (path p)) 0 && Nat.ltb 0 (String.length (branch p)).

  (** The message of [_rm] on a branch root. *)
Definition branch_root_message : string :=
  "Cannot delete branches with 'rm' as this is a non-reversible operation and history will not be preserved. Use 'xet branch del'".

  (** The first loop of [_rm]; the answer is [true] when the loop left
      [_rm] through its [return]. *)
Fixpoint _rm_check (fs : handle) (paths : list string) : M bool :=
  match paths with
  | [] => ret false
  | p :: rest =>
      parsed_path <- lift (parse_url p (domain fs)) ;;
      if is_branch_root parsed_path then
        eprint branch_root_message ;;
        ret true
      else _rm_check fs rest
  end.

  (** The second loop of [_rm]. *)
Fixpoint _rm_each (fs : handle) (paths : list string) : M unit :=
  match paths with
  | [] => ret tt
  | p :: rest => call (Rm fs p) ;; _rm_each fs rest
  end.

  (** The body of the [try] block of [_rm]. *)
Definition _rm_try (fs : handle) (paths : list string) (message : string)
    : M unit :=
  let destproto_is_xet := is_xet (protocol fs) in
  returned <-
    (if destproto_is_xet then
       returned <- _rm_check fs paths ;;
       if (returned : bool) then ret true
       else call (StartTransaction fs message) ;; ret false
     else ret false) ;;
  if (returned : bool) then ret tt
  else
    _rm_each fs paths ;;
    if destproto_is_xet then call (EndTransaction fs) else ret tt.

Definition _rm (paths : list string) (message : string) : M unit :=
  let message :=
    if message =? "" then "delete " ++ repr_list paths else message in
  match paths with
  | [] => raise (IndexError "list index out of range")
  | first :: _ =>
      ' (fs, _) <- _get_fs_and_path first ;;
      try_except (_rm_try fs paths message) (fun e => print (str_exn e))
  end.

Definition _info (uri : string) : M info :=
  ' (fs, p) <- _get_fs_and_path uri ;;
  call (Info fs p).

Definition when (b : bool) (m : M unit) : M unit := if b then m else ret tt.

Definition _duplicate (source : string) (dest : option string)
    (private public verbose : bool) : M unit :=
  fs <- call XetFS_new ;;
  let repo_name := PyStr.last_item (PyStr.split "/" (PyStr.rstrip "/" source)) in
  dest <- match dest with
          | None =>
              username <- call (GetUsername fs) ;;
              let dest := "xet://" ++ username ++ "/" ++ repo_name in
              when verbose (print ("Duplicating to " ++ dest)) ;;
              ret dest
          | Some d => ret d
          end ;;
  call (DuplicateRepo fs source dest) ;;
  try_except
    (when private
       (when verbose (print "Duplicate Success. Changing permissions...") ;;
        call (SetRepoAttr fs dest "private" true) ;;
        when verbose (print "Repo permissions set successfully")) ;;
     when public
       (when verbose (print "Duplicate Success. Changing permissions...") ;;
        call (SetRepoAttr fs dest "public" false) ;;
        when verbose (print "Repo permissions set successfully")))
    (fun e =>
       username <- call (GetUsername fs) ;;
       when verbose
         (print ("An error has occurred setting repository permissions: "
                 ++ str_exn e) ;;
          print "Permission changes may not have been made. Please change it manually at:" ;;
          print ("  " ++ domain fs ++ "/" ++ username ++ "/" ++ repo_name
                 ++ "/settings"))).

Definition _root_copy (fuel : nat) (source destination message : string)
    (recursive : bool) (max_concurrent_copies : nat) : M unit :=
  ' (dest_fs, dest_path) <- _get_fs_and_path destination ;;
  let destproto_is_xet := is_xet (protocol dest_fs) in
  dest_isdir <- _isdir dest_fs dest_path ;;
  let destination :=
    if (dest_isdir : bool) && negb (PyStr.contains "*" source) then
      let final_source_component :=
        PyStr.last_item (PyStr.split "/" source) in
      (if negb (PyStr.endswith "/" destination) then destination ++ "/"
       else destination) ++ final_source_component
    else destination in
  when destproto_is_xet (call (StartTransaction dest_fs message)) ;;
  _copy fuel source destination recursive None None max_concurrent_copies ;;
  when destproto_is_xet (call (EndTransaction dest_fs)).

  (** ** Vocabulary of the properties *)

  (** The computation ends, in a value or in an exception, from every state. *)
Definition total {A} (m : M A) : Prop :=
  forall w, fst (fst (m w)) <> Diverge.

  (** Every event the computation issues satisfies [P]. *)
Definition emits {A} (P : event -> Prop) (m : M A) : Prop :=
  forall w, Forall P (snd (m w)).

  (** A call of [add_deduplication_hints]. *)
Definition is_hint_call (e : event) : Prop :=
  exists fs p, e = Call (AddDeduplicationHints fs p).

  (** A call of [open(..., "wb")]. *)
Definition is_open_for_write (e : event) : Prop :=
  exists fs p, e = Call (OpenWb fs p).

  (** What [_get_fs_and_path] can issue: the construction of a filesystem
      object and the report of a malformed URL. *)
Definition resolver_event (e : event) : Prop :=
  match e with
  | Call XetFS_new | Call (Filesystem _) | Stderr _ => True
  | _ => False
  end.

  (** A sequence of calls each of which returns, and the state it leads to. *)
Fixpoint run_ops (ops : list op) (w : W) : option W :=
  match ops with
  | [] => Some w
  | o :: rest =>
      match handler o w with
      | (inr _, w1) => run_ops rest w1
      | (inl _, _) => None
      end
  end.

  (** If the event sets the attribute "public", it sets it to [False]. *)
Definition public_only_false (e : event) : Prop :=
  forall fs d v, e = Call (SetRepoAttr fs d "public" v) -> v = false.

  (** What [_copy] does before it looks at wildcards: building the two
      filesystem objects, reporting a malformed URL, the branch checks and the
      directory test on the source. *)
Definition preflight_event (e : event) : Prop :=
  match e with
  | Call XetFS_new | Call (Filesystem _) | Stderr _
  | Call (BranchInfo _ _) | Call (IsDir _ _) | Call (IsDirOrBranch _ _) => True
  | _ => False
  end.

  (** The call [_isdir] makes. *)
Definition isdir_op (fs : handle) (p : string) : op :=
  if is_xet (protocol fs) then IsDirOrBranch fs p else IsDir fs p.

  (** An entry of a listing whose type is not [directory]. *)
Definition not_directory (entry : string * info) : bool :=
  negb (itype (snd entry) =? "directory").

  (** The chunks a log writes, in order. *)
Fixpoint writes_of (l : list event) : list string :=
  match l with
  | [] => []
  | Call (Write _ chunk) :: rest => chunk :: writes_of rest
  | _ :: rest => writes_of rest
  end.

  (** The log of a copy loop that reads and writes the chunks one by one. *)
Definition chunk_log (sf df : nat) (n : Z) (chunks : list string)
    : list event :=
  flat_map (fun c => [Read sf n; Call (Write df c)]) chunks.

  (** Taking or releasing the semaphore. *)
Definition is_permit_event (e : event) : Prop :=
  match e with Acquire _ | Release _ => True | _ => False end.

  (** A call of [info]. *)
Definition is_info_call (e : event) : Prop :=
  exists fs p, e = Call (Info fs p).

  (** The message [_mv] gives its transaction when the caller gives none. *)
Definition default_mv_message (source target : string) (recursive : bool)
    : string :=
  if recursive then "move " ++ source ++ " to " ++ target ++ " recursively"
  else "move " ++ source ++ " to " ++ target.

  (** [dest_dir] of the loops of [_copy]: a path without its last
      segment. *)
Definition parent_dir (p : string) : string :=
  PyStr.join "/" (PyStr.but_last (PyStr.split "/" p)).

  (** [dest_for_this_path] for an entry whose path is the source root
      followed by [t]. *)
Definition entry_dest (dest_path t : string) : string :=
  dest_for dest_path (PyStr.lstrip "/" t).

  (** What the directory loop of [_copy] has done when it has gone through
      the entries of a list, from one state of the backend to another and
      with the log it leaves: for each entry in turn, [makedirs] on the
      parent of its destination has returned, then the transfer of the entry
      to that destination, with the size of the listing as hint, has run and
      returned. *)
Inductive placed (src_fs : handle) (src_path : string) (dest_fs : handle)
    (dest_path : string)
    : list (string * info) -> W -> W -> list event -> Prop :=
| placed_nil (w : W) : placed src_fs src_path dest_fs dest_path [] w w []
| placed_cons (p : string) (i : info) (rest : list (string * info))
    (t : string) (w w1 w2 w3 : W) (lt l : list event) :
    _ltrim_match p src_path = inr t ->
    handler (Makedirs dest_fs (parent_dir (entry_dest dest_path t))) w
    = (inr tt, w1) ->
    _single_file_copy src_fs p dest_fs (entry_dest dest_path t) CHUNK_SIZE
      (isize i) MAX_CONCURRENT_COPIES w1 = (Ok tt, w2, lt) ->
    placed src_fs src_path dest_fs dest_path rest w2 w3 l ->
    placed src_fs src_path dest_fs dest_path ((p, i) :: rest) w w3
      (Call (Makedirs dest_fs (parent_dir (entry_dest dest_path t)))
       :: lt ++ l)%list.

  (** The directory loop of [_copy] stopped by an exception [e]: the entries
      before the one that stopped it have been placed; that entry either
      does not begin with the source root, and nothing was called for it, or
      its [makedirs] raised; no transfer was submitted for it. *)
Definition stopped (src_fs : handle) (src_path : string) (dest_fs : handle)
    (dest_path : string) (entries : list (string * info)) (w : W) (e : exn)
    (w' : W) (l : list event) : Prop :=
  exists done p i rest w_mid l_done,
    entries = (done ++ (p, i) :: rest)%list
    /\ placed src_fs src_path dest_fs dest_path done w w_mid l_done
    /\ ((_ltrim_match p src_path = inl e /\ w' = w_mid /\ l = l_done)
        \/ (exists t,
              _ltrim_match p src_path = inr t
              /\ handler (Makedirs dest_fs
                           (parent_dir (entry_dest dest_path t))) w_mid
                 = (inl e, w')
              /\ l = (l_done
                      ++ [Call (Makedirs dest_fs
                                  (parent_dir (entry_dest dest_path t)))])%list)).

  (** ** Properties *)

  (** *** Strings *)

Lemma take_drop (n : nat) (s : string) : PyStr.take n s ++ PyStr.drop n s = s.
Proof.
  revert s; induction n as [|n IH]; intros [|c r]; simpl; try reflexivity.
  now rewrite IH.
Qed.

Lemma take_append (p r : string) : PyStr.take (String.length p) (p ++ r) = p.
Proof. induction p as [|c p IH]; simpl; [now destruct r | now rewrite IH]. Qed.

Lemma drop_append (p r : string) : PyStr.drop (String.length p) (p ++ r) = r.
Proof. induction p as [|c p IH]; simpl; [now destruct r | exact IH]. Qed.

Lemma length_append (p r : string) :
  String.length (p ++ r) = String.length p + String.length r.
Proof. induction p as [|c p IH]; simpl; [reflexivity | now rewrite IH]. Qed.

Lemma split_go_not_nil (sep cur s : string) (skip : nat) :
  PyStr.split_go sep skip cur s <> [].
Proof.
  revert skip cur; induction s as [|c r IH]; intros skip cur; simpl.
  - easy.
  - destruct skip; [|apply IH].
    match goal with |- (if ?b then _ else _) <> _ => destruct b end;
      [easy | apply IH].
Qed.

Lemma split_not_nil (sep s : string) : PyStr.split sep s <> [].
Proof. apply split_go_not_nil. Qed.

  (** Where the separator occurs, [split] yields at least two parts, so the
      [split[1]] of [_get_fs_and_path] exists. *)
Lemma split_go_two_parts (sep cur s : string) :
  sep <> "" -> PyStr.contains sep s = true ->
  2 <= List.length (PyStr.split_go sep 0 cur s).
Proof.
  intros Hsep; revert cur; induction s as [|c r IH]; intros cur Hc.
  - cbn in Hc; apply String.eqb_eq in Hc; contradiction.
  - cbn [PyStr.contains] in Hc; cbn [PyStr.split_go].
    destruct (prefix sep (String c r)).
    + cbn [List.length].
      pose proof (split_go_not_nil sep "" r (String.length sep - 1)) as Hn.
      destruct (PyStr.split_go sep (String.length sep - 1) "" r);
        [contradiction | cbn [List.length]; lia].
    + apply IH; exact Hc.
Qed.

Lemma split_two_parts (sep s : string) :
  sep <> "" -> PyStr.contains sep s = true ->
  2 <= List.length (PyStr.split sep s).
Proof. apply split_go_two_parts. Qed.

  (** *** Computations that cannot be cut off *)

Lemma total_ret {A} (a : A) : total (ret a).
Proof. intros w; discriminate. Qed.

Lemma total_raise {A} (e : exn) : total (@raise A e).
Proof. intros w; discriminate. Qed.

Lemma total_emit (e : event) : total (emit e).
Proof. intros w; discriminate. Qed.

Lemma total_call (o : op) : total (call o).
Proof.
  intros w; unfold call; destruct (handler o w) as [[e|v] w1]; discriminate.
Qed.

Lemma total_lift {A} (r : exn + A) : total (lift r).
Proof. destruct r; [apply total_raise | apply total_ret]. Qed.

Lemma total_bind {A B} (m : M A) (k : A -> M B) :
  total m -> (forall a, total (k a)) -> total (bind m k).
Proof.
  intros Hm Hk w; unfold bind; specialize (Hm w).
  destruct (m w) as [[[a| e |] w1] l1]; simpl in *; try discriminate.
  - specialize (Hk a w1); destruct (k a w1) as [[r2 w2] l2]; exact Hk.
  - congruence.
Qed.

Lemma total_try_except {A} (m : M A) (h : exn -> M A) :
  total m -> (forall e, total (h e)) -> total (try_except m h).
Proof.
  intros Hm Hh w; unfold try_except; specialize (Hm w).
  destruct (m w) as [[[a| e |] w1] l1]; simpl in *; try discriminate.
  - specialize (Hh e w1); destruct (h e w1) as [[r2 w2] l2]; exact Hh.
  - congruence.
Qed.

Lemma total_finally {A} (m : M A) (fin : M unit) :
  total m -> total fin -> total (finally_ m fin).
Proof.
  intros Hm Hf w; unfold finally_; specialize (Hm w).
  destruct (m w) as [[[a| e |] w1] l1]; simpl in *; try congruence;
    specialize (Hf w1); destruct (fin w1) as [[[[]| e' |] w2] l2];
    simpl in *; congruence.
Qed.

Ltac total_step :=
  match goal with
  | |- total (ret _) => apply total_ret
  | |- total (raise _) => apply total_raise
  | |- total (emit _) => apply total_emit
  | |- total (print _) => apply total_emit
  | |- total (eprint _) => apply total_emit
  | |- total (call ?o) => exact (total_call o)
  | |- total (lift _) => apply total_lift
  | |- total (bind _ _) => apply total_bind; [|intros]
  | |- total (try_except _ _) => apply total_try_except; [|intros]
  | |- total (finally_ _ _) => apply total_finally
  | |- total (if ?b then _ else _) => destruct b
  | |- total (match ?x with Some _ => _ | None => _ end) => destruct x
  | |- total (match ?x with pair _ _ => _ end) => destruct x
  end.

Lemma total_copy_chunks (sf : nat) (reads : list (exn + string)) (df : nat)
    (n : Z) : total (copy_chunks sf reads df n).
Proof.
  induction reads as [|[e|chunk] rest IH]; simpl; repeat total_step.
  exact IH.
Qed.

Lemma total_single_file_copy_try src_fs src_path dest_fs dest_path n hint :
  total (_single_file_copy_try src_fs src_path dest_fs dest_path n hint).
Proof.
  unfold _single_file_copy_try; repeat total_step.
  apply total_copy_chunks.
Qed.

  (** *** Events a computation can issue *)

Lemma emits_ret {A} P (a : A) : emits P (ret a).
Proof. intros w; constructor. Qed.

Lemma emits_raise {A} P (e : exn) : emits P (@raise A e).
Proof. intros w; constructor. Qed.

Lemma emits_diverge {A} P : emits P (@diverge A).
Proof. intros w; constructor. Qed.

Lemma emits_emit (P : event -> Prop) (e : event) : P e -> emits P (emit e).
Proof. intros H w; repeat constructor; exact H. Qed.

Lemma emits_call (P : event -> Prop) (o : op) : P (Call o) -> emits P (call o).
Proof.
  intros H w; unfold call; destruct (handler o w) as [[e|v] w1];
    repeat constructor; exact H.
Qed.

Lemma emits_lift {A} P (r : exn + A) : emits P (lift r).
Proof. destruct r; [apply emits_raise | apply emits_ret]. Qed.

Lemma emits_bind {A B} P (m : M A) (k : A -> M B) :
  emits P m -> (forall a, emits P (k a)) -> emits P (bind m k).
Proof.
  intros Hm Hk w; unfold bind; specialize (Hm w).
  destruct (m w) as [[[a| e |] w1] l1]; simpl in *; try assumption.
  specialize (Hk a w1); destruct (k a w1) as [[r2 w2] l2]; simpl in *.
  apply Forall_app; split; assumption.
Qed.

Lemma emits_try_except {A} P (m : M A) (h : exn -> M A) :
  emits P m -> (forall e, emits P (h e)) -> emits P (try_except m h).
Proof.
  intros Hm Hh w; unfold try_except; specialize (Hm w).
  destruct (m w) as [[[a| e |] w1] l1]; simpl in *; try assumption.
  specialize (Hh e w1); destruct (h e w1) as [[r2 w2] l2]; simpl in *.
  apply Forall_app; split; assumption.
Qed.

Lemma emits_finally {A} P (m : M A) (fin : M unit) :
  emits P m -> emits P fin -> emits P (finally_ m fin).
Proof.
  intros Hm Hf w; unfold finally_; specialize (Hm w).
  destruct (m w) as [[[a| e |] w1] l1]; simpl in *; try assumption;
    specialize (Hf w1); destruct (fin w1) as [[[[]| e' |] w2] l2];
    simpl in *; apply Forall_app; split; assumption.
Qed.

Lemma emits_submit P (job : M unit) : emits P job -> emits P (submit job).
Proof.
  intros H w; unfold submit; specialize (H w).
  destruct (job w) as [[[a| e |] w1] l1]; exact H.
Qed.

Lemma emits_results P (futures : list future) : emits P (results futures).
Proof.
  induction futures as [|[e|] rest IH]; simpl;
    [apply emits_ret | apply emits_raise | exact IH].
Qed.

Ltac emits_step :=
  match goal with
  | |- emits _ (ret _) => apply emits_ret
  | |- emits _ (raise _) => apply emits_raise
  | |- emits _ diverge => apply emits_diverge
  | |- emits _ (emit _) => apply emits_emit
  | |- emits _ (print _) => apply emits_emit
  | |- emits _ (eprint _) => apply emits_emit
  | |- emits _ (call ?o) => apply (emits_call _ o)
  | |- emits _ (lift _) => apply emits_lift
  | |- emits _ (results _) => apply emits_results
  | |- emits _ (submit _) => apply emits_submit
  | |- emits _ (when ?b _) => destruct b; unfold when
  | |- emits _ (bind _ _) => apply emits_bind; [|intros]
  | |- emits _ (try_except _ _) => apply emits_try_except; [|intros]
  | |- emits _ (finally_ _ _) => apply emits_finally
  | |- emits _ (with_semaphore _ _) => unfold with_semaphore
  | |- emits _ (if ?b then _ else _) => destruct b
  | |- emits _ (match ?x with Some _ => _ | None => _ end) => destruct x
  | |- emits _ (match ?x with pair _ _ => _ end) => destruct x
  end.

  (** *** Logs of composed computations *)

Lemma log_bind_prefix {A B} (m : M A) (k : A -> M B) (w : W) :
  exists l2, snd (bind m k w) = (snd (m w) ++ l2)%list.
Proof.
  unfold bind; destruct (m w) as [[[a| e |] w1] l1]; simpl;
    try (exists []; now rewrite app_nil_r).
  destruct (k a w1) as [[r2 w2] l2]; simpl; now exists l2.
Qed.

Lemma log_try_prefix {A} (m : M A) (h : exn -> M A) (w : W) :
  exists l2, snd (try_except m h w) = (snd (m w) ++ l2)%list.
Proof.
  unfold try_except; destruct (m w) as [[[a| e |] w1] l1]; simpl;
    try (exists []; now rewrite app_nil_r).
  destruct (h e w1) as [[r2 w2] l2]; simpl; now exists l2.
Qed.

Lemma log_finally_prefix {A} (m : M A) (fin : M unit) (w : W) :
  exists l2, snd (finally_ m fin w) = (snd (m w) ++ l2)%list.
Proof.
  unfold finally_; destruct (m w) as [[[a| e |] w1] l1]; simpl;
    try (exists []; now rewrite app_nil_r);
    destruct (fin w1) as [[[[]| e' |] w2] l2]; simpl; now exists l2.
Qed.

  (** *** Relative paths *)

(** C5. For all strings [p] and [pre]: when [pre] is not a literal prefix of
    [p] (also when [p] is the shorter one), [_ltrim_match p pre] raises the
    path-mismatch [ValueError]; when it is, [_ltrim_match] returns, and
    [pre] followed by what it returns is [p]. *)
Theorem ltrim_match_prefix (p pre : string) :
  ((forall r, p <> pre ++ r) ->
   _ltrim_match p pre
   = inl (ValueError ("Path " ++ p ++ " not in directory " ++ pre)))
  /\ ((exists r, p = pre ++ r) ->
      exists r, _ltrim_match p pre = inr r /\ pre ++ r = p).
Proof.
  unfold _ltrim_match; split.
  - intros Hno.
    destruct (Nat.ltb (String.length p) (String.length pre)); [reflexivity|].
    destruct (PyStr.take (String.length pre) p =? pre) eqn:E; [|reflexivity].
    apply String.eqb_eq in E. exfalso.
    apply (Hno (PyStr.drop (String.length pre) p)).
    pose proof (take_drop (String.length pre) p) as Hp.
    rewrite E in Hp; symmetry; exact Hp.
  - intros [r ->]. exists r.
    rewrite length_append.
    replace (Nat.ltb (String.length pre + String.length r) (String.length pre))
      with false by (symmetry; apply Nat.ltb_ge; lia).
    rewrite take_append, String.eqb_refl; simpl.
    rewrite drop_append; split; reflexivity.
Qed.

  (** *** Single-item transfer *)

(** C7. A transfer whose destination path ends in the segment
    [.gitattributes] only prints that it skips the file: it returns, leaves
    the outside untouched and makes no call at all, so nothing is opened,
    written or copied on the destination. *)
Theorem single_file_copy_skips_gitattributes
    (w : W) (src_fs : handle) (src_path : string) (dest_fs : handle)
    (dest_path : string) (buffer_size : Z) (size_hint : option Z)
    (sem : nat) :
  PyStr.last_item (PyStr.split "/" dest_path) = ".gitattributes" ->
  _single_file_copy src_fs src_path dest_fs dest_path buffer_size size_hint
    sem w
  = (Ok tt, w,
     [Stdout "Skipping .gitattributes as that is required for Xet Magic"]).
Proof.
  intros H; unfold _single_file_copy; rewrite H; reflexivity.
Qed.

Lemma single_file_copy_general (w : W) src_fs src_path dest_fs dest_path
    buffer_size size_hint sem :
  (PyStr.last_item (PyStr.split "/" dest_path) =? ".gitattributes") = false ->
  is_xet (protocol src_fs) && is_xet (protocol dest_fs) = false ->
  _single_file_copy src_fs src_path dest_fs dest_path buffer_size size_hint
    sem w
  = match _single_file_copy_try src_fs src_path dest_fs dest_path buffer_size
            size_hint w with
    | (Ok _, w1, l1) =>
        (Ok tt, w1,
         [Stdout ("Copying " ++ src_path ++ " to " ++ dest_path ++ "...");
          Acquire sem] ++ l1 ++ [Release sem])%list
    | (Raise e, w1, l1) =>
        (Ok tt, w1,
         [Stdout ("Copying " ++ src_path ++ " to " ++ dest_path ++ "...");
          Acquire sem] ++ l1
         ++ [Stdout ("Failed to copy " ++ str_proto (protocol src_fs) ++ "://"
                     ++ src_path ++ ": " ++ str_exn e);
             Release sem])%list
    | (Diverge, w1, l1) => (Diverge, w1, [])
    end.
Proof.
  intros Hskip Hgen; unfold _single_file_copy; rewrite Hskip, Hgen.
  pose proof (total_single_file_copy_try src_fs src_path dest_fs dest_path
                buffer_size size_hint w) as Ht.
  unfold with_semaphore, bind, finally_, try_except, print, emit; simpl.
  destruct (_single_file_copy_try src_fs src_path dest_fs dest_path
              buffer_size size_hint w) as [[[[]| e |] w1] l1]; simpl in *.
  - reflexivity.
  - rewrite <- app_assoc; reflexivity.
  - congruence.
Qed.

Lemma single_file_copy_returns (w : W) src_fs src_path dest_fs dest_path
    buffer_size size_hint sem :
  is_xet (protocol src_fs) && is_xet (protocol dest_fs) = false ->
  exists w' l,
    _single_file_copy src_fs src_path dest_fs dest_path buffer_size size_hint
      sem w = (Ok tt, w', l).
Proof.
  intros Hgen.
  destruct (PyStr.last_item (PyStr.split "/" dest_path) =? ".gitattributes")
    eqn:Hskip.
  - unfold _single_file_copy; rewrite Hskip; do 2 eexists; reflexivity.
  - rewrite single_file_copy_general by assumption.
    pose proof (total_single_file_copy_try src_fs src_path dest_fs dest_path
                  buffer_size size_hint w) as Ht.
    destruct (_single_file_copy_try src_fs src_path dest_fs dest_path
                buffer_size size_hint w) as [[[[]| e |] w1] l1]; simpl in *;
      try congruence; do 2 eexists; reflexivity.
Qed.

Lemma find_entries_futures src_fs src_path dest_fs dest_path recursive :
  is_xet (protocol src_fs) && is_xet (protocol dest_fs) = false ->
  forall items w futures w' l,
    find_entries src_fs src_path dest_fs dest_path recursive items w
    = (Ok futures, w', l) ->
    Forall (fun f => f = None) futures.
Proof.
  intros Hgen; induction items as [|[p i] rest IH]; intros w futures w' l;
    simpl.
  - unfold ret; intros H; inversion H; constructor.
  - destruct ((itype i =? "directory") && negb recursive); [apply IH|].
    unfold bind at 1.
    destruct (lift (_ltrim_match p src_path) w) as [[[t| e |] w1] l1];
      try discriminate.
    unfold bind at 1.
    destruct (call (Makedirs dest_fs _) w1) as [[[[]| e |] w2] l2];
      try discriminate.
    unfold bind at 1, submit.
    match goal with
    | |- context [_single_file_copy ?a ?b ?c ?d ?e ?f ?g w2] =>
        destruct (single_file_copy_returns w2 a b c d e f g Hgen)
          as (w3 & l3 & ->)
    end.
    unfold bind at 1.
    destruct (find_entries src_fs src_path dest_fs dest_path recursive rest w3)
      as [[[futs| e |] w4] l4] eqn:E; try discriminate.
    unfold ret; intros H; inversion H; subst.
    constructor; [reflexivity | eapply IH; exact E].
Qed.

Lemma results_all_none (futures : list future) (w : W) :
  Forall (fun f => f = None) futures -> results futures w = (Ok tt, w, []).
Proof.
  induction 1 as [|f rest -> _ IH]; simpl; [reflexivity | exact IH].
Qed.

(** C4. No exception of the size lookup, the deduplication hints, an open,
    a read, a write or a close leaves a transfer: a transfer raises only on
    the xet-to-xet path, and then what [cp_file] raised.  On every other
    path it returns; when the [try] block raised, the log carries the
    message naming the source path.  The jobs a directory copy has submitted
    have therefore all returned, and collecting their results raises
    nothing. *)
Theorem single_file_copy_absorbs_errors
    (w : W) (src_fs : handle) (src_path : string) (dest_fs : handle)
    (dest_path : string) (buffer_size : Z) (size_hint : option Z)
    (sem : nat) :
  let run := _single_file_copy src_fs src_path dest_fs dest_path buffer_size
               size_hint sem w in
  (forall e w' l,
     run = (Raise e, w', l) ->
     is_xet (protocol src_fs) && is_xet (protocol dest_fs) = true
     /\ handler (CpFile dest_fs src_path dest_path) w = (inl e, w'))
  /\ (is_xet (protocol src_fs) && is_xet (protocol dest_fs) = false ->
      (exists w' l,
         run = (Ok tt, w', l)
         /\ (PyStr.last_item (PyStr.split "/" dest_path) <> ".gitattributes" ->
             forall e w1 l1,
               _single_file_copy_try src_fs src_path dest_fs dest_path
                 buffer_size size_hint w = (Raise e, w1, l1) ->
               w' = w1
               /\ l = ([Stdout ("Copying " ++ src_path ++ " to " ++ dest_path
                                ++ "...");
                        Acquire sem] ++ l1
                       ++ [Stdout ("Failed to copy "
                                   ++ str_proto (protocol src_fs) ++ "://"
                                   ++ src_path ++ ": " ++ str_exn e);
                           Release sem])%list))
      /\ (forall recursive items w0 futures w1 l1,
            find_entries src_fs src_path dest_fs dest_path recursive items w0
            = (Ok futures, w1, l1) ->
            results futures w1 = (Ok tt, w1, []))).
Proof.
  intros run; subst run; split.
  - intros e w' l Hrun.
    destruct (is_xet (protocol src_fs) && is_xet (protocol dest_fs)) eqn:Hx.
    + split; [reflexivity|].
      unfold _single_file_copy in Hrun; rewrite Hx in Hrun.
      destruct (PyStr.last_item (PyStr.split "/" dest_path)
                =? ".gitattributes"); [discriminate Hrun|].
      unfold bind, print, emit, call in Hrun.
      destruct (handler (CpFile dest_fs src_path dest_path) w)
        as [[e'|[]] w1]; inversion Hrun; reflexivity.
    + destruct (single_file_copy_returns w src_fs src_path dest_fs dest_path
                  buffer_size size_hint sem Hx) as (w1 & l1 & H).
      rewrite H in Hrun; discriminate Hrun.
  - intros Hgen; split.
    + destruct (single_file_copy_returns w src_fs src_path dest_fs dest_path
                  buffer_size size_hint sem Hgen) as (w' & l & Hrun).
      exists w', l; split; [exact Hrun|].
      intros Hskip e w1 l1 Htry.
      apply String.eqb_neq in Hskip.
      rewrite single_file_copy_general in Hrun by assumption.
      rewrite Htry in Hrun; inversion Hrun; split; reflexivity.
    + intros recursive items w0 futures w1 l1 Hrun.
      apply results_all_none.
      eapply find_entries_futures; eassumption.
Qed.

Lemma emits_copy_chunks (P : event -> Prop) sf reads df n :
  (forall f k, P (Read f k)) -> (forall f c, P (Call (Write f c))) ->
  emits P (copy_chunks sf reads df n).
Proof.
  intros Hr Hw; induction reads as [|[e|chunk] rest IH]; simpl;
    repeat emits_step; auto.
Qed.

Ltac forall_log :=
  repeat first
    [ apply Forall_nil
    | assumption
    | apply Forall_cons; [solve [auto]|]
    | apply Forall_app; split ].

(** C6. On the general path with a xet destination, let [n] be the size
    hint, or without a hint the size that [info] reports for the source.
    When [n] is at least 50,000,000 the log holds exactly one
    [add_deduplication_hints] call, for the destination path, and no open
    for write comes before it; when [n] is smaller the log holds no such
    call. *)
Theorem dedup_hints_threshold
    (w : W) (src_fs : handle) (src_path : string) (dest_fs : handle)
    (dest_path : string) (buffer_size : Z) (size_hint : option Z)
    (sem : nat) (n : Z) :
  PyStr.last_item (PyStr.split "/" dest_path) <> ".gitattributes" ->
  is_xet (protocol src_fs) = false ->
  is_xet (protocol dest_fs) = true ->
  (size_hint = Some n
   \/ (size_hint = None
       /\ exists i w1, handler (Info src_fs src_path) w = (inr i, w1)
                       /\ isize i = Some n)) ->
  let l := snd (_single_file_copy src_fs src_path dest_fs dest_path
                  buffer_size size_hint sem w) in
  ((50000000 <= n)%Z ->
   exists pre post,
     l = (pre ++ Call (AddDeduplicationHints dest_fs dest_path) :: post)%list
     /\ Forall (fun e => ~ is_open_for_write e /\ ~ is_hint_call e) pre
     /\ Forall (fun e => ~ is_hint_call e) post)
  /\ ((n < 50000000)%Z -> Forall (fun e => ~ is_hint_call e) l).
Proof.
  intros Hskip Hsrc Hdest Hsize l; subst l.
  apply String.eqb_neq in Hskip.
  rewrite single_file_copy_general
    by (try assumption; rewrite Hsrc; reflexivity).
  pose proof (total_single_file_copy_try src_fs src_path dest_fs dest_path
                buffer_size size_hint w) as Ht.
  unfold _single_file_copy_try in *; rewrite Hdest in *.
  match goal with
  | |- context [bind (call (OpenRb ?a ?b)) ?k] =>
      remember (bind (call (OpenRb a b)) k) as rest eqn:Erest
  end.
  assert (Hrest : emits (fun e => ~ is_hint_call e) rest).
  { rewrite Erest; repeat emits_step;
      try apply emits_copy_chunks; intros; intros (fs & p & H);
      discriminate H. }
  clear Erest.
  assert (Hp : forall s, ~ is_hint_call (Stdout s))
    by (intros s (fs & p & H); discriminate H).
  assert (Hq : forall s, ~ is_open_for_write (Stdout s))
    by (intros s (fs & p & H); discriminate H).
  assert (Ha : ~ is_hint_call (Acquire sem))
    by (intros (fs & p & H); discriminate H).
  assert (Ha' : ~ is_open_for_write (Acquire sem))
    by (intros (fs & p & H); discriminate H).
  assert (Hr : ~ is_hint_call (Release sem))
    by (intros (fs & p & H); discriminate H).
  assert (Hi : ~ is_hint_call (Call (Info src_fs src_path)))
    by (intros (fs & p & H); discriminate H).
  assert (Hi' : ~ is_open_for_write (Call (Info src_fs src_path)))
    by (intros (fs & p & H); discriminate H).
  destruct Hsize as [-> | (-> & i & wi & Hinfo & Hn)].
  - (* an explicit hint *)
    unfold bind, ret in Ht |- *.
    split; intros Hcmp.
    + replace (50000000 <=? n)%Z with true in *
        by (symmetry; apply Z.leb_le; exact Hcmp).
      unfold call in Ht |- *.
      destruct (handler (AddDeduplicationHints dest_fs dest_path) w)
        as [[e|[]] w1]; simpl in *.
      * exists [Stdout ("Copying " ++ src_path ++ " to " ++ dest_path ++ "...");
                Acquire sem]; eexists; split; [reflexivity|].
        split; forall_log.
      * specialize (Hrest w1).
        destruct (rest w1) as [[[[]| e |] w2] l2]; simpl in *;
          try congruence;
          (exists [Stdout ("Copying " ++ src_path ++ " to " ++ dest_path
                           ++ "...");
                   Acquire sem]; eexists; split; [reflexivity|];
           split; forall_log).
    + replace (50000000 <=? n)%Z with false in *
        by (symmetry; apply Z.leb_gt; exact Hcmp).
      specialize (Hrest w).
      destruct (rest w) as [[[[]| e |] w2] l2]; simpl in *; try congruence;
        forall_log.
  - (* the size comes from [info] *)
    unfold bind, ret, call in Ht |- *.
    rewrite Hinfo in *. rewrite Hn in *.
    split; intros Hcmp.
    + replace (50000000 <=? n)%Z with true in *
        by (symmetry; apply Z.leb_le; exact Hcmp).
      destruct (handler (AddDeduplicationHints dest_fs dest_path) wi)
        as [[e|[]] w1]; simpl in *.
      * exists [Stdout ("Copying " ++ src_path ++ " to " ++ dest_path ++ "...");
                Acquire sem; Call (Info src_fs src_path)];
          eexists; split; [reflexivity|].
        split; forall_log.
      * specialize (Hrest w1).
        destruct (rest w1) as [[[[]| e |] w2] l2]; simpl in *;
          try congruence;
          (exists [Stdout ("Copying " ++ src_path ++ " to " ++ dest_path
                           ++ "...");
                   Acquire sem; Call (Info src_fs src_path)];
           eexists; split; [reflexivity|];
           split; forall_log).
    + replace (50000000 <=? n)%Z with false in *
        by (symmetry; apply Z.leb_gt; exact Hcmp).
      specialize (Hrest wi).
      destruct (rest wi) as [[[[]| e |] w2] l2]; simpl in *; try congruence;
        forall_log.
Qed.

  (** *** URI resolution *)

Lemma get_fs_and_path_events (uri : string) :
  emits resolver_event (_get_fs_and_path uri).
Proof. unfold _get_fs_and_path; repeat emits_step; exact I. Qed.

  (** *** Delete *)

Lemma rm_check_cons (fs : handle) (q : string) (rest : list string) (w : W) :
  _rm_check fs (q :: rest) w
  = match parse_url q (domain fs) with
    | inl e => (Raise e, w, [])
    | inr r =>
        if is_branch_root r then (Ok true, w, [Stderr branch_root_message])
        else _rm_check fs rest w
    end.
Proof.
  simpl; unfold bind at 1.
  destruct (parse_url q (domain fs)) as [e|r]; simpl; [reflexivity|].
  destruct (is_branch_root r); [reflexivity|].
  destruct (_rm_check fs rest w) as [[r' w'] l']; reflexivity.
Qed.

Lemma rm_check_branch_root (fs : handle) (paths : list string) (w : W) :
  (exists p r, In p paths /\ parse_url p (domain fs) = inr r
               /\ is_branch_root r = true) ->
  _rm_check fs paths w = (Ok true, w, [Stderr branch_root_message])
  \/ (exists e p, In p paths /\ parse_url p (domain fs) = inl e
                  /\ _rm_check fs paths w = (Raise e, w, [])).
Proof.
  induction paths as [|q rest IH]; intros (p & r & Hin & Hp & Hr).
  - destruct Hin.
  - rewrite rm_check_cons.
    destruct (parse_url q (domain fs)) as [e|rq] eqn:Eq.
    + right; exists e, q; repeat split; auto. now left.
    + destruct (is_branch_root rq) eqn:Eb; [left; reflexivity|].
      destruct Hin as [-> | Hin]; [congruence|].
      destruct IH as [H | (e & p' & Hin' & Hp' & H)].
      * exists p, r; auto.
      * left; exact H.
      * right; exists e, p'; repeat split; auto. now right.
Qed.

Lemma rm_check_none (fs : handle) (paths : list string) (w : W) :
  (forall p, In p paths ->
     exists r, parse_url p (domain fs) = inr r /\ is_branch_root r = false) ->
  _rm_check fs paths w = (Ok false, w, []).
Proof.
  induction paths as [|q rest IH]; intros H; [reflexivity|].
  rewrite rm_check_cons.
  destruct (H q (or_introl eq_refl)) as (r & Hp & Hr).
  rewrite Hp, Hr.
  apply IH; intros p Hin; apply H; right; exact Hin.
Qed.

Lemma rm_each_ok (fs : handle) (paths : list string) (w w' : W) :
  run_ops (map (Rm fs) paths) w = Some w' ->
  _rm_each fs paths w = (Ok tt, w', map (fun p => Call (Rm fs p)) paths).
Proof.
  revert w; induction paths as [|q rest IH]; intros w; simpl.
  - intros H; inversion H; reflexivity.
  - unfold bind, call.
    destruct (handler (Rm fs q) w) as [[e|[]] w1]; [discriminate|].
    intros H; rewrite (IH _ H); reflexivity.
Qed.

(** C8. A delete whose first path resolves to a xet handle.  When one of
    the paths parses to a branch root, [_rm] returns after a single report
    and nothing else: no transaction is started and no path removed (the
    report is the branch message when every path parses).  When every path
    parses to something that is not a branch root and [start_transaction]
    and every [rm] return, the calls are one [start_transaction], one [rm]
    per path in order, and one [end_transaction]. *)
Theorem rm_xet_transaction
    (w : W) (first : string) (others : list string) (message : string)
    (fs : handle) (p0 : string) (w0 : W) (l0 : list event) :
  _get_fs_and_path first w = (Ok (fs, p0), w0, l0) ->
  is_xet (protocol fs) = true ->
  let msg :=
    if message =? "" then "delete " ++ repr_list (first :: others)
    else message in
  Forall resolver_event l0
  /\ ((exists p r, In p (first :: others)
                   /\ parse_url p (domain fs) = inr r
                   /\ is_branch_root r = true) ->
      exists report,
        _rm (first :: others) message w = (Ok tt, w0, l0 ++ [report])%list
        /\ is_call report = false
        /\ ((forall p, In p (first :: others) ->
                       exists r, parse_url p (domain fs) = inr r) ->
            report = Stderr branch_root_message))
  /\ ((forall p, In p (first :: others) ->
         exists r, parse_url p (domain fs) = inr r
                   /\ is_branch_root r = false) ->
      forall w1,
        run_ops (StartTransaction fs msg :: map (Rm fs) (first :: others)) w0
        = Some w1 ->
        exists tail,
          _rm (first :: others) message w
          = (Ok tt, snd (handler (EndTransaction fs) w1),
             l0 ++ Call (StartTransaction fs msg)
                :: map (fun p => Call (Rm fs p)) (first :: others)
                ++ Call (EndTransaction fs) :: tail)%list
          /\ Forall (fun e => is_call e = false) tail).
Proof.
  intros Hres Hxet msg.
  assert (Hrm : _rm (first :: others) message w
                = (let '(r, w', l) :=
                     try_except (_rm_try fs (first :: others) msg)
                       (fun e => print (str_exn e)) w0 in
                   (r, w', (l0 ++ l)%list))).
  { unfold _rm, bind; rewrite Hres; fold msg.
    destruct (try_except _ _ w0) as [[r w'] l]; reflexivity. }
  rewrite Hrm; clear Hrm.
  unfold try_except, _rm_try; rewrite Hxet.
  split; [|split].
  - pose proof (get_fs_and_path_events first w) as H.
    rewrite Hres in H; exact H.
  - intros Hroot.
    unfold bind at 1 2.
    destruct (rm_check_branch_root fs (first :: others) w0 Hroot)
      as [H | (e & p & Hin & Hp & H)]; rewrite H; simpl.
    + exists (Stderr branch_root_message); repeat split; reflexivity.
    + exists (Stdout (str_exn e)); split; [reflexivity | split; [reflexivity|]].
      intros Hall; destruct (Hall p Hin) as (r & Hr); congruence.
  - intros Hnone w1 Hrun.
    unfold bind at 1 2; rewrite (rm_check_none fs _ w0 Hnone).
    simpl in Hrun. unfold bind at 1, call at 1.
    destruct (handler (StartTransaction fs msg) w0) as [[e|[]] w2];
      [discriminate|].
    unfold ret at 1; simpl app.
    unfold bind at 1.
    rewrite (rm_each_ok fs (first :: others) w2 w1 Hrun).
    unfold call.
    destruct (handler (EndTransaction fs) w1) as [[e|[]] w3]; simpl.
    + exists [Stdout (str_exn e)]; split; [|repeat constructor].
      rewrite <- ?app_assoc; reflexivity.
    + exists []; split; [reflexivity | constructor].
Qed.

  (** *** Duplicate *)

Lemma duplicate_public_values source dest private public verbose :
  emits public_only_false (_duplicate source dest private public verbose).
Proof.
  unfold _duplicate; repeat emits_step;
    intros fs' d' v' H; try discriminate H; inversion H; reflexivity.
Qed.

(** C10. A duplicate asked to make the copy public: once the repository is
    duplicated (and the private attribute set, if also asked for), the call
    made is [set_repo_attr(dest, "public", False)] on the effective
    destination, and no call of the run sets "public" to anything else. *)
Theorem duplicate_public_sets_false
    (w w1 w2 w3 w4 : W) (source : string) (dest : option string)
    (private verbose : bool) (fs : handle) (d : string) :
  handler XetFS_new w = (inr fs, w1) ->
  match dest with
  | Some d' => d = d' /\ w2 = w1
  | None =>
      exists username,
        handler (GetUsername fs) w1 = (inr username, w2)
        /\ d = "xet://" ++ username ++ "/"
                ++ PyStr.last_item (PyStr.split "/" (PyStr.rstrip "/" source))
  end ->
  handler (DuplicateRepo fs source d) w2 = (inr tt, w3) ->
  (if private
   then handler (SetRepoAttr fs d "private" true) w3 = (inr tt, w4)
   else w4 = w3) ->
  let l := snd (_duplicate source dest private true verbose w) in
  In (Call (SetRepoAttr fs d "public" false)) l
  /\ (forall fs' d' v, In (Call (SetRepoAttr fs' d' "public" v)) l ->
                       v = false)
  /\ (forall w5, handler (SetRepoAttr fs d "public" false) w4 = (inr tt, w5) ->
                 fst (_duplicate source dest private true verbose w)
                 = (Ok tt, w5)).
Proof.
  intros Hnew Hdest Hdup Hpriv l.
  split; [|split].
  - subst l.
    destruct (handler (SetRepoAttr fs d "public" false) w4)
      as [[e|[]] w5] eqn:Hpub;
    (destruct dest as [d'|];
     [destruct Hdest as [Hd ->] | destruct Hdest as (u & Hu & Hd)];
     destruct private, verbose; try subst w4;
     unfold _duplicate, try_except, when, bind, call, print, emit, ret;
     rewrite Hnew; cbv beta iota zeta;
     try (rewrite Hu; cbv beta iota zeta);
     rewrite <- Hd, Hdup; cbv beta iota zeta;
     try (rewrite Hpriv; cbv beta iota zeta);
     rewrite Hpub; cbv beta iota zeta;
     try (destruct (handler (GetUsername fs) w5) as [[e'|u'] w6];
          cbv beta iota zeta);
     cbn [snd app In]; auto 10).
  - intros fs' d' v Hin.
    pose proof (duplicate_public_values source dest private true verbose w)
      as H.
    rewrite Forall_forall in H.
    exact (H _ Hin fs' d' v eq_refl).
  - intros w5 Hpub.
    destruct dest as [d'|];
     [destruct Hdest as [Hd ->] | destruct Hdest as (u & Hu & Hd)];
     destruct private, verbose; try subst w4;
     unfold _duplicate, try_except, when, bind, call, print, emit, ret;
     rewrite Hnew; cbv beta iota zeta;
     try (rewrite Hu; cbv beta iota zeta);
     rewrite <- Hd, Hdup; cbv beta iota zeta;
     try (rewrite Hpriv; cbv beta iota zeta);
     rewrite Hpub; reflexivity.
Qed.

  (** *** Wildcards and path segments *)

Lemma contains_star_cons (c : ascii) (s : string) :
  PyStr.contains "*" (String c s)
  = (if ascii_dec "*" c then true else false) || PyStr.contains "*" s.
Proof.
  cbn [PyStr.contains prefix];
    destruct (ascii_dec "*" c); [destruct s|]; reflexivity.
Qed.

Lemma contains_star_append (a b : string) :
  PyStr.contains "*" (a ++ b) = PyStr.contains "*" a || PyStr.contains "*" b.
Proof.
  induction a as [|c a IH].
  - reflexivity.
  - change (String c a ++ b) with (String c (a ++ b)).
    rewrite !contains_star_cons, IH, orb_assoc; reflexivity.
Qed.

Lemma contains_star_join (l : list string) (seg : string) :
  In seg l -> PyStr.contains "*" seg = true ->
  PyStr.contains "*" (PyStr.join "/" l) = true.
Proof.
  unfold PyStr.join; induction l as [|x rest IH]; intros Hin Hseg.
  - destruct Hin.
  - destruct rest as [|y rest'].
    + destruct Hin as [-> | []]; exact Hseg.
    + change (String.concat "/" (x :: y :: rest'))
        with (x ++ "/" ++ String.concat "/" (y :: rest')).
      rewrite !contains_star_append.
      destruct Hin as [-> | Hin]; [rewrite Hseg; reflexivity|].
      rewrite (IH Hin Hseg), !orb_true_r; reflexivity.
Qed.

Lemma append_assoc (a b c : string) : (a ++ b) ++ c = a ++ (b ++ c).
Proof. induction a as [|x a IH]; simpl; [reflexivity | now rewrite IH]. Qed.

Lemma prefix_empty (s : string) : prefix "" s = true.
Proof. destruct s; reflexivity. Qed.

Lemma join_split_go (cur s : string) :
  PyStr.join "/" (PyStr.split_go "/" 0 cur s) = cur ++ s.
Proof.
  unfold PyStr.join; revert cur; induction s as [|c r IH]; intros cur.
  - simpl. induction cur; simpl; congruence.
  - cbn [PyStr.split_go]. 
    cbn [prefix].
    destruct (ascii_dec "/" c) as [<- | Hne].
    + rewrite prefix_empty; cbn [String.length Nat.sub].
      specialize (IH "").
      destruct (PyStr.split_go "/" 0 "" r) as [|y rest] eqn:E;
        [exfalso; exact (split_go_not_nil _ _ _ _ E)|].
      change (String.concat "/" (cur :: y :: rest))
        with (cur ++ "/" ++ String.concat "/" (y :: rest)).
      rewrite IH; reflexivity.
    + rewrite IH, append_assoc; reflexivity.
Qed.

Lemma join_split (s : string) : PyStr.join "/" (PyStr.split "/" s) = s.
Proof. apply (join_split_go "" s). Qed.

Lemma in_but_last (l : list string) (x : string) :
  In x (PyStr.but_last l) -> In x l.
Proof.
  unfold PyStr.but_last; induction l as [|a [|b l'] IH]; simpl; intros H.
  - exact H.
  - destruct H.
  - destruct H as [-> | H]; [left; reflexivity | right; exact (IH H)].
Qed.

  (** A wildcard in a segment before the last one is what both tests of
      [_copy] look for. *)
Lemma wildcard_before_last (p seg : string) :
  In seg (PyStr.but_last (PyStr.split "/" p)) ->
  PyStr.contains "*" seg = true ->
  PyStr.contains "*" p = true
  /\ PyStr.contains "*"
       (PyStr.join "/" (PyStr.but_last (PyStr.split "/" p))) = true.
Proof.
  intros Hin Hseg; split.
  - rewrite <- (join_split p).
    eapply contains_star_join; [apply in_but_last; exact Hin | exact Hseg].
  - eapply contains_star_join; eassumption.
Qed.

  (** *** Copy *)

Lemma resolver_preflight (l : list event) :
  Forall resolver_event l -> Forall preflight_event l.
Proof.
  apply Forall_impl; intros [[]| | | | |]; simpl; auto.
Qed.

Lemma validate_xet_copy_events src_fs src_path dest_fs dest_path :
  emits preflight_event (_validate_xet_copy src_fs src_path dest_fs dest_path).
Proof. unfold _validate_xet_copy; repeat emits_step; exact I. Qed.

Lemma validate_xet_copy_total src_fs src_path dest_fs dest_path :
  total (_validate_xet_copy src_fs src_path dest_fs dest_path).
Proof. unfold _validate_xet_copy; repeat total_step. Qed.

Lemma isdir_run (fs : handle) (p : string) (w : W) :
  exists r w', _isdir fs p w = (r, w', [Call (isdir_op fs p)])
               /\ r <> Diverge.
Proof.
  unfold _isdir, isdir_op, call; destruct (is_xet (protocol fs));
    match goal with
    | |- context [handler ?o w] => destruct (handler o w) as [[e|b] w1]
    end; do 2 eexists; split; try reflexivity; discriminate.
Qed.

Lemma isdir_op_preflight (fs : handle) (p : string) :
  preflight_event (Call (isdir_op fs p)).
Proof. unfold isdir_op; destruct (is_xet (protocol fs)); exact I. Qed.

Lemma copy_glob_run
    (fuel : nat) (w : W) (source destination : string) (recursive : bool)
    (_src_fs _dest_fs : option handle) (sem : nat)
    (fs1 fs2 : handle) (p1 p2 : string) (w1 w2 : W) (l1 l2 : list event) :
  _get_fs_and_path source w = (Ok (fs1, p1), w1, l1) ->
  _get_fs_and_path destination w1 = (Ok (fs2, p2), w2, l2) ->
  let src_fs := match _src_fs with Some f => f | None => fs1 end in
  let dest_fs := match _dest_fs with Some f => f | None => fs2 end in
  PyStr.contains "*" (normalize p1) = true ->
  PyStr.contains "*"
    (PyStr.join "/" (PyStr.but_last (PyStr.split "/" (normalize p1)))) = true ->
  _copy (S fuel) source destination recursive _src_fs _dest_fs sem w
  = match _validate_xet_copy src_fs p1 dest_fs p2 w2 with
    | (Ok _, w3, l3) =>
        match _isdir src_fs (normalize p1) w3 with
        | (Ok _, w4, l4) =>
            (Raise (ValueError
               ("Invalid glob " ++ source
                ++ ". Wildcards can only appear in the last position")),
             w4, l1 ++ l2 ++ l3 ++ l4)%list
        | (Raise e, w4, l4) => (Raise e, w4, l1 ++ l2 ++ l3 ++ l4)%list
        | (Diverge, w4, l4) => (Diverge, w4, l1 ++ l2 ++ l3 ++ l4)%list
        end
    | (Raise e, w3, l3) => (Raise e, w3, l1 ++ l2 ++ l3)%list
    | (Diverge, w3, l3) => (Diverge, w3, l1 ++ l2 ++ l3)%list
    end.
Proof.
  intros Hres1 Hres2 src_fs dest_fs Hstar Hroot.
  cbn [_copy].
  unfold bind at 1; rewrite Hres1.
  unfold bind at 1; rewrite Hres2.
  fold src_fs dest_fs.
  unfold bind at 1.
  destruct (_validate_xet_copy src_fs p1 dest_fs p2 w2)
    as [[[[]| e |] w3] l3]; try reflexivity.
  unfold bind at 1.
  destruct (_isdir src_fs (normalize p1) w3) as [[[b| e |] w4] l4];
    try (rewrite <- ?app_assoc; reflexivity).
  rewrite Hstar, Hroot; unfold raise.
  rewrite app_nil_r, <- ?app_assoc; reflexivity.
Qed.

(** C3. A copy whose source path, once its trailing slashes are removed,
    has a wildcard in a segment before the last one never enumerates,
    creates a directory or transfers anything: it ends in an exception
    after the pre-flight steps only (the two filesystem objects, the branch
    checks, the directory test on the source).  When the branch checks and
    the directory test return, the exception is the invalid-glob
    [ValueError], raised right after the directory test. *)
Theorem copy_invalid_glob
    (fuel : nat) (w : W) (source destination : string) (recursive : bool)
    (_src_fs _dest_fs : option handle) (sem : nat)
    (fs1 fs2 : handle) (p1 p2 : string) (w1 w2 : W) (l1 l2 : list event)
    (seg : string) :
  _get_fs_and_path source w = (Ok (fs1, p1), w1, l1) ->
  _get_fs_and_path destination w1 = (Ok (fs2, p2), w2, l2) ->
  let src_fs := match _src_fs with Some f => f | None => fs1 end in
  let dest_fs := match _dest_fs with Some f => f | None => fs2 end in
  In seg (PyStr.but_last (PyStr.split "/" (normalize p1))) ->
  PyStr.contains "*" seg = true ->
  let run := _copy (S fuel) source destination recursive _src_fs _dest_fs
               sem w in
  Forall preflight_event (snd run)
  /\ (exists e, fst (fst run) = Raise e)
  /\ (forall w3 l3 b w4,
        _validate_xet_copy src_fs p1 dest_fs p2 w2 = (Ok tt, w3, l3) ->
        _isdir src_fs (normalize p1) w3
        = (Ok b, w4, [Call (isdir_op src_fs (normalize p1))]) ->
        run = (Raise (ValueError
                 ("Invalid glob " ++ source
                  ++ ". Wildcards can only appear in the last position")),
               w4,
               l1 ++ l2 ++ l3
               ++ [Call (isdir_op src_fs (normalize p1))])%list).
Proof.
  intros Hres1 Hres2 src_fs dest_fs Hin Hseg run.
  destruct (wildcard_before_last _ _ Hin Hseg) as [Hstar Hroot].
  pose proof (get_fs_and_path_events source w) as E1.
  pose proof (get_fs_and_path_events destination w1) as E2.
  rewrite Hres1 in E1; rewrite Hres2 in E2.
  apply resolver_preflight in E1; apply resolver_preflight in E2.
  pose proof (validate_xet_copy_events src_fs p1 dest_fs p2 w2) as E3.
  pose proof (validate_xet_copy_total src_fs p1 dest_fs p2 w2) as T3.
  subst run.
  rewrite (copy_glob_run fuel w source destination recursive _src_fs _dest_fs
             sem fs1 fs2 p1 p2 w1 w2 l1 l2 Hres1 Hres2 Hstar Hroot).
  fold src_fs dest_fs.
  destruct (_validate_xet_copy src_fs p1 dest_fs p2 w2)
    as [[[[]| e |] w3] l3]; simpl in E3, T3; [| |congruence].
  - destruct (isdir_run src_fs (normalize p1) w3) as (r & w4 & Hdir & Hr).
    rewrite Hdir.
    pose proof (isdir_op_preflight src_fs (normalize p1)) as E4.
    destruct r as [b| e |]; [| |congruence]; cbn [fst snd].
    + split; [forall_log | split; [eexists; reflexivity|]].
      intros w3' l3' b' w4' H3 H4; inversion H3; subst.
      rewrite Hdir in H4; inversion H4; subst; reflexivity.
    + split; [forall_log | split; [eexists; reflexivity|]].
      intros w3' l3' b' w4' H3 H4; inversion H3; subst.
      rewrite Hdir in H4; discriminate H4.
  - cbn [fst snd]. split; [forall_log | split; [eexists; reflexivity|]].
    intros w3' l3' b' w4' H3; discriminate H3.
Qed.

Lemma bind_ext {A B} (m : M A) (k1 k2 : A -> M B) (w : W) :
  (forall a w', k1 a w' = k2 a w') -> bind m k1 w = bind m k2 w.
Proof.
  intros H; unfold bind; destruct (m w) as [[[a| e |] w1] l1];
    try reflexivity.
  rewrite H; reflexivity.
Qed.

Lemma bind_cong {A B} (m1 m2 : M A) (k : A -> M B) (w : W) :
  m1 w = m2 w -> bind m1 k w = bind m2 k w.
Proof. intros H; unfold bind; rewrite H; reflexivity. Qed.

Lemma find_entries_skips_directories src_fs src_path dest_fs dest_path
    (items : list (string * info)) (w : W) :
  find_entries src_fs src_path dest_fs dest_path false items w
  = find_entries src_fs src_path dest_fs dest_path false
      (filter not_directory items) w.
Proof.
  revert w; induction items as [|[p i] rest IH]; intros w; [reflexivity|].
  cbn [filter find_entries]; unfold not_directory at 1; cbn [snd].
  destruct (itype i =? "directory") eqn:E; cbn [negb andb].
  - apply IH.
  - cbn [find_entries]; rewrite E; cbn [andb].
    apply bind_ext; intros t w1.
    apply bind_ext; intros [] w2.
    apply bind_ext; intros fut w3.
    apply bind_cong, IH.
Qed.

Lemma find_entries_count src_fs src_path dest_fs dest_path
    (items : list (string * info)) :
  forall w futures w' l,
    find_entries src_fs src_path dest_fs dest_path false items w
    = (Ok futures, w', l) ->
    List.length futures = List.length (filter not_directory items).
Proof.
  induction items as [|[p i] rest IH]; intros w futures w' l.
  - cbn; unfold ret; intros H; inversion H; reflexivity.
  - cbn [filter find_entries]; unfold not_directory at 1; cbn [snd].
    destruct (itype i =? "directory") eqn:E; cbn [negb andb].
    + apply IH.
    + unfold bind at 1.
      destruct (lift (_ltrim_match p src_path) w) as [[[t| e |] w1] l1];
        try discriminate.
      unfold bind at 1.
      destruct (call (Makedirs dest_fs _) w1) as [[[[]| e |] w2] l2];
        try discriminate.
      unfold bind at 1.
      destruct (submit _ w2) as [[[f| e |] w3] l3]; try discriminate.
      unfold bind at 1.
      destruct (find_entries src_fs src_path dest_fs dest_path false rest w3)
        as [[[futs| e |] w4] l4] eqn:Er; try discriminate.
      unfold ret; intros H; inversion H; subst.
      cbn [List.length]; f_equal; eapply IH; exact Er.
Qed.

Lemma bind_call_returns {B} (o : op) (k : answer o -> M B) (w w1 : W)
    (v : answer o) :
  handler o w = (inr v, w1) ->
  bind (call o) k w = (let '(r, w', l) := k v w1 in (r, w', Call o :: l)).
Proof.
  intros H; unfold bind, call; rewrite H.
  destruct (k v w1) as [[r w'] l]; reflexivity.
Qed.

Lemma copy_directory_run
    (fuel : nat) (w : W) (source destination : string) (recursive : bool)
    (_src_fs _dest_fs : option handle) (sem : nat)
    (fs1 fs2 : handle) (p1 p2 : string) (w1 w2 w3 w4 : W)
    (l1 l2 l3 l4 : list event) :
  _get_fs_and_path source w = (Ok (fs1, p1), w1, l1) ->
  _get_fs_and_path destination w1 = (Ok (fs2, p2), w2, l2) ->
  let src_fs := match _src_fs with Some f => f | None => fs1 end in
  let dest_fs := match _dest_fs with Some f => f | None => fs2 end in
  _validate_xet_copy src_fs p1 dest_fs p2 w2 = (Ok tt, w3, l3) ->
  _isdir src_fs (normalize p1) w3 = (Ok true, w4, l4) ->
  PyStr.contains "*" (normalize p1) = false ->
  let run := _copy (S fuel) source destination recursive _src_fs _dest_fs
               sem w in
  if is_xet (protocol src_fs) && is_xet (protocol dest_fs) then
    run = (let '(r, w', l) :=
             call (CpFile dest_fs (normalize p1) (normalize p2)) w4 in
           (r, w',
            l1 ++ l2 ++ l3 ++ l4
            ++ Stdout ("Copying " ++ normalize p1 ++ " to " ++ normalize p2
                       ++ "...") :: l)%list)
  else
    forall items w5,
      handler (Find src_fs (normalize p1)) w4 = (inr items, w5) ->
      run = (let '(r, w', l) :=
               (futures <- find_entries src_fs (normalize p1) dest_fs
                             (normalize p2) recursive items ;;
                results futures) w5 in
             (r, w',
              l1 ++ l2 ++ l3 ++ l4
              ++ Call (Find src_fs (normalize p1)) :: l)%list).
Proof.
  intros Hres1 Hres2 src_fs dest_fs Hval Hdir Hstar run; subst run.
  destruct (is_xet (protocol src_fs) && is_xet (protocol dest_fs)) eqn:Hx;
    [|intros items w5 Hfind];
    cbn [_copy];
    (unfold bind at 1; rewrite Hres1);
    (unfold bind at 1; rewrite Hres2);
    fold src_fs dest_fs;
    (unfold bind at 1; rewrite Hval);
    (unfold bind at 1; rewrite Hdir);
    rewrite Hstar, Hx.
  - unfold bind, print, emit, call.
    destruct (handler (CpFile dest_fs (normalize p1) (normalize p2)) w4)
      as [[e|[]] w5]; rewrite <- ?app_assoc; reflexivity.
  - rewrite (bind_call_returns _ _ _ _ _ Hfind).
    destruct ((futures <- find_entries src_fs (normalize p1) dest_fs
                            (normalize p2) recursive items ;;
               results futures) w5) as [[r7 w7] l7].
    rewrite <- ?app_assoc; reflexivity.
Qed.

Lemma find_entries_outcome src_fs src_path dest_fs dest_path
    (items : list (string * info)) :
  is_xet (protocol src_fs) && is_xet (protocol dest_fs) = false ->
  forall w,
    match find_entries src_fs src_path dest_fs dest_path false items w with
    | (Ok _, w', l) =>
        placed src_fs src_path dest_fs dest_path
          (filter not_directory items) w w' l
    | (Raise e, w', l) =>
        stopped src_fs src_path dest_fs dest_path
          (filter not_directory items) w e w' l
    | (Diverge, _, _) => False
    end.
Proof.
  intros Hgen; induction items as [|[p i] rest IH]; intros w.
  - cbn; constructor.
  - assert (Hf : filter not_directory ((p, i) :: rest)
                 = if itype i =? "directory" then filter not_directory rest
                   else (p, i) :: filter not_directory rest)
      by (cbn [filter]; unfold not_directory at 1; cbn [snd];
          destruct (itype i =? "directory"); reflexivity).
    rewrite Hf; clear Hf; cbn [find_entries].
    destruct (itype i =? "directory") eqn:E; cbn [negb andb]; [apply IH|].
    unfold bind at 1.
    destruct (_ltrim_match p src_path) as [e|t] eqn:Ht; cbn [lift];
      unfold raise, ret.
    { exists [], p, i, (filter not_directory rest), w, [].
      split; [reflexivity | split; [constructor | left; auto]]. }
    cbn [app]; unfold bind at 1, call.
    fold (entry_dest dest_path t).
    fold (parent_dir (entry_dest dest_path t)).
    destruct (handler (Makedirs dest_fs (parent_dir (entry_dest dest_path t)))
                w) as [[e|[]] w1] eqn:Hmk.
    { exists [], p, i, (filter not_directory rest), w, [].
      split; [reflexivity | split; [constructor | right]].
      exists t; auto. }
    unfold bind at 1, submit.
    destruct (single_file_copy_returns w1 src_fs p dest_fs
                (entry_dest dest_path t) CHUNK_SIZE (isize i)
                MAX_CONCURRENT_COPIES Hgen) as (w2 & lt & Hcp).
    rewrite Hcp.
    unfold bind at 1.
    specialize (IH w2).
    destruct (find_entries src_fs src_path dest_fs dest_path false rest w2)
      as [[[futs| e |] w3] l3]; unfold ret; cbn [app];
      rewrite ?app_nil_r.
    + econstructor; eassumption.
    + destruct IH as (done & q & j & rest' & w_mid & l_done & Hsplit & Hdone
                      & Hlast).
      exists ((p, i) :: done), q, j, rest', w_mid.
      destruct Hlast as [(Hq & -> & ->) | (t' & Hq & Hmk' & ->)].
      * eexists; split; [rewrite Hsplit; reflexivity|].
        split; [econstructor; eassumption | left; auto].
      * eexists; split; [rewrite Hsplit; reflexivity|].
        split; [econstructor; eassumption | right].
        exists t'; split; [exact Hq | split; [exact Hmk'|]].
        cbn [app]; rewrite <- ?app_assoc; reflexivity.
    + exact IH.
Qed.

(** C2. A copy whose source is a directory (no wildcard) with
    [recursive=False].  Between two xet handles the tree is copied by one
    [cp_file] call.  Otherwise, once [find] has returned its listing, the
    entries it reports with type [directory] are skipped, with no directory
    created and no transfer submitted for them: the run is the one over the
    listing without them.  The other entries are handled in the order of the
    listing: for each, [makedirs] is called on the parent of its
    destination, then its transfer is submitted with the size of the listing
    as hint, and returns.  When the loop gets through, there is one future
    per such entry and the copy returns.  The loop stops at the first such
    entry whose path does not begin with the source path or whose
    [makedirs] raises: the exception is the outcome of the copy, nothing is
    transferred for that entry and nothing is done for the later ones.  The
    loop always ends in one of these two ways. *)
Theorem copy_directory_not_recursive
    (fuel : nat) (w : W) (source destination : string)
    (_src_fs _dest_fs : option handle) (sem : nat)
    (fs1 fs2 : handle) (p1 p2 : string) (w1 w2 w3 w4 : W)
    (l1 l2 l3 : list event) :
  _get_fs_and_path source w = (Ok (fs1, p1), w1, l1) ->
  _get_fs_and_path destination w1 = (Ok (fs2, p2), w2, l2) ->
  let src_fs := match _src_fs with Some f => f | None => fs1 end in
  let dest_fs := match _dest_fs with Some f => f | None => fs2 end in
  let src_path := normalize p1 in
  let dest_path := normalize p2 in
  _validate_xet_copy src_fs p1 dest_fs p2 w2 = (Ok tt, w3, l3) ->
  _isdir src_fs src_path w3 = (Ok true, w4, [Call (isdir_op src_fs src_path)]) ->
  PyStr.contains "*" src_path = false ->
  let run := _copy (S fuel) source destination false _src_fs _dest_fs sem w in
  let pre := (l1 ++ l2 ++ l3 ++ [Call (isdir_op src_fs src_path)])%list in
  if is_xet (protocol src_fs) && is_xet (protocol dest_fs) then
    run = (let '(r, w', l) := call (CpFile dest_fs src_path dest_path) w4 in
           (r, w',
            pre ++ Stdout ("Copying " ++ src_path ++ " to " ++ dest_path
                           ++ "...") :: l)%list)
  else
    forall items w5,
      handler (Find src_fs src_path) w4 = (inr items, w5) ->
      let loop :=
        find_entries src_fs src_path dest_fs dest_path false items w5 in
      run = (let '(r, w', l) :=
               (futures <- find_entries src_fs src_path dest_fs dest_path
                             false (filter not_directory items) ;;
                results futures) w5 in
             (r, w', pre ++ Call (Find src_fs src_path) :: l)%list)
      /\ (forall futures w6 l6,
            loop = (Ok futures, w6, l6) ->
            List.length futures = List.length (filter not_directory items)
            /\ run = (Ok tt, w6,
                      pre ++ Call (Find src_fs src_path) :: l6)%list
            /\ placed src_fs src_path dest_fs dest_path
                 (filter not_directory items) w5 w6 l6)
      /\ (forall e w6 l6,
            loop = (Raise e, w6, l6) ->
            run = (Raise e, w6,
                   pre ++ Call (Find src_fs src_path) :: l6)%list
            /\ stopped src_fs src_path dest_fs dest_path
                 (filter not_directory items) w5 e w6 l6)
      /\ fst (fst loop) <> Diverge.
Proof.
  intros Hres1 Hres2 src_fs dest_fs src_path dest_path Hval Hdir Hstar run pre.
  pose proof (copy_directory_run fuel w source destination false _src_fs
                _dest_fs sem fs1 fs2 p1 p2 w1 w2 w3 w4 l1 l2 l3 _ Hres1 Hres2
                Hval Hdir Hstar) as Hrun.
  cbv zeta in Hrun; fold src_fs dest_fs src_path dest_path run in Hrun.
  destruct (is_xet (protocol src_fs) && is_xet (protocol dest_fs)) eqn:Hx.
  - rewrite Hrun.
    destruct (call (CpFile dest_fs src_path dest_path) w4) as [[r w'] l].
    subst pre; rewrite <- ?app_assoc; reflexivity.
  - intros items w5 Hfind loop.
    rewrite (Hrun items w5 Hfind).
    pose proof (find_entries_outcome src_fs src_path dest_fs dest_path items
                  Hx w5) as Hout.
    fold loop in Hout.
    split; [|split; [|split]].
    + rewrite (bind_cong _ _ _ _
                 (find_entries_skips_directories src_fs src_path dest_fs
                    dest_path items w5)).
      destruct ((futures <- find_entries src_fs src_path dest_fs dest_path
                              false (filter not_directory items) ;;
                 results futures) w5) as [[r w'] l].
      subst pre; rewrite <- ?app_assoc; reflexivity.
    + intros futures w6 l6 Hloop; split; [|split].
      * eapply find_entries_count; exact Hloop.
      * unfold bind; fold loop; rewrite Hloop.
        rewrite (results_all_none futures w6)
          by (eapply find_entries_futures; eassumption).
        subst pre; rewrite app_nil_r, <- ?app_assoc; reflexivity.
      * rewrite Hloop in Hout; exact Hout.
    + intros e w6 l6 Hloop; split.
      * unfold bind; fold loop; rewrite Hloop.
        subst pre; rewrite <- ?app_assoc; reflexivity.
      * rewrite Hloop in Hout; exact Hout.
    + destruct loop as [[[futs| e |] w6] l6]; cbn [fst];
        [discriminate | discriminate | destruct Hout].
Qed.

  (** *** Move and malformed URLs *)

  (** Between handles of different protocols, the destination not being
      xet, [_mv] prints its complaint and calls [mv] on the destination
      all the same. *)
Lemma mv_between_protocols
    (w : W) (source target : string) (recursive : bool) (message : string)
    (fs1 fs2 : handle) (p1 p2 : string) (w1 w2 : W) (l1 l2 : list event) :
  _get_fs_and_path source w = (Ok (fs1, p1), w1, l1) ->
  _get_fs_and_path target w1 = (Ok (fs2, p2), w2, l2) ->
  proto_eqb (protocol fs1) (protocol fs2) = false ->
  is_xet (protocol fs2) = false ->
  exists tail,
    _mv source target recursive message w
    = (Ok tt, snd (handler (Mv fs2 p1 p2) w2),
       l1 ++ l2 ++ Stderr cross_protocol_message
          :: Call (Mv fs2 p1 p2) :: tail)%list
    /\ Forall (fun e => is_call e = false) tail.
Proof.
  intros Hres1 Hres2 Hne Hx.
  unfold _mv.
  unfold bind at 1; rewrite Hres1.
  unfold bind at 1; rewrite Hres2.
  rewrite Hne, Hx; cbn [negb].
  unfold try_except, bind, eprint, print, emit, call, ret.
  destruct (handler (Mv fs2 p1 p2) w2) as [[e|[]] w3]; cbn [snd fst].
  - exists [Stdout (str_exn e)]; split; [reflexivity | repeat constructor].
  - exists []; split; [reflexivity | constructor].
Qed.

  (** A URI with the separator more than once is reported and then used:
      the filesystem of its first part is built and its second part is the
      path. *)
Lemma get_fs_and_path_malformed (w : W) (uri : string) :
  PyStr.contains "://" uri = true ->
  List.length (PyStr.split "://" uri) <> 2 ->
  exists o,
    snd (_get_fs_and_path uri w)
    = [Stderr ("Invalid URL: " ++ uri); Call o]
    /\ (o = XetFS_new \/ o = Filesystem (nth 0 (PyStr.split "://" uri) "")).
Proof.
  intros Hc Hlen; unfold _get_fs_and_path; rewrite Hc; cbn [negb].
  apply Nat.eqb_neq in Hlen; rewrite Hlen; cbn [negb].
  destruct (nth 0 (PyStr.split "://" uri) "" =? "xet").
  - exists XetFS_new; split; [|left; reflexivity].
    unfold bind, eprint, emit, call, ret.
    destruct (handler XetFS_new w) as [[e|fs] w1]; reflexivity.
  - eexists; split; [|right; reflexivity].
    unfold bind, eprint, emit, call, ret.
    destruct (handler (Filesystem _) w) as [[e|fs] w1]; reflexivity.
Qed.

  (** ** Further properties of the module *)

  (** *** More on strings *)

Lemma append_nil_r (s : string) : s ++ "" = s.
Proof. induction s as [|c s IH]; simpl; [reflexivity | now rewrite IH]. Qed.

Lemma contains_cons_false (sub : string) (c : ascii) (s : string) :
  PyStr.contains sub (String c s) = false ->
  prefix sub (String c s) = false /\ PyStr.contains sub s = false.
Proof. cbn [PyStr.contains]; apply orb_false_elim. Qed.

Lemma split_go_no_sep (sep cur s : string) :
  PyStr.contains sep s = false -> PyStr.split_go sep 0 cur s = [cur ++ s].
Proof.
  revert cur; induction s as [|c r IH]; intros cur Hc.
  - cbn; now rewrite append_nil_r.
  - apply contains_cons_false in Hc; destruct Hc as [Hp Hr].
    cbn [PyStr.split_go]; rewrite Hp, (IH _ Hr), append_assoc; reflexivity.
Qed.

  (** The separator ["://"] cannot start inside a tag that does not hold it
      and end inside the separator that follows the tag. *)
Lemma uri_separator_no_overlap (c : ascii) (t rest : string) :
  PyStr.contains "://" (String c t) = false ->
  prefix "://" (String c t ++ "://" ++ rest) = false.
Proof.
  intros Hc; apply contains_cons_false in Hc; destruct Hc as [Hp _].
  revert Hp; cbn [append prefix].
  destruct (ascii_dec ":" c) as [<-|]; [|reflexivity].
  destruct t as [|c2 t]; cbn [append prefix]; [reflexivity|].
  destruct (ascii_dec "/" c2) as [<-|]; [|reflexivity].
  destruct t as [|c3 t]; cbn [append prefix]; [reflexivity|].
  destruct (ascii_dec "/" c3) as [<-|]; [|reflexivity].
  rewrite !prefix_empty; intros H; exact H.
Qed.

Lemma split_go_uri (cur tag p : string) :
  PyStr.contains "://" tag = false -> PyStr.contains "://" p = false ->
  PyStr.split_go "://" 0 cur (tag ++ "://" ++ p) = [cur ++ tag; p].
Proof.
  intros Ht Hp; revert cur; induction tag as [|c t IH]; intros cur.
  - cbn [append PyStr.split_go prefix String.length Nat.sub].
    destruct (ascii_dec ":" ":") as [_|N]; [|now elim N].
    destruct (ascii_dec "/" "/") as [_|N]; [|now elim N].
    rewrite prefix_empty, (split_go_no_sep _ _ _ Hp), append_nil_r.
    reflexivity.
  - pose proof (uri_separator_no_overlap c t p Ht) as Hno.
    change (String c t ++ "://" ++ p) with (String c (t ++ "://" ++ p))
      in Hno |- *.
    cbn [PyStr.split_go]; rewrite Hno.
    apply contains_cons_false in Ht; destruct Ht as [_ Ht].
    rewrite (IH Ht), append_assoc; reflexivity.
Qed.

Lemma split_uri_parts (tag p : string) :
  PyStr.contains "://" tag = false -> PyStr.contains "://" p = false ->
  PyStr.split "://" (tag ++ "://" ++ p) = [tag; p].
Proof. intros Ht Hp; apply (split_go_uri "" tag p Ht Hp). Qed.

Lemma contains_uri_separator (tag p : string) :
  PyStr.contains "://" (tag ++ "://" ++ p) = true.
Proof.
  induction tag as [|c t IH].
  - cbn [append PyStr.contains prefix].
    destruct (ascii_dec ":" ":") as [_|N]; [|now elim N].
    destruct (ascii_dec "/" "/") as [_|N]; [|now elim N].
    rewrite prefix_empty; reflexivity.
  - change (String c t ++ "://" ++ p) with (String c (t ++ "://" ++ p)).
    cbn [PyStr.contains]; rewrite IH; apply orb_true_r.
Qed.

  (** *** Resolution of well-formed URIs *)

(** X1. A URI [tag://path] in which neither part holds the separator
    resolves with one constructor call and no report: [XetFS()] for the tag
    [xet], [fsspec.filesystem(tag)] otherwise.  The path comes back
    unchanged; a protocol the backend reports as a list is replaced by the
    tag; an exception of the constructor is the outcome. *)
Theorem get_fs_and_path_well_formed (w : W) (tag p : string) :
  PyStr.contains "://" tag = false ->
  PyStr.contains "://" p = false ->
  _get_fs_and_path (tag ++ "://" ++ p) w
  = if tag =? "xet" then
      match handler XetFS_new w with
      | (inr fs, w1) => (Ok (fs, p), w1, [Call XetFS_new])
      | (inl e, w1) => (Raise e, w1, [Call XetFS_new])
      end
    else
      match handler (Filesystem tag) w with
      | (inr fs, w1) =>
          (Ok (match protocol fs with
               | PList _ => mk_handle (fs_id fs) (PStr tag) (domain fs)
               | PStr _ => fs
               end, p), w1, [Call (Filesystem tag)])
      | (inl e, w1) => (Raise e, w1, [Call (Filesystem tag)])
      end.
Proof.
  intros Ht Hp; unfold _get_fs_and_path.
  rewrite contains_uri_separator, (split_uri_parts tag p Ht Hp).
  cbn [negb List.length Nat.eqb nth].
  unfold bind, ret, call.
  destruct (tag =? "xet").
  - destruct (handler XetFS_new w) as [[e|fs] w1]; reflexivity.
  - destruct (handler (Filesystem tag) w) as [[e|fs] w1]; reflexivity.
Qed.


  (** *** Trailing slashes *)

Lemma rstrip_no_trailing (c : ascii) (s : string) :
  PyStr.endswith c (PyStr.rstrip c s) = false.
Proof.
  induction s as [|a r IH]; [reflexivity|].
  cbn [PyStr.rstrip].
  destruct (Ascii.eqb a c) eqn:Ea; cbn [andb].
  - destruct (PyStr.rstrip c r) as [|b r'] eqn:Er; [reflexivity|].
    cbn [String.eqb PyStr.endswith]; exact IH.
  - destruct (PyStr.rstrip c r) as [|b r'] eqn:Er.
    + cbn [PyStr.endswith]; exact Ea.
    + cbn [PyStr.endswith]; exact IH.
Qed.

Lemma rstrip_fixed (c : ascii) (s : string) :
  PyStr.endswith c s = false -> PyStr.rstrip c s = s.
Proof.
  induction s as [|a r IH]; [reflexivity|].
  destruct r as [|b r'].
  - cbn [PyStr.endswith PyStr.rstrip]; intros ->; reflexivity.
  - intros H; change (PyStr.endswith c (String b r') = false) in H.
    cbn [PyStr.rstrip] in IH |- *; rewrite (IH H).
    cbn [String.eqb]; rewrite andb_false_r; reflexivity.
Qed.

Lemma rstrip_removes_only (c : ascii) (s : string) :
  exists t, s = PyStr.rstrip c s ++ t /\ PyStr.lstrip c t = "".
Proof.
  induction s as [|a r (t & Hr & Ht)].
  - exists ""; split; reflexivity.
  - cbn [PyStr.rstrip].
    destruct (Ascii.eqb a c && (PyStr.rstrip c r =? "")) eqn:E.
    + apply andb_prop in E; destruct E as [Ea Er].
      apply Ascii.eqb_eq in Ea; apply String.eqb_eq in Er; subst a.
      exists (String c r); split; [reflexivity|].
      cbn [PyStr.lstrip]; rewrite Ascii.eqb_refl.
      rewrite Er in Hr; cbn in Hr; rewrite Hr; exact Ht.
    + exists t; split; [|exact Ht].
      cbn [append]; rewrite <- Hr; reflexivity.
Qed.

(** X3. The normalisation [_copy] applies to both paths removes trailing
    slashes and nothing else, leaves a path that is ["/"] or does not end
    in a slash, and changes nothing when applied again. *)
Theorem normalize_trailing_slashes (p : string) :
  (exists t, p = normalize p ++ t /\ PyStr.lstrip "/" t = "")
  /\ (normalize p = "/" \/ PyStr.endswith "/" (normalize p) = false)
  /\ normalize (normalize p) = normalize p.
Proof.
  unfold normalize.
  destruct (p =? "/") eqn:E; cbn [negb].
  - apply String.eqb_eq in E; subst p.
    split; [exists ""; split; reflexivity | split; [left|]; reflexivity].
  - split; [apply rstrip_removes_only|].
    split; [right; apply rstrip_no_trailing|].
    destruct (PyStr.rstrip "/" p =? "/"); cbn [negb]; [reflexivity|].
    apply rstrip_fixed, rstrip_no_trailing.
Qed.

  (** *** More on the single-item transfer *)

Lemma single_file_copy_try_events (P : event -> Prop)
    src_fs src_path dest_fs dest_path n hint :
  (forall o, P (Call o)) -> (forall f k, P (Read f k)) ->
  emits P (_single_file_copy_try src_fs src_path dest_fs dest_path n hint).
Proof.
  intros Hc Hr; unfold _single_file_copy_try; repeat emits_step; auto.
  apply emits_copy_chunks; auto.
Qed.

(** X4. A transfer that streams (not skipped, not xet to xet) takes the
    semaphore once, right after announcing the copy, and releases it once,
    as the last thing it does, whether the copy succeeded or failed.  A
    skipped or xet-to-xet transfer never touches the semaphore. *)
Theorem single_file_copy_permit
    (w : W) (src_fs : handle) (src_path : string) (dest_fs : handle)
    (dest_path : string) (buffer_size : Z) (size_hint : option Z)
    (sem : nat) :
  let run := _single_file_copy src_fs src_path dest_fs dest_path buffer_size
               size_hint sem w in
  if (PyStr.last_item (PyStr.split "/" dest_path) =? ".gitattributes")
     || is_xet (protocol src_fs) && is_xet (protocol dest_fs)
  then Forall (fun e => ~ is_permit_event e) (snd run)
  else exists mid,
      snd run
      = (Stdout ("Copying " ++ src_path ++ " to " ++ dest_path ++ "...")
         :: Acquire sem :: mid ++ [Release sem])%list
      /\ Forall (fun e => ~ is_permit_event e) mid.
Proof.
  intros run; subst run.
  destruct (PyStr.last_item (PyStr.split "/" dest_path) =? ".gitattributes")
    eqn:Hskip; cbn [orb].
  - unfold _single_file_copy; rewrite Hskip.
    repeat constructor; intros [].
  - destruct (is_xet (protocol src_fs) && is_xet (protocol dest_fs)) eqn:Hx.
    + unfold _single_file_copy; rewrite Hskip, Hx.
      unfold bind, print, emit, call.
      destruct (handler (CpFile dest_fs src_path dest_path) w)
        as [[e|[]] w1]; repeat constructor; intros [].
    + rewrite (single_file_copy_general w src_fs src_path dest_fs dest_path
                 buffer_size size_hint sem Hskip Hx).
      pose proof (total_single_file_copy_try src_fs src_path dest_fs
                    dest_path buffer_size size_hint w) as Ht.
      pose proof (single_file_copy_try_events
                    (fun e => ~ is_permit_event e) src_fs src_path dest_fs
                    dest_path buffer_size size_hint
                    (fun o H => H) (fun f k H => H) w) as He.
      destruct (_single_file_copy_try src_fs src_path dest_fs dest_path
                  buffer_size size_hint w) as [[[[]| e |] w1] l1];
        cbn [fst snd] in *; [| |congruence].
      * exists l1; split; [reflexivity | exact He].
      * exists (l1 ++ [Stdout ("Failed to copy "
                               ++ str_proto (protocol src_fs) ++ "://"
                               ++ src_path ++ ": " ++ str_exn e)])%list.
        split; [cbn [app]; rewrite <- app_assoc; reflexivity|].
        apply Forall_app; split; [exact He|].
        repeat constructor; intros [].
Qed.

(** X5. Files are closed on every way out of a transfer to a destination
    that is not xet: once the source is open, a destination that cannot be
    opened still has the source closed; once both are open, whatever the
    copy loop did, the destination is closed and then the source. *)
Theorem single_file_copy_closes_files
    (w w1 : W) (src_fs : handle) (src_path : string) (dest_fs : handle)
    (dest_path : string) (buffer_size : Z) (size_hint : option Z)
    (sf : nat) (reads : list (exn + string)) :
  is_xet (protocol dest_fs) = false ->
  handler (OpenRb src_fs src_path) w = (inr (sf, reads), w1) ->
  snd (_single_file_copy_try src_fs src_path dest_fs dest_path buffer_size
         size_hint w)
  = match handler (OpenWb dest_fs dest_path) w1 with
    | (inl _, _) =>
        [Call (OpenRb src_fs src_path); Call (OpenWb dest_fs dest_path);
         Call (Close sf)]
    | (inr df, w2) =>
        ([Call (OpenRb src_fs src_path); Call (OpenWb dest_fs dest_path)]
         ++ snd (copy_chunks sf reads df buffer_size w2)
         ++ [Call (Close df); Call (Close sf)])%list
    end.
Proof.
  intros Hx Hopen; unfold _single_file_copy_try; rewrite Hx.
  unfold bind at 1; unfold ret at 1.
  unfold bind at 1, call at 1; rewrite Hopen.
  unfold finally_ at 1, bind at 1, call at 1.
  destruct (handler (OpenWb dest_fs dest_path) w1) as [[e|df] w2].
  - unfold call; destruct (handler (Close sf) w2) as [[e'|[]] w3]; reflexivity.
  - unfold finally_.
    pose proof (total_copy_chunks sf reads df buffer_size w2) as Ht.
    destruct (copy_chunks sf reads df buffer_size w2)
      as [[[[]| e |] w3] l3]; cbn [fst snd] in *; [| |congruence];
      unfold call;
      destruct (handler (Close df) w3) as [[e1|[]] w4];
      destruct (handler (Close sf) w4) as [[e2|[]] w5];
      cbn [snd app]; rewrite <- ?app_assoc; reflexivity.
Qed.

Lemma copy_chunks_prefix (sf df : nat) (n : Z) (chunks : list string)
    (rest : list (exn + string)) (w w1 : W) :
  Forall (fun c => c <> "") chunks ->
  run_ops (map (Write df) chunks) w = Some w1 ->
  copy_chunks sf (map inr chunks ++ rest) df n w
  = (let '(r, w', l) := copy_chunks sf rest df n w1 in
     (r, w', chunk_log sf df n chunks ++ l)%list).
Proof.
  intros Hne; revert w; induction Hne as [|c chunks Hc _ IH]; intros w Hrun.
  - cbn in Hrun; inversion Hrun; subst.
    cbn [map app chunk_log flat_map].
    destruct (copy_chunks sf rest df n w1) as [[r w'] l]; reflexivity.
  - cbn [map app copy_chunks run_ops] in Hrun |- *.
    apply String.eqb_neq in Hc; rewrite Hc.
    unfold bind at 1, emit at 1.
    unfold bind at 1, call at 1.
    destruct (handler (Write df c) w) as [[e|[]] w2]; [discriminate|].
    rewrite (IH w2 Hrun).
    destruct (copy_chunks sf rest df n w1) as [[r w'] l]; reflexivity.
Qed.

Lemma writes_of_app (l1 l2 : list event) :
  writes_of (l1 ++ l2) = (writes_of l1 ++ writes_of l2)%list.
Proof.
  induction l1 as [|e l1 IH]; [reflexivity|].
  destruct e as [[]| | | | |]; cbn [app writes_of]; rewrite ?IH; reflexivity.
Qed.

Lemma writes_of_chunk_log (sf df : nat) (n : Z) (chunks : list string) :
  writes_of (chunk_log sf df n chunks) = chunks.
Proof.
  induction chunks as [|c chunks IH]; [reflexivity|].
  cbn [chunk_log flat_map app writes_of]; fold (chunk_log sf df n chunks).
  now rewrite IH.
Qed.

  (** A transfer to a destination that is not xet whose opens, writes and
      closes all return: its outcome is that of the reads. *)
Lemma single_file_copy_stream_run
    (w w1 w2 w3 w4 w5 : W) (src_fs : handle) (src_path : string)
    (dest_fs : handle) (dest_path : string) (buffer_size : Z)
    (size_hint : option Z) (sf df : nat) (chunks : list string)
    (rest : list (exn + string)) :
  is_xet (protocol dest_fs) = false ->
  Forall (fun c => c <> "") chunks ->
  handler (OpenRb src_fs src_path) w = (inr (sf, (map inr chunks ++ rest)%list), w1) ->
  handler (OpenWb dest_fs dest_path) w1 = (inr df, w2) ->
  run_ops (map (Write df) chunks) w2 = Some w3 ->
  handler (Close df) w3 = (inr tt, w4) ->
  handler (Close sf) w4 = (inr tt, w5) ->
  (rest = [] \/ exists e tl, rest = inl e :: tl) ->
  _single_file_copy_try src_fs src_path dest_fs dest_path buffer_size
    size_hint w
  = (match rest with inl e :: _ => Raise e | _ => Ok tt end, w5,
     [Call (OpenRb src_fs src_path); Call (OpenWb dest_fs dest_path)]
     ++ chunk_log sf df buffer_size chunks
     ++ [Read sf buffer_size; Call (Close df); Call (Close sf)])%list.
Proof.
  intros Hx Hne Hsrc Hdst Hwr Hc1 Hc2 Hrest.
  unfold _single_file_copy_try; rewrite Hx.
  unfold bind at 1; unfold ret at 1.
  unfold bind at 1, call at 1; rewrite Hsrc.
  unfold finally_ at 1, bind at 1, call at 1; rewrite Hdst.
  unfold finally_ at 1.
  rewrite (copy_chunks_prefix sf df buffer_size chunks rest w2 w3 Hne Hwr).
  destruct Hrest as [-> | (e & tl & ->)];
    cbn [copy_chunks]; unfold bind, emit, ret, raise, call;
    rewrite Hc1, Hc2; cbn [app]; rewrite <- ?app_assoc; reflexivity.
Qed.

(** X6. A transfer to a destination that is not xet, when both opens, every
    write and both closes return and the source yields non-empty chunks
    until its end: it returns, and the chunks written to the destination
    are exactly the chunks read from the source, in order; one more read
    finds the end of the source, then the destination and the source are
    closed and the semaphore released. *)
Theorem single_file_copy_streams_chunks
    (w w1 w2 w3 w4 w5 : W) (src_fs : handle) (src_path : string)
    (dest_fs : handle) (dest_path : string) (buffer_size : Z)
    (size_hint : option Z) (sem sf df : nat) (chunks : list string) :
  PyStr.last_item (PyStr.split "/" dest_path) <> ".gitattributes" ->
  is_xet (protocol dest_fs) = false ->
  Forall (fun c => c <> "") chunks ->
  handler (OpenRb src_fs src_path) w = (inr (sf, map inr chunks), w1) ->
  handler (OpenWb dest_fs dest_path) w1 = (inr df, w2) ->
  run_ops (map (Write df) chunks) w2 = Some w3 ->
  handler (Close df) w3 = (inr tt, w4) ->
  handler (Close sf) w4 = (inr tt, w5) ->
  let run := _single_file_copy src_fs src_path dest_fs dest_path buffer_size
               size_hint sem w in
  run = (Ok tt, w5,
         [Stdout ("Copying " ++ src_path ++ " to " ++ dest_path ++ "...");
          Acquire sem;
          Call (OpenRb src_fs src_path); Call (OpenWb dest_fs dest_path)]
         ++ chunk_log sf df buffer_size chunks
         ++ [Read sf buffer_size; Call (Close df); Call (Close sf);
             Release sem])%list
  /\ writes_of (snd run) = chunks.
Proof.
  intros Hskip Hx Hne Hsrc Hdst Hwr Hc1 Hc2 run.
  apply String.eqb_neq in Hskip.
  assert (Hrun : run = (Ok tt, w5,
            [Stdout ("Copying " ++ src_path ++ " to " ++ dest_path ++ "...");
             Acquire sem;
             Call (OpenRb src_fs src_path); Call (OpenWb dest_fs dest_path)]
            ++ chunk_log sf df buffer_size chunks
            ++ [Read sf buffer_size; Call (Close df); Call (Close sf);
                Release sem])%list).
  { subst run.
    rewrite single_file_copy_general
      by (try assumption; rewrite Hx; apply andb_false_r).
    rewrite <- (app_nil_r (map inr chunks)) in Hsrc.
    rewrite (single_file_copy_stream_run w w1 w2 w3 w4 w5 src_fs src_path
               dest_fs dest_path buffer_size size_hint sf df chunks []
               Hx Hne Hsrc Hdst Hwr Hc1 Hc2 (or_introl eq_refl)).
    cbn [app]; rewrite <- ?app_assoc; reflexivity. }
  split; [exact Hrun|].
  rewrite Hrun; cbn [snd app writes_of].
  rewrite writes_of_app, writes_of_chunk_log; cbn [writes_of].
  apply app_nil_r.
Qed.

(** X7. The same transfer when a read raises after some chunks: the chunks
    read before it stay written, nothing is removed, the destination and
    the source are closed, the failure is printed with the source path and
    the transfer returns. *)
Theorem single_file_copy_read_error
    (w w1 w2 w3 w4 w5 : W) (src_fs : handle) (src_path : string)
    (dest_fs : handle) (dest_path : string) (buffer_size : Z)
    (size_hint : option Z) (sem sf df : nat) (chunks : list string)
    (e : exn) (later : list (exn + string)) :
  PyStr.last_item (PyStr.split "/" dest_path) <> ".gitattributes" ->
  is_xet (protocol dest_fs) = false ->
  Forall (fun c => c <> "") chunks ->
  handler (OpenRb src_fs src_path) w
  = (inr (sf, (map inr chunks ++ inl e :: later)%list), w1) ->
  handler (OpenWb dest_fs dest_path) w1 = (inr df, w2) ->
  run_ops (map (Write df) chunks) w2 = Some w3 ->
  handler (Close df) w3 = (inr tt, w4) ->
  handler (Close sf) w4 = (inr tt, w5) ->
  let run := _single_file_copy src_fs src_path dest_fs dest_path buffer_size
               size_hint sem w in
  run = (Ok tt, w5,
         [Stdout ("Copying " ++ src_path ++ " to " ++ dest_path ++ "...");
          Acquire sem;
          Call (OpenRb src_fs src_path); Call (OpenWb dest_fs dest_path)]
         ++ chunk_log sf df buffer_size chunks
         ++ [Read sf buffer_size; Call (Close df); Call (Close sf);
             Stdout ("Failed to copy " ++ str_proto (protocol src_fs)
                     ++ "://" ++ src_path ++ ": " ++ str_exn e);
             Release sem])%list
  /\ writes_of (snd run) = chunks.
Proof.
  intros Hskip Hx Hne Hsrc Hdst Hwr Hc1 Hc2 run.
  apply String.eqb_neq in Hskip.
  assert (Hrun : run = (Ok tt, w5,
            [Stdout ("Copying " ++ src_path ++ " to " ++ dest_path ++ "...");
             Acquire sem;
             Call (OpenRb src_fs src_path); Call (OpenWb dest_fs dest_path)]
            ++ chunk_log sf df buffer_size chunks
            ++ [Read sf buffer_size; Call (Close df); Call (Close sf);
                Stdout ("Failed to copy " ++ str_proto (protocol src_fs)
                        ++ "://" ++ src_path ++ ": " ++ str_exn e);
                Release sem])%list).
  { subst run.
    rewrite single_file_copy_general
      by (try assumption; rewrite Hx; apply andb_false_r).
    rewrite (single_file_copy_stream_run w w1 w2 w3 w4 w5 src_fs src_path
               dest_fs dest_path buffer_size size_hint sf df chunks
               (inl e :: later) Hx Hne Hsrc Hdst Hwr Hc1 Hc2
               (or_intror (ex_intro _ e (ex_intro _ later eq_refl)))).
    cbn [app]; rewrite <- ?app_assoc; reflexivity. }
  split; [exact Hrun|].
  rewrite Hrun; cbn [snd app writes_of].
  rewrite writes_of_app, writes_of_chunk_log; cbn [writes_of].
  apply app_nil_r.
Qed.

(** X8. The size of the source is looked up only when it is needed: a
    transfer to a destination that is not xet, or one that was given a size
    hint, never calls [info]; a streaming transfer to xet without a hint
    calls [info] on the source first of all. *)
Theorem single_file_copy_size_lookup
    (w : W) (src_fs : handle) (src_path : string) (dest_fs : handle)
    (dest_path : string) (buffer_size : Z) (size_hint : option Z)
    (sem : nat) :
  let l := snd (_single_file_copy src_fs src_path dest_fs dest_path
                  buffer_size size_hint sem w) in
  (is_xet (protocol dest_fs) = false \/ size_hint <> None ->
   Forall (fun e => ~ is_info_call e) l)
  /\ (PyStr.last_item (PyStr.split "/" dest_path) <> ".gitattributes" ->
      is_xet (protocol src_fs) = false ->
      is_xet (protocol dest_fs) = true ->
      size_hint = None ->
      exists rest,
        l = Stdout ("Copying " ++ src_path ++ " to " ++ dest_path ++ "...")
            :: Acquire sem :: Call (Info src_fs src_path) :: rest).
Proof.
  intros l; subst l; split.
  - intros Hcase.
    assert (He : emits (fun e => ~ is_info_call e)
                   (_single_file_copy src_fs src_path dest_fs dest_path
                      buffer_size size_hint sem)).
    { unfold _single_file_copy, _single_file_copy_try.
      destruct (is_xet (protocol dest_fs)) eqn:Hx.
      - destruct size_hint as [k|];
          [|destruct Hcase as [H|H]; [discriminate H | now elim H]].
        repeat emits_step; try apply emits_copy_chunks; intros;
          intros (fs & p & H); discriminate H.
      - repeat emits_step; try apply emits_copy_chunks; intros;
          intros (fs & p & H); discriminate H. }
    apply He.
  - intros Hskip Hsrc Hdest ->.
    apply String.eqb_neq in Hskip.
    rewrite single_file_copy_general
      by (try assumption; rewrite Hsrc; reflexivity).
    pose proof (total_single_file_copy_try src_fs src_path dest_fs dest_path
                  buffer_size None w) as Ht.
    unfold _single_file_copy_try in *; rewrite Hdest in *.
    match goal with
    | |- context [bind (call (OpenRb ?a ?b)) ?k] =>
        remember (bind (call (OpenRb a b)) k) as rest eqn:Erest
    end.
    clear Erest.
    unfold bind, ret, call in Ht |- *.
    destruct (handler (Info src_fs src_path) w) as [[e|i] wi];
      [cbn [snd app]; eexists; reflexivity|].
    destruct (isize i) as [k|];
      [destruct (50000000 <=? k)%Z;
       [destruct (handler (AddDeduplicationHints dest_fs dest_path) wi)
          as [[e|[]] wa]; [cbn [snd app]; eexists; reflexivity|]|]|];
      match goal with
      | |- context [rest ?x] =>
          destruct (rest x) as [[[[]| e |] w2] l2]
      end; cbn [fst snd app] in *; try congruence; eexists; reflexivity.
Qed.

  (** *** Validation *)

(** X9. Which branch checks [_validate_xet_copy] makes.  With no xet
    handle it makes no call at all.  With a xet destination only, it checks
    the destination branch and parses nothing.  Between two xet handles,
    once the source branch is found and both paths parse: when both parse to
    an empty in-branch path the destination branch is not checked; otherwise
    it is, and its failure is the outcome. *)
Theorem validate_xet_copy_checks
    (w : W) (src_fs : handle) (src_path : string) (dest_fs : handle)
    (dest_path : string) :
  let run := _validate_xet_copy src_fs src_path dest_fs dest_path w in
  (is_xet (protocol src_fs) = false -> is_xet (protocol dest_fs) = false ->
   run = (Ok tt, w, []))
  /\ (is_xet (protocol src_fs) = false -> is_xet (protocol dest_fs) = true ->
      run = match handler (BranchInfo dest_fs dest_path) w with
            | (inr _, w1) => (Ok tt, w1, [Call (BranchInfo dest_fs dest_path)])
            | (inl e, w1) =>
                (Raise e, w1, [Call (BranchInfo dest_fs dest_path)])
            end)
  /\ (is_xet (protocol src_fs) = true -> is_xet (protocol dest_fs) = true ->
      forall w1 ps pd,
        handler (BranchInfo src_fs src_path) w = (inr tt, w1) ->
        parse_url src_path (domain src_fs) = inr ps ->
        parse_url dest_path (domain dest_fs) = inr pd ->
        run = if (path ps =? "") && (path pd =? "")
              then (Ok tt, w1, [Call (BranchInfo src_fs src_path)])
              else match handler (BranchInfo dest_fs dest_path) w1 with
                   | (inr _, w2) =>
                       (Ok tt, w2,
                        [Call (BranchInfo src_fs src_path);
                         Call (BranchInfo dest_fs dest_path)])
                   | (inl e, w2) =>
                       (Raise e, w2,
                        [Call (BranchInfo src_fs src_path);
                         Call (BranchInfo dest_fs dest_path)])
                   end).
Proof.
  intros run; subst run; unfold _validate_xet_copy.
  split; [|split].
  - intros -> ->; reflexivity.
  - intros -> ->; unfold bind, ret, call.
    destruct (handler (BranchInfo dest_fs dest_path) w) as [[e|[]] w1];
      reflexivity.
  - intros -> -> w1 ps pd Hsrc Hps Hpd.
    unfold bind, ret, call, lift; rewrite Hsrc, Hps, Hpd; cbn [ret].
    unfold ret.
    destruct ((path ps =? "") && (path pd =? "")); [reflexivity|].
    destruct (handler (BranchInfo dest_fs dest_path) w1) as [[e|[]] w2];
      reflexivity.
Qed.

(** X10. A copy from a xet source whose branch check raises ends there:
    [_copy] raises the same exception right after the two filesystem
    objects are built, on the path as the caller wrote it, before the
    directory test, any enumeration or any transfer. *)
Theorem copy_aborts_on_missing_source_branch
    (fuel : nat) (w : W) (source destination : string) (recursive : bool)
    (_src_fs _dest_fs : option handle) (sem : nat)
    (fs1 fs2 : handle) (p1 p2 : string) (w1 w2 w3 : W) (l1 l2 : list event)
    (e : exn) :
  _get_fs_and_path source w = (Ok (fs1, p1), w1, l1) ->
  _get_fs_and_path destination w1 = (Ok (fs2, p2), w2, l2) ->
  let src_fs := match _src_fs with Some f => f | None => fs1 end in
  is_xet (protocol src_fs) = true ->
  handler (BranchInfo src_fs p1) w2 = (inl e, w3) ->
  _copy (S fuel) source destination recursive _src_fs _dest_fs sem w
  = (Raise e, w3, l1 ++ l2 ++ [Call (BranchInfo src_fs p1)])%list.
Proof.
  intros Hres1 Hres2 src_fs Hx Hbranch.
  cbn [_copy].
  unfold bind at 1; rewrite Hres1.
  unfold bind at 1; rewrite Hres2.
  fold src_fs.
  unfold bind at 1, _validate_xet_copy; rewrite Hx.
  unfold bind at 1, call at 1; rewrite Hbranch.
  reflexivity.
Qed.

  (** *** More on copy *)

  (** The steps of [_copy] up to the directory test, for any continuation
      of the log. *)
Lemma copy_single_file_run
    (fuel : nat) (w : W) (source destination : string) (recursive : bool)
    (_src_fs _dest_fs : option handle) (sem : nat)
    (fs1 fs2 : handle) (p1 p2 : string) (w1 w2 w3 w4 : W)
    (l1 l2 l3 l4 : list event) :
  _get_fs_and_path source w = (Ok (fs1, p1), w1, l1) ->
  _get_fs_and_path destination w1 = (Ok (fs2, p2), w2, l2) ->
  let src_fs := match _src_fs with Some f => f | None => fs1 end in
  let dest_fs := match _dest_fs with Some f => f | None => fs2 end in
  _validate_xet_copy src_fs p1 dest_fs p2 w2 = (Ok tt, w3, l3) ->
  _isdir src_fs (normalize p1) w3 = (Ok false, w4, l4) ->
  PyStr.contains "*" (normalize p1) = false ->
  _copy (S fuel) source destination recursive _src_fs _dest_fs sem w
  = (let '(r, w', l) :=
       _single_file_copy src_fs (normalize p1) dest_fs (normalize p2)
         CHUNK_SIZE None sem w4 in
     (r, w', l1 ++ l2 ++ l3 ++ l4 ++ l)%list).
Proof.
  intros Hres1 Hres2 src_fs dest_fs Hval Hdir Hstar.
  cbn [_copy].
  unfold bind at 1; rewrite Hres1.
  unfold bind at 1; rewrite Hres2.
  fold src_fs dest_fs.
  unfold bind at 1; rewrite Hval.
  unfold bind at 1; rewrite Hdir.
  rewrite Hstar.
  destruct (_single_file_copy src_fs (normalize p1) dest_fs (normalize p2)
              CHUNK_SIZE None sem w4) as [[r w'] l].
  rewrite <- ?app_assoc; reflexivity.
Qed.

(** X11. A copy whose source is neither a wildcard nor a directory is one
    transfer: after the pre-flight steps [_copy] runs [_single_file_copy]
    on the two paths without their trailing slashes, with no size hint and
    with the caller's semaphore; it creates no directory itself and the
    [recursive] flag plays no part. *)
Theorem copy_single_file
    (fuel : nat) (w : W) (source destination : string) (recursive : bool)
    (_src_fs _dest_fs : option handle) (sem : nat)
    (fs1 fs2 : handle) (p1 p2 : string) (w1 w2 w3 w4 : W)
    (l1 l2 l3 : list event) :
  _get_fs_and_path source w = (Ok (fs1, p1), w1, l1) ->
  _get_fs_and_path destination w1 = (Ok (fs2, p2), w2, l2) ->
  let src_fs := match _src_fs with Some f => f | None => fs1 end in
  let dest_fs := match _dest_fs with Some f => f | None => fs2 end in
  _validate_xet_copy src_fs p1 dest_fs p2 w2 = (Ok tt, w3, l3) ->
  _isdir src_fs (normalize p1) w3
  = (Ok false, w4, [Call (isdir_op src_fs (normalize p1))]) ->
  PyStr.contains "*" (normalize p1) = false ->
  _copy (S fuel) source destination recursive _src_fs _dest_fs sem w
  = (let '(r, w', l) :=
       _single_file_copy src_fs (normalize p1) dest_fs (normalize p2)
         CHUNK_SIZE None sem w4 in
     (r, w',
      l1 ++ l2 ++ l3 ++ Call (isdir_op src_fs (normalize p1)) :: l)%list).
Proof.
  intros Hres1 Hres2 src_fs dest_fs Hval Hdir Hstar.
  exact (copy_single_file_run fuel w source destination recursive _src_fs
           _dest_fs sem fs1 fs2 p1 p2 w1 w2 w3 w4 l1 l2 l3 _ Hres1 Hres2
           Hval Hdir Hstar).
Qed.

Lemma find_entries_recursive_irrelevant src_fs src_path dest_fs dest_path
    (r1 r2 : bool) (items : list (string * info)) (w : W) :
  forallb not_directory items = true ->
  find_entries src_fs src_path dest_fs dest_path r1 items w
  = find_entries src_fs src_path dest_fs dest_path r2 items w.
Proof.
  revert w; induction items as [|[p i] rest IH]; intros w H; [reflexivity|].
  cbn [forallb] in H; apply andb_prop in H; destruct H as [Hi Hrest].
  unfold not_directory in Hi; cbn [snd] in Hi.
  apply negb_true_iff in Hi.
  cbn [find_entries]; rewrite Hi; cbn [andb].
  apply bind_ext; intros t w1.
  apply bind_ext; intros [] w2.
  apply bind_ext; intros fut w3.
  apply bind_cong, IH, Hrest.
Qed.

  (** Directory mode between handles that are not both xet, whatever [find]
      answers. *)
Lemma copy_directory_listing_run
    (fuel : nat) (w : W) (source destination : string) (recursive : bool)
    (_src_fs _dest_fs : option handle) (sem : nat)
    (fs1 fs2 : handle) (p1 p2 : string) (w1 w2 w3 w4 : W)
    (l1 l2 l3 l4 : list event) :
  _get_fs_and_path source w = (Ok (fs1, p1), w1, l1) ->
  _get_fs_and_path destination w1 = (Ok (fs2, p2), w2, l2) ->
  let src_fs := match _src_fs with Some f => f | None => fs1 end in
  let dest_fs := match _dest_fs with Some f => f | None => fs2 end in
  _validate_xet_copy src_fs p1 dest_fs p2 w2 = (Ok tt, w3, l3) ->
  _isdir src_fs (normalize p1) w3 = (Ok true, w4, l4) ->
  PyStr.contains "*" (normalize p1) = false ->
  is_xet (protocol src_fs) && is_xet (protocol dest_fs) = false ->
  _copy (S fuel) source destination recursive _src_fs _dest_fs sem w
  = match handler (Find src_fs (normalize p1)) w4 with
    | (inr items, w5) =>
        let '(r, w', l) :=
          (futures <- find_entries src_fs (normalize p1) dest_fs
                        (normalize p2) recursive items ;;
           results futures) w5 in
        (r, w',
         l1 ++ l2 ++ l3 ++ l4 ++ Call (Find src_fs (normalize p1)) :: l)%list
    | (inl e, w5) =>
        (Raise e, w5,
         l1 ++ l2 ++ l3 ++ l4 ++ [Call (Find src_fs (normalize p1))])%list
    end.
Proof.
  intros Hres1 Hres2 src_fs dest_fs Hval Hdir Hstar Hx.
  cbn [_copy].
  unfold bind at 1; rewrite Hres1.
  unfold bind at 1; rewrite Hres2.
  fold src_fs dest_fs.
  unfold bind at 1; rewrite Hval.
  unfold bind at 1; rewrite Hdir.
  rewrite Hstar, Hx.
  unfold bind at 1, call at 1.
  destruct (handler (Find src_fs (normalize p1)) w4) as [[e|items] w5].
  - rewrite <- ?app_assoc; reflexivity.
  - destruct ((futures <- find_entries src_fs (normalize p1) dest_fs
                            (normalize p2) recursive items ;;
               results futures) w5) as [[r7 w7] l7].
    rewrite <- ?app_assoc; reflexivity.
Qed.

(** X12. In a directory copy the [recursive] flag matters only for entries
    of type [directory]: when the listing of the source holds none (or the
    copy is xet to xet), the copy with [recursive=True] and the copy with
    [recursive=False] are the same run. *)
Theorem copy_directory_recursive_irrelevant
    (fuel : nat) (w : W) (source destination : string)
    (_src_fs _dest_fs : option handle) (sem : nat)
    (fs1 fs2 : handle) (p1 p2 : string) (w1 w2 w3 w4 : W)
    (l1 l2 l3 l4 : list event) :
  _get_fs_and_path source w = (Ok (fs1, p1), w1, l1) ->
  _get_fs_and_path destination w1 = (Ok (fs2, p2), w2, l2) ->
  let src_fs := match _src_fs with Some f => f | None => fs1 end in
  let dest_fs := match _dest_fs with Some f => f | None => fs2 end in
  _validate_xet_copy src_fs p1 dest_fs p2 w2 = (Ok tt, w3, l3) ->
  _isdir src_fs (normalize p1) w3 = (Ok true, w4, l4) ->
  PyStr.contains "*" (normalize p1) = false ->
  (forall items w5,
     handler (Find src_fs (normalize p1)) w4 = (inr items, w5) ->
     forallb not_directory items = true) ->
  _copy (S fuel) source destination true _src_fs _dest_fs sem w
  = _copy (S fuel) source destination false _src_fs _dest_fs sem w.
Proof.
  intros Hres1 Hres2 src_fs dest_fs Hval Hdir Hstar Hfiles.
  destruct (is_xet (protocol src_fs) && is_xet (protocol dest_fs)) eqn:Hx.
  - pose proof (copy_directory_run fuel w source destination true _src_fs
                  _dest_fs sem fs1 fs2 p1 p2 w1 w2 w3 w4 l1 l2 l3 l4 Hres1
                  Hres2 Hval Hdir Hstar) as Ht.
    pose proof (copy_directory_run fuel w source destination false _src_fs
                  _dest_fs sem fs1 fs2 p1 p2 w1 w2 w3 w4 l1 l2 l3 l4 Hres1
                  Hres2 Hval Hdir Hstar) as Hf.
    cbv zeta in Ht, Hf; fold src_fs dest_fs in Ht, Hf.
    rewrite Hx in Ht, Hf; rewrite Ht, Hf; reflexivity.
  - rewrite (copy_directory_listing_run fuel w source destination true
               _src_fs _dest_fs sem fs1 fs2 p1 p2 w1 w2 w3 w4 l1 l2 l3 l4
               Hres1 Hres2 Hval Hdir Hstar Hx).
    rewrite (copy_directory_listing_run fuel w source destination false
               _src_fs _dest_fs sem fs1 fs2 p1 p2 w1 w2 w3 w4 l1 l2 l3 l4
               Hres1 Hres2 Hval Hdir Hstar Hx).
    fold src_fs dest_fs.
    destruct (handler (Find src_fs (normalize p1)) w4) as [[e|items] w5]
      eqn:Hfind; [reflexivity|].
    rewrite (bind_cong _ _ _ _
               (find_entries_recursive_irrelevant src_fs (normalize p1)
                  dest_fs (normalize p2) true false items w5
                  (Hfiles items w5 eq_refl))).
    reflexivity.
Qed.

Lemma ltrim_match_append (root t : string) :
  _ltrim_match (root ++ t) root = inr t.
Proof.
  unfold _ltrim_match; rewrite length_append.
  replace (Nat.ltb (String.length root + String.length t)
             (String.length root))
    with false by (symmetry; apply Nat.ltb_ge; lia).
  rewrite take_append, String.eqb_refl, drop_append; reflexivity.
Qed.

Lemma ltrim_match_mismatch (p root : string) :
  (forall t, p <> root ++ t) ->
  _ltrim_match p root
  = inl (ValueError ("Path " ++ p ++ " not in directory " ++ root)).
Proof.
  intros Hno; unfold _ltrim_match.
  destruct (Nat.ltb (String.length p) (String.length root)); [reflexivity|].
  destruct (PyStr.take (String.length root) p =? root) eqn:E; [|reflexivity].
  apply String.eqb_eq in E; exfalso.
  apply (Hno (PyStr.drop (String.length root) p)).
  pose proof (take_drop (String.length root) p) as Hp.
  rewrite E in Hp; symmetry; exact Hp.
Qed.

Lemma split_go_last_segment (cur a b : string) :
  PyStr.contains "/" b = false ->
  PyStr.split_go "/" 0 cur (a ++ "/" ++ b)
  = (PyStr.split_go "/" 0 cur a ++ [b])%list.
Proof.
  intros Hb; revert cur; induction a as [|c a IH]; intros cur.
  - cbn [append PyStr.split_go prefix String.length Nat.sub app].
    destruct (ascii_dec "/" "/") as [_|N]; [|now elim N].
    rewrite prefix_empty, (split_go_no_sep _ _ _ Hb); reflexivity.
  - change (String c a ++ "/" ++ b) with (String c (a ++ "/" ++ b)).
    cbn [PyStr.split_go prefix String.length Nat.sub].
    destruct (ascii_dec "/" c) as [<-|_].
    + rewrite !prefix_empty, IH; reflexivity.
    + apply IH.
Qed.

Lemma but_last_snoc (l : list string) (x : string) :
  PyStr.but_last (l ++ [x]) = l.
Proof. apply removelast_last. Qed.

Lemma last_item_snoc (l : list string) (x : string) :
  PyStr.last_item (l ++ [x]) = x.
Proof. apply last_last. Qed.

  (** The parent of [a/b] is [a], and its last segment is [b], when [b] holds
      no slash. *)
Lemma parent_of_child (a b : string) :
  PyStr.contains "/" b = false ->
  PyStr.join "/" (PyStr.but_last (PyStr.split "/" (a ++ "/" ++ b))) = a
  /\ PyStr.last_item (PyStr.split "/" (a ++ "/" ++ b)) = b.
Proof.
  intros Hb; unfold PyStr.split.
  rewrite (split_go_last_segment "" a b Hb), but_last_snoc, last_item_snoc.
  split; [apply (join_split a) | reflexivity].
Qed.

Lemma bind_ret_l {A B} (a : A) (k : A -> M B) (w : W) :
  bind (ret a) k w = k a w.
Proof. unfold bind, ret; destruct (k a w) as [[r w'] l]; reflexivity. Qed.

(** X13. How a directory copy places an entry.  For an entry whose path is
    the source root followed by [t], the relative path is [t] without its
    leading slashes; the destination is the destination root, a slash and
    that relative path (["/"] and the relative path under the root ["/"]);
    the directory holding it is created first, then the transfer is
    submitted with the size the listing gives as hint.  For a direct child
    of a root other than ["/"], the directory created is the destination
    root itself. *)
Theorem find_entries_places_entry
    (src_fs : handle) (src_path : string) (dest_fs : handle)
    (dest_path : string) (recursive : bool) (t : string) (i : info)
    (rest : list (string * info)) (w : W) :
  (itype i =? "directory") && negb recursive = false ->
  let p := src_path ++ t in
  let relpath := PyStr.lstrip "/" t in
  let d := if dest_path =? "/" then "/" ++ relpath
           else dest_path ++ "/" ++ relpath in
  find_entries src_fs src_path dest_fs dest_path recursive ((p, i) :: rest) w
  = (call (Makedirs dest_fs
             (PyStr.join "/" (PyStr.but_last (PyStr.split "/" d)))) ;;
     fut <- submit (_single_file_copy src_fs p dest_fs d CHUNK_SIZE (isize i)
                      MAX_CONCURRENT_COPIES) ;;
     futures <- find_entries src_fs src_path dest_fs dest_path recursive
                  rest ;;
     ret (fut :: futures)) w
  /\ (dest_path <> "/" -> PyStr.contains "/" relpath = false ->
      PyStr.join "/" (PyStr.but_last (PyStr.split "/" d)) = dest_path).
Proof.
  intros Hkeep p relpath d; split.
  - cbn [find_entries]; rewrite Hkeep.
    unfold p; rewrite ltrim_match_append.
    cbn [lift]; rewrite bind_ret_l.
    reflexivity.
  - intros Hroot Hchild; subst d.
    apply String.eqb_neq in Hroot; rewrite Hroot.
    apply (parent_of_child dest_path relpath Hchild).
Qed.

  (** The loop over a listing in two parts: the second part starts where
      the first one ended. *)
Lemma find_entries_app src_fs src_path dest_fs dest_path recursive
    (done rest : list (string * info)) :
  forall w futures w1 l1,
    find_entries src_fs src_path dest_fs dest_path recursive done w
    = (Ok futures, w1, l1) ->
    find_entries src_fs src_path dest_fs dest_path recursive (done ++ rest) w
    = (let '(r, w', l) :=
         find_entries src_fs src_path dest_fs dest_path recursive rest w1 in
       (match r with
        | Ok more => Ok (futures ++ more)%list
        | Raise e => Raise e
        | Diverge => Diverge
        end, w', l1 ++ l)%list).
Proof.
  induction done as [|[p i] done IH]; intros w futures w1 l1.
  - cbn [find_entries app]; unfold ret; intros H; inversion H; subst.
    destruct (find_entries src_fs src_path dest_fs dest_path recursive rest
                w1) as [[[more| e |] w'] l]; reflexivity.
  - cbn [find_entries app].
    destruct ((itype i =? "directory") && negb recursive); [apply IH|].
    unfold bind at 1 5.
    destruct (lift (_ltrim_match p src_path) w) as [[[t| e |] w2] l2];
      try discriminate.
    unfold bind at 1 4.
    destruct (call (Makedirs dest_fs _) w2) as [[[[]| e |] w3] l3];
      try discriminate.
    unfold bind at 1 3.
    destruct (submit _ w3) as [[[fut| e |] w4] l4]; try discriminate.
    unfold bind at 1 2.
    destruct (find_entries src_fs src_path dest_fs dest_path recursive done
                w4) as [[[futs| e |] w5] l5] eqn:E; try discriminate.
    unfold ret at 1; intros H; inversion H; subst.
    rewrite (IH w4 futs w1 l5 E).
    destruct (find_entries src_fs src_path dest_fs dest_path recursive rest
                w1) as [[[more| e |] w'] l]; unfold ret;
      cbn [app]; rewrite <- ?app_assoc, ?app_nil_r; reflexivity.
Qed.

(** X14. An entry of the listing whose path does not begin with the source
    root stops a directory copy: the entries before it have been placed and
    submitted, then the loop raises the path-mismatch [ValueError] without
    creating a directory or submitting a transfer for that entry or for any
    entry after it. *)
Theorem find_entries_outside_root
    (src_fs : handle) (src_path : string) (dest_fs : handle)
    (dest_path : string) (recursive : bool)
    (done rest : list (string * info)) (p : string) (i : info)
    (w w1 : W) (futures : list future) (l1 : list event) :
  find_entries src_fs src_path dest_fs dest_path recursive done w
  = (Ok futures, w1, l1) ->
  (itype i =? "directory") && negb recursive = false ->
  (forall t, p <> src_path ++ t) ->
  find_entries src_fs src_path dest_fs dest_path recursive
    (done ++ (p, i) :: rest) w
  = (Raise (ValueError ("Path " ++ p ++ " not in directory " ++ src_path)),
     w1, l1).
Proof.
  intros Hdone Hkeep Hout.
  rewrite (find_entries_app src_fs src_path dest_fs dest_path recursive done
             ((p, i) :: rest) w futures w1 l1 Hdone).
  cbn [find_entries]; rewrite Hkeep.
  unfold bind at 1; rewrite (ltrim_match_mismatch p src_path Hout).
  cbn [lift]; unfold raise; rewrite app_nil_r; reflexivity.
Qed.

Lemma glob_entries_not_recursive
    (copy : string -> string -> bool -> option handle -> option handle ->
            nat -> M unit)
    src_fs root dest_fs dest_path (items : list (string * info)) (w : W) :
  glob_entries copy src_fs root dest_fs dest_path false items w
  = find_entries src_fs root dest_fs dest_path false items w.
Proof.
  revert w; induction items as [|[p i] rest IH]; intros w; [reflexivity|].
  cbn [glob_entries find_entries].
  destruct (itype i =? "directory") eqn:E; cbn [negb andb]; [apply IH|].
  apply bind_ext; intros t w1.
  apply bind_ext; intros [] w2.
  apply bind_ext; intros fut w3.
  apply bind_cong, IH.
Qed.

(** X15. A wildcard copy with [recursive=False].  For a source path
    [a/g], once its trailing slashes are removed, with the wildcard in [g]
    only, [_copy] lists the matches with [glob] whatever the directory test
    answered, and handles them as a directory copy rooted at [a] handles
    its listing: directory matches are skipped and [_copy] is not called on
    any match. *)
Theorem copy_glob_not_recursive
    (fuel : nat) (w : W) (source destination : string)
    (_src_fs _dest_fs : option handle) (sem : nat)
    (fs1 fs2 : handle) (p1 p2 a g : string) (w1 w2 w3 w4 w5 : W)
    (l1 l2 l3 : list event) (b : bool) (items : list (string * info)) :
  _get_fs_and_path source w = (Ok (fs1, p1), w1, l1) ->
  _get_fs_and_path destination w1 = (Ok (fs2, p2), w2, l2) ->
  let src_fs := match _src_fs with Some f => f | None => fs1 end in
  let dest_fs := match _dest_fs with Some f => f | None => fs2 end in
  normalize p1 = a ++ "/" ++ g ->
  PyStr.contains "/" g = false ->
  PyStr.contains "*" g = true ->
  PyStr.contains "*" a = false ->
  _validate_xet_copy src_fs p1 dest_fs p2 w2 = (Ok tt, w3, l3) ->
  _isdir src_fs (a ++ "/" ++ g) w3
  = (Ok b, w4, [Call (isdir_op src_fs (a ++ "/" ++ g))]) ->
  handler (Glob src_fs (a ++ "/" ++ g)) w4 = (inr items, w5) ->
  _copy (S fuel) source destination false _src_fs _dest_fs sem w
  = (let '(r, w', l) :=
       (futures <- find_entries src_fs a dest_fs (normalize p2) false
                     (filter not_directory items) ;;
        results futures) w5 in
     (r, w',
      l1 ++ l2 ++ l3
      ++ Call (isdir_op src_fs (a ++ "/" ++ g))
      :: Call (Glob src_fs (a ++ "/" ++ g)) :: l)%list).
Proof.
  intros Hres1 Hres2 src_fs dest_fs Hpath Hseg Hg Ha Hval Hdir Hglob.
  assert (Hstar : PyStr.contains "*" (a ++ "/" ++ g) = true)
    by (rewrite !contains_star_append, Hg, !orb_true_r; reflexivity).
  assert (Hroot : PyStr.join "/"
                    (PyStr.but_last (PyStr.split "/" (a ++ "/" ++ g))) = a)
    by (apply (parent_of_child a g Hseg)).
  cbn [_copy].
  unfold bind at 1; rewrite Hres1.
  unfold bind at 1; rewrite Hres2.
  fold src_fs dest_fs; rewrite Hpath.
  unfold bind at 1; rewrite Hval.
  unfold bind at 1; rewrite Hdir.
  rewrite Hstar, Hroot, Ha.
  rewrite (bind_call_returns _ _ _ _ _ Hglob).
  rewrite (bind_cong _ _ _ _
             (glob_entries_not_recursive _ src_fs a dest_fs
                (normalize p2) items w5)).
  rewrite (bind_cong _ _ _ _
             (find_entries_skips_directories src_fs a dest_fs
                (normalize p2) items w5)).
  destruct ((futures <- find_entries src_fs a dest_fs
                          (normalize p2) false (filter not_directory items) ;;
             results futures) w5) as [[r w'] l].
  cbn [app]; rewrite <- ?app_assoc; reflexivity.
Qed.

  (** *** More on move *)

Lemma mv_run
    (w : W) (source target : string) (recursive : bool) (message : string)
    (fs1 fs2 : handle) (p1 p2 : string) (w1 w2 : W) (l1 l2 : list event) :
  _get_fs_and_path source w = (Ok (fs1, p1), w1, l1) ->
  _get_fs_and_path target w1 = (Ok (fs2, p2), w2, l2) ->
  let msg := if message =? "" then default_mv_message source target recursive
             else message in
  let report := if proto_eqb (protocol fs1) (protocol fs2) then []
                else [Stderr cross_protocol_message] in
  _mv source target recursive message w
  = (let '(r, w', l) :=
       try_except
         ((if is_xet (protocol fs2) then call (StartTransaction fs2 msg)
           else ret tt) ;;
          call (Mv fs2 p1 p2) ;;
          (if is_xet (protocol fs2) then call (EndTransaction fs2)
           else ret tt))
         (fun e => print (str_exn e)) w2 in
     (r, w', l1 ++ l2 ++ report ++ l)%list).
Proof.
  intros Hres1 Hres2 msg report; unfold _mv.
  unfold bind at 1; rewrite Hres1.
  unfold bind at 1; rewrite Hres2.
  replace (if message =? ""
           then if negb recursive
                then "move " ++ source ++ " to " ++ target
                else "move " ++ source ++ " to " ++ target ++ " recursively"
           else message) with msg
    by (unfold msg, default_mv_message; destruct recursive; reflexivity).
  unfold bind at 1, eprint, emit, ret at 1; subst report.
  destruct (proto_eqb (protocol fs1) (protocol fs2)); cbn [negb];
    match goal with
    | |- context [try_except ?m ?h w2] =>
        destruct (try_except m h w2) as [[r w'] l]
    end; cbn [app]; rewrite <- ?app_assoc; reflexivity.
Qed.

(** X16. A move into xet once both URIs resolve and the transaction has
    started, under the caller's message or, when that is empty, under
    [move S to T] ([... recursively] with the flag).  When [mv] returns,
    the calls are [start_transaction], [mv], [end_transaction].  When [mv]
    raises, the exception is printed, [_mv] returns, and
    [end_transaction] is not called: the transaction stays open. *)
Theorem mv_xet_transaction
    (w : W) (source target : string) (recursive : bool) (message : string)
    (fs1 fs2 : handle) (p1 p2 : string) (w1 w2 w3 : W) (l1 l2 : list event) :
  _get_fs_and_path source w = (Ok (fs1, p1), w1, l1) ->
  _get_fs_and_path target w1 = (Ok (fs2, p2), w2, l2) ->
  is_xet (protocol fs2) = true ->
  let msg := if message =? "" then default_mv_message source target recursive
             else message in
  let report := if proto_eqb (protocol fs1) (protocol fs2) then []
                else [Stderr cross_protocol_message] in
  handler (StartTransaction fs2 msg) w2 = (inr tt, w3) ->
  match handler (Mv fs2 p1 p2) w3 with
  | (inr _, w4) =>
      exists tail,
        _mv source target recursive message w
        = (Ok tt, snd (handler (EndTransaction fs2) w4),
           l1 ++ l2 ++ report
           ++ [Call (StartTransaction fs2 msg); Call (Mv fs2 p1 p2);
               Call (EndTransaction fs2)] ++ tail)%list
        /\ Forall (fun e => is_call e = false) tail
  | (inl e, w4) =>
      _mv source target recursive message w
      = (Ok tt, w4,
         l1 ++ l2 ++ report
         ++ [Call (StartTransaction fs2 msg); Call (Mv fs2 p1 p2);
             Stdout (str_exn e)])%list
  end.
Proof.
  intros Hres1 Hres2 Hx msg report Hstart.
  rewrite (mv_run w source target recursive message fs1 fs2 p1 p2 w1 w2 l1 l2
             Hres1 Hres2).
  fold msg report; rewrite Hx.
  unfold try_except, bind, call, print, emit; rewrite Hstart.
  destruct (handler (Mv fs2 p1 p2) w3) as [[e|[]] w4]; [reflexivity|].
  destruct (handler (EndTransaction fs2) w4) as [[e|[]] w5]; cbn [snd].
  - exists [Stdout (str_exn e)]; split; [reflexivity | repeat constructor].
  - exists []; split; [reflexivity | constructor].
Qed.

(** X17. Once both URIs resolve, [_mv] never raises: an exception of
    [start_transaction], [mv] or [end_transaction] is caught.  Into a
    destination that is not xet it starts and ends no transaction, and
    [mv] is its one call. *)
Theorem mv_returns
    (w : W) (source target : string) (recursive : bool) (message : string)
    (fs1 fs2 : handle) (p1 p2 : string) (w1 w2 : W) (l1 l2 : list event) :
  _get_fs_and_path source w = (Ok (fs1, p1), w1, l1) ->
  _get_fs_and_path target w1 = (Ok (fs2, p2), w2, l2) ->
  let report := if proto_eqb (protocol fs1) (protocol fs2) then []
                else [Stderr cross_protocol_message] in
  exists w' tail,
    _mv source target recursive message w
    = (Ok tt, w', l1 ++ l2 ++ report ++ tail)%list
    /\ (is_xet (protocol fs2) = false ->
        exists said,
          tail = Call (Mv fs2 p1 p2) :: said
          /\ Forall (fun e => is_call e = false) said).
Proof.
  intros Hres1 Hres2 report.
  rewrite (mv_run w source target recursive message fs1 fs2 p1 p2 w1 w2 l1 l2
             Hres1 Hres2).
  fold report.
  unfold try_except, bind, call, print, emit, ret.
  destruct (is_xet (protocol fs2)).
  - destruct (handler (StartTransaction fs2 _) w2) as [[e|[]] w3];
      [do 2 eexists; split; [reflexivity | discriminate]|].
    destruct (handler (Mv fs2 p1 p2) w3) as [[e|[]] w4];
      [do 2 eexists; split; [reflexivity | discriminate]|].
    destruct (handler (EndTransaction fs2) w4) as [[e|[]] w5];
      do 2 eexists; (split; [reflexivity | discriminate]).
  - destruct (handler (Mv fs2 p1 p2) w2) as [[e|[]] w3];
      do 2 eexists; (split; [reflexivity|]); intros _.
    + exists [Stdout (str_exn e)]; split; [reflexivity | repeat constructor].
    + exists []; split; [reflexivity | constructor].
Qed.

  (** *** More on delete *)

Lemma rm_run
    (w : W) (first : string) (others : list string) (message : string)
    (fs : handle) (p0 : string) (w0 : W) (l0 : list event) :
  _get_fs_and_path first w = (Ok (fs, p0), w0, l0) ->
  let msg :=
    if message =? "" then "delete " ++ repr_list (first :: others)
    else message in
  _rm (first :: others) message w
  = (let '(r, w', l) :=
       try_except (_rm_try fs (first :: others) msg)
         (fun e => print (str_exn e)) w0 in
     (r, w', (l0 ++ l)%list)).
Proof.
  intros Hres msg; unfold _rm, bind; rewrite Hres; fold msg.
  destruct (try_except _ _ w0) as [[r w'] l]; reflexivity.
Qed.

Lemma rm_each_fails (fs : handle) (done rest : list string) (bad : string)
    (e : exn) (w w1 w2 : W) :
  run_ops (map (Rm fs) done) w = Some w1 ->
  handler (Rm fs bad) w1 = (inl e, w2) ->
  _rm_each fs (done ++ bad :: rest) w
  = (Raise e, w2,
     map (fun p => Call (Rm fs p)) done ++ [Call (Rm fs bad)])%list.
Proof.
  revert w; induction done as [|q done IH]; intros w Hrun Hbad.
  - cbn in Hrun; inversion Hrun; subst.
    cbn [app map _rm_each]; unfold bind, call; rewrite Hbad; reflexivity.
  - cbn [app map _rm_each run_ops] in Hrun |- *.
    unfold bind at 1, call at 1.
    destruct (handler (Rm fs q) w) as [[e'|[]] w3]; [discriminate|].
    rewrite (IH w3 Hrun Hbad); reflexivity.
Qed.

(** X18. A delete on a backend that is not xet starts no transaction and
    parses no path: when every [rm] returns, the calls after resolution are
    one [rm] per path, in the order given, and nothing else. *)
Theorem rm_plain_backend
    (w : W) (first : string) (others : list string) (message : string)
    (fs : handle) (p0 : string) (w0 w1 : W) (l0 : list event) :
  _get_fs_and_path first w = (Ok (fs, p0), w0, l0) ->
  is_xet (protocol fs) = false ->
  run_ops (map (Rm fs) (first :: others)) w0 = Some w1 ->
  _rm (first :: others) message w
  = (Ok tt, w1,
     l0 ++ map (fun p => Call (Rm fs p)) (first :: others))%list.
Proof.
  intros Hres Hx Hrun.
  rewrite (rm_run w first others message fs p0 w0 l0 Hres).
  unfold try_except, _rm_try; rewrite Hx.
  unfold bind at 1; unfold ret at 1.
  unfold bind at 1; rewrite (rm_each_ok fs (first :: others) w0 w1 Hrun).
  unfold ret; cbn [app]; rewrite ?app_nil_r; reflexivity.
Qed.

(** X19. A delete on xet in which an [rm] raises part of the way: the paths
    before it have been removed inside the transaction, the exception is
    printed and [_rm] returns; the paths after it are not removed and
    [end_transaction] is not called. *)
Theorem rm_xet_failure_midway
    (w : W) (first : string) (others : list string) (message : string)
    (fs : handle) (p0 : string) (w0 w1 w2 : W) (l0 : list event)
    (done rest : list string) (bad : string) (e : exn) :
  _get_fs_and_path first w = (Ok (fs, p0), w0, l0) ->
  is_xet (protocol fs) = true ->
  first :: others = (done ++ bad :: rest)%list ->
  (forall p, In p (first :: others) ->
     exists r, parse_url p (domain fs) = inr r /\ is_branch_root r = false) ->
  let msg :=
    if message =? "" then "delete " ++ repr_list (first :: others)
    else message in
  run_ops (StartTransaction fs msg :: map (Rm fs) done) w0 = Some w1 ->
  handler (Rm fs bad) w1 = (inl e, w2) ->
  _rm (first :: others) message w
  = (Ok tt, w2,
     l0 ++ Call (StartTransaction fs msg)
        :: map (fun p => Call (Rm fs p)) done
        ++ [Call (Rm fs bad); Stdout (str_exn e)])%list.
Proof.
  intros Hres Hx Hsplit Hnone msg Hrun Hbad.
  rewrite (rm_run w first others message fs p0 w0 l0 Hres).
  fold msg; unfold try_except, _rm_try; rewrite Hx.
  unfold bind at 1 2; rewrite (rm_check_none fs _ w0 Hnone).
  cbn [run_ops] in Hrun. unfold bind at 1, call at 1.
  destruct (handler (StartTransaction fs msg) w0) as [[e'|[]] w3];
    [discriminate|].
  unfold ret at 1; cbn [app].
  unfold bind at 1; rewrite Hsplit.
  rewrite (rm_each_fails fs done rest bad e w3 w1 w2 Hrun Hbad).
  unfold print, emit; cbn [app]; rewrite <- ?app_assoc; reflexivity.
Qed.

  (** *** More on duplicate *)

Lemma endswith_append (c : ascii) (x y : string) :
  y <> "" -> PyStr.endswith c (x ++ y) = PyStr.endswith c y.
Proof.
  intros Hy; induction x as [|a x IH]; [reflexivity|].
  cbn [append]. destruct (x ++ y) as [|b r] eqn:E.
  - destruct x; [cbn in E; contradiction | discriminate E].
  - cbn [PyStr.endswith]; exact IH.
Qed.

Lemma endswith_no_slash (name : string) :
  PyStr.contains "/" name = false -> PyStr.endswith "/" name = false.
Proof.
  induction name as [|c r IH]; [reflexivity|].
  intros H; apply contains_cons_false in H; destruct H as [Hp Hr].
  revert Hp; cbn [prefix]; destruct (ascii_dec "/" c) as [<-|Hne].
  - rewrite prefix_empty; discriminate.
  - intros _; destruct r as [|b r'].
    + cbn [PyStr.endswith]; apply Ascii.eqb_neq; congruence.
    + cbn [PyStr.endswith]; exact (IH Hr).
Qed.

Lemma rstrip_append_slashes (s slashes : string) :
  PyStr.lstrip "/" slashes = "" ->
  PyStr.rstrip "/" (s ++ slashes) = PyStr.rstrip "/" s.
Proof.
  intros Hs.
  assert (Hall : PyStr.rstrip "/" slashes = "").
  { induction slashes as [|c r IH]; [reflexivity|].
    cbn [PyStr.lstrip] in Hs; cbn [PyStr.rstrip].
    destruct (Ascii.eqb c "/"); [|discriminate Hs].
    rewrite (IH Hs); reflexivity. }
  induction s as [|a s IH]; [exact Hall|].
  cbn [append PyStr.rstrip]; rewrite IH; reflexivity.
Qed.

  (** The repository name [_duplicate] takes from a source. *)
Lemma repo_name_of_source (a name slashes : string) :
  PyStr.contains "/" name = false -> name <> "" ->
  PyStr.lstrip "/" slashes = "" ->
  PyStr.last_item
    (PyStr.split "/" (PyStr.rstrip "/" (a ++ "/" ++ name ++ slashes)))
  = name.
Proof.
  intros Hname Hne Hs.
  replace (a ++ "/" ++ name ++ slashes) with ((a ++ "/" ++ name) ++ slashes)
    by (rewrite !append_assoc; reflexivity).
  rewrite (rstrip_append_slashes _ _ Hs).
  rewrite rstrip_fixed.
  - apply (parent_of_child a name Hname).
  - replace (a ++ "/" ++ name) with ((a ++ "/") ++ name)
      by (rewrite append_assoc; reflexivity).
    rewrite (endswith_append _ _ _ Hne); apply endswith_no_slash, Hname.
Qed.

(** X20. A duplicate without a destination copies into the caller's own
    namespace under the name of the source repository: for a source
    [a/name] followed by any number of slashes, [name] holding no slash,
    the repository is duplicated to [xet://username/name], from the source
    as the caller wrote it.  Without flags nothing else is called and
    nothing is printed; an exception of [duplicate_repo] is the outcome. *)
Theorem duplicate_default_destination
    (w w1 w2 : W) (fs : handle) (a name slashes username : string) :
  PyStr.contains "/" name = false -> name <> "" ->
  PyStr.lstrip "/" slashes = "" ->
  handler XetFS_new w = (inr fs, w1) ->
  handler (GetUsername fs) w1 = (inr username, w2) ->
  let source := a ++ "/" ++ name ++ slashes in
  let dest := "xet://" ++ username ++ "/" ++ name in
  _duplicate source None false false false w
  = match handler (DuplicateRepo fs source dest) w2 with
    | (inr _, w3) =>
        (Ok tt, w3,
         [Call XetFS_new; Call (GetUsername fs);
          Call (DuplicateRepo fs source dest)])
    | (inl e, w3) =>
        (Raise e, w3,
         [Call XetFS_new; Call (GetUsername fs);
          Call (DuplicateRepo fs source dest)])
    end.
Proof.
  intros Hname Hne Hs Hnew Huser source dest.
  assert (Hrepo : PyStr.last_item
                    (PyStr.split "/" (PyStr.rstrip "/" source)) = name)
    by (apply repo_name_of_source; assumption).
  unfold _duplicate; rewrite Hrepo; subst dest.
  unfold try_except, when, bind, call, print, emit, ret.
  rewrite Hnew, Huser.
  destruct (handler (DuplicateRepo fs source _) w2) as [[e|[]] w3];
    reflexivity.
Qed.

(** X21. A duplicate whose [private] attribute cannot be set: the
    repository has been duplicated and stays so, the exception is caught
    and [_duplicate] returns; the only later call is [get_username], so the
    [public] attribute is never attempted even when asked for; and unless
    [verbose] is set nothing is printed.  An exception of that
    [get_username] is not caught. *)
Theorem duplicate_attribute_failure
    (w w1 w2 w3 : W) (source d : string) (public verbose : bool)
    (fs : handle) (e : exn) :
  handler XetFS_new w = (inr fs, w1) ->
  handler (DuplicateRepo fs source d) w1 = (inr tt, w2) ->
  handler (SetRepoAttr fs d "private" true) w2 = (inl e, w3) ->
  let repo_name :=
    PyStr.last_item (PyStr.split "/" (PyStr.rstrip "/" source)) in
  let before :=
    ([Call XetFS_new; Call (DuplicateRepo fs source d)]
     ++ (if verbose then [Stdout "Duplicate Success. Changing permissions..."]
         else [])
     ++ [Call (SetRepoAttr fs d "private" true); Call (GetUsername fs)])%list in
  _duplicate source (Some d) true public verbose w
  = match handler (GetUsername fs) w3 with
    | (inr username, w4) =>
        (Ok tt, w4,
         before
         ++ (if verbose
             then [Stdout ("An error has occurred setting repository permissions: "
                           ++ str_exn e);
                   Stdout "Permission changes may not have been made. Please change it manually at:";
                   Stdout ("  " ++ domain fs ++ "/" ++ username ++ "/"
                           ++ repo_name ++ "/settings")]
             else []))%list
    | (inl e', w4) => (Raise e', w4, before)
    end.
Proof.
  intros Hnew Hdup Hpriv repo_name before; subst before repo_name.
  unfold _duplicate, try_except, when, bind, call, print, emit, ret.
  rewrite Hnew, Hdup.
  destruct verbose; cbn [fst snd app]; rewrite Hpriv;
    destruct (handler (GetUsername fs) w3) as [[e'|u] w4]; reflexivity.
Qed.

(** X22. A duplicate whose [duplicate_repo] raises ends there: the
    exception is the outcome of [_duplicate], whatever the flags, and no
    attribute is set. *)
Theorem duplicate_repo_failure
    (w w1 w2 : W) (source d : string) (private public verbose : bool)
    (fs : handle) (e : exn) :
  handler XetFS_new w = (inr fs, w1) ->
  handler (DuplicateRepo fs source d) w1 = (inl e, w2) ->
  _duplicate source (Some d) private public verbose w
  = (Raise e, w2, [Call XetFS_new; Call (DuplicateRepo fs source d)]).
Proof.
  intros Hnew Hdup.
  unfold _duplicate, bind, call, ret; rewrite Hnew, Hdup; reflexivity.
Qed.

Lemma duplicate_attr_events (P : event -> Prop) source dest
    (private public verbose : bool) :
  (forall o, (forall fs d a v, o <> SetRepoAttr fs d a v) -> P (Call o)) ->
  (forall s, P (Stdout s)) ->
  (private = true -> forall fs d, P (Call (SetRepoAttr fs d "private" true))) ->
  (public = true -> forall fs d, P (Call (SetRepoAttr fs d "public" false))) ->
  emits P (_duplicate source dest private public verbose).
Proof.
  intros Hc Hs Hpriv Hpub; unfold _duplicate.
  repeat emits_step; try apply Hs; try (apply Hc; intros; discriminate);
    first [apply Hpriv | apply Hpub]; reflexivity.
Qed.

(** X23. The attribute calls of a duplicate are the ones its flags ask
    for: without [private] none sets "private", without [public] none sets
    "public", and every attribute call there is sets "private" to [True]
    or "public" to [False]. *)
Theorem duplicate_attribute_calls
    (w : W) (source : string) (dest : option string)
    (private public verbose : bool) :
  Forall
    (fun e =>
       forall fs d a v, e = Call (SetRepoAttr fs d a v) ->
         (a = "private" /\ v = true /\ private = true)
         \/ (a = "public" /\ v = false /\ public = true))
    (snd (_duplicate source dest private public verbose w)).
Proof.
  apply duplicate_attr_events.
  - intros o Ho fs d a v H; inversion H; subst; elim (Ho fs d a v eq_refl).
  - intros s fs d a v H; discriminate H.
  - intros -> fs0 d0 fs d a v H; inversion H; left; auto.
  - intros -> fs0 d0 fs d a v H; inversion H; right; auto.
Qed.

  (** *** Root copy *)

  (** The destination [_root_copy] hands to [_copy]. *)
Lemma root_copy_run
    (fuel : nat) (w : W) (source destination message : string)
    (recursive : bool) (sem : nat) (fs : handle) (p : string) (w1 w2 : W)
    (l l' : list event) (b : bool) :
  _get_fs_and_path destination w = (Ok (fs, p), w1, l) ->
  _isdir fs p w1 = (Ok b, w2, l') ->
  let effective :=
    if b && negb (PyStr.contains "*" source) then
      (if negb (PyStr.endswith "/" destination) then destination ++ "/"
       else destination) ++ PyStr.last_item (PyStr.split "/" source)
    else destination in
  _root_copy fuel source destination message recursive sem w
  = (let '(r, w', lc) :=
       (when (is_xet (protocol fs)) (call (StartTransaction fs message)) ;;
        _copy fuel source effective recursive None None sem ;;
        when (is_xet (protocol fs)) (call (EndTransaction fs))) w2 in
     (r, w', l ++ l' ++ lc)%list).
Proof.
  intros Hres Hdir effective; unfold _root_copy.
  unfold bind at 1; rewrite Hres.
  unfold bind at 1; rewrite Hdir.
  fold effective.
  match goal with
  | |- _ = match ?t with pair _ _ => _ end => destruct t as [[r w'] lc]
  end.
  rewrite <- ?app_assoc; reflexivity.
Qed.

(** X24. Copying into an existing directory.  When the destination is a
    directory on a backend that is not xet and the source [a/name] holds no
    wildcard, [name] holding no slash, [_root_copy] is [_copy] to the
    destination, a slash unless it ends in one, and [name]; so a source
    written with a trailing slash ([name] empty) is copied to the directory
    itself.  The destination is otherwise passed on as it is.  No
    transaction is started. *)
Theorem root_copy_into_directory
    (fuel : nat) (w : W) (a name destination message : string)
    (recursive : bool) (sem : nat) (fs : handle) (p : string) (w1 w2 : W)
    (l : list event) (b : bool) :
  let source := a ++ "/" ++ name in
  PyStr.contains "/" name = false ->
  _get_fs_and_path destination w = (Ok (fs, p), w1, l) ->
  _isdir fs p w1 = (Ok b, w2, [Call (isdir_op fs p)]) ->
  is_xet (protocol fs) = false ->
  let effective :=
    if b && negb (PyStr.contains "*" source) then
      (if PyStr.endswith "/" destination then destination
       else destination ++ "/") ++ name
    else destination in
  _root_copy fuel source destination message recursive sem w
  = (let '(r, w', lc) :=
       _copy fuel source effective recursive None None sem w2 in
     (r, w', l ++ Call (isdir_op fs p) :: lc)%list).
Proof.
  intros source Hname Hres Hdir Hx effective.
  rewrite (root_copy_run fuel w source destination message recursive sem fs p
             w1 w2 l _ b Hres Hdir).
  rewrite Hx; unfold when; rewrite bind_ret_l.
  assert (Hlast : PyStr.last_item (PyStr.split "/" source) = name)
    by (apply (parent_of_child a name Hname)).
  rewrite Hlast.
  replace (if negb (PyStr.endswith "/" destination) then destination ++ "/"
           else destination)
    with (if PyStr.endswith "/" destination then destination
          else destination ++ "/")
    by (destruct (PyStr.endswith "/" destination); reflexivity).
  fold source effective.
  unfold bind, ret.
  destruct (_copy fuel source effective recursive None None sem w2)
    as [[[[]| e |] w3] lc]; cbn [app]; rewrite ?app_nil_r; reflexivity.
Qed.

(** X25. A root copy into xet runs [_copy] between [start_transaction] and
    [end_transaction].  When [_copy] raises, the exception is the outcome
    of [_root_copy] and [end_transaction] is not called: the transaction
    stays open. *)
Theorem root_copy_transaction
    (fuel : nat) (w : W) (source destination message : string)
    (recursive : bool) (sem : nat) (fs : handle) (p : string)
    (w1 w2 w3 : W) (l : list event) (b : bool) :
  _get_fs_and_path destination w = (Ok (fs, p), w1, l) ->
  _isdir fs p w1 = (Ok b, w2, [Call (isdir_op fs p)]) ->
  is_xet (protocol fs) = true ->
  handler (StartTransaction fs message) w2 = (inr tt, w3) ->
  let effective :=
    if b && negb (PyStr.contains "*" source) then
      (if negb (PyStr.endswith "/" destination) then destination ++ "/"
       else destination) ++ PyStr.last_item (PyStr.split "/" source)
    else destination in
  let before :=
    (l ++ [Call (isdir_op fs p); Call (StartTransaction fs message)])%list in
  _root_copy fuel source destination message recursive sem w
  = match _copy fuel source effective recursive None None sem w3 with
    | (Ok _, w4, lc) =>
        match handler (EndTransaction fs) w4 with
        | (inr _, w5) =>
            (Ok tt, w5, before ++ lc ++ [Call (EndTransaction fs)])
        | (inl e, w5) =>
            (Raise e, w5, before ++ lc ++ [Call (EndTransaction fs)])
        end
    | (Raise e, w4, lc) => (Raise e, w4, before ++ lc)
    | (Diverge, w4, lc) => (Diverge, w4, before ++ lc)
    end%list.
Proof.
  intros Hres Hdir Hx Hstart effective before; subst before.
  rewrite (root_copy_run fuel w source destination message recursive sem fs p
             w1 w2 l _ b Hres Hdir).
  fold effective; rewrite Hx; unfold when.
  rewrite (bind_call_returns _ _ _ _ _ Hstart).
  unfold bind, call.
  destruct (_copy fuel source effective recursive None None sem w3)
    as [[[[]| e |] w4] lc];
    [destruct (handler (EndTransaction fs) w4) as [[e|[]] w5]| |];
    cbn [app]; rewrite <- ?app_assoc; reflexivity.
Qed.

  (** *** Failures before the data is streamed *)

(** X26. Into xet, a failure of the preparation stops the transfer before
    any file is opened.  When the size lookup raises, or when the size is
    at least 50,000,000 and [add_deduplication_hints] raises, the transfer
    prints the failure with the source path, releases the semaphore and
    returns, with no [open] on either side. *)
Theorem single_file_copy_preparation_failure
    (w w1 : W) (src_fs : handle) (src_path : string) (dest_fs : handle)
    (dest_path : string) (buffer_size : Z) (sem : nat) (e : exn) :
  PyStr.last_item (PyStr.split "/" dest_path) <> ".gitattributes" ->
  is_xet (protocol src_fs) = false ->
  is_xet (protocol dest_fs) = true ->
  let announce :=
    Stdout ("Copying " ++ src_path ++ " to " ++ dest_path ++ "...") in
  let failed :=
    Stdout ("Failed to copy " ++ str_proto (protocol src_fs) ++ "://"
            ++ src_path ++ ": " ++ str_exn e) in
  (handler (Info src_fs src_path) w = (inl e, w1) ->
   _single_file_copy src_fs src_path dest_fs dest_path buffer_size None sem w
   = (Ok tt, w1,
      [announce; Acquire sem; Call (Info src_fs src_path); failed;
       Release sem]))
  /\ (forall n,
        (50000000 <= n)%Z ->
        handler (AddDeduplicationHints dest_fs dest_path) w = (inl e, w1) ->
        _single_file_copy src_fs src_path dest_fs dest_path buffer_size
          (Some n) sem w
        = (Ok tt, w1,
           [announce; Acquire sem;
            Call (AddDeduplicationHints dest_fs dest_path); failed;
            Release sem])).
Proof.
  intros Hskip Hsrc Hdest announce failed; subst announce failed.
  apply String.eqb_neq in Hskip.
  split.
  - intros Hinfo.
    rewrite single_file_copy_general
      by (try assumption; rewrite Hsrc; reflexivity).
    unfold _single_file_copy_try; rewrite Hdest.
    unfold bind, call; rewrite Hinfo; reflexivity.
  - intros n Hn Hhint.
    rewrite single_file_copy_general
      by (try assumption; rewrite Hsrc; reflexivity).
    unfold _single_file_copy_try; rewrite Hdest.
    apply Z.leb_le in Hn.
    unfold bind, call, ret; cbv beta iota; rewrite Hn, Hhint; reflexivity.
Qed.

End Core.

(** ** Examples of the string operations *)

Example split_slash : PyStr.split "/" "a/b//c.txt" = ["a"; "b"; ""; "c.txt"].
Proof. reflexivity. Qed.

Example split_uri : PyStr.split "://" "s3://a:/b://c" = ["s3"; "a:/b"; "c"].
Proof. reflexivity. Qed.

Example split_no_sep : PyStr.split "://" "" = [""].
Proof. reflexivity. Qed.

Example rstrip_slashes : PyStr.rstrip "/" "a/b//" = "a/b".
Proof. reflexivity. Qed.

Example lstrip_slashes : PyStr.lstrip "/" "//c/" = "c/".
Proof. reflexivity. Qed.

Example ltrim_doc : _ltrim_match "a/b/c.txt" "a/b" = inr "/c.txt".
Proof. reflexivity. Qed.

(** ** The module over the scripted backend *)

Local Abbreviation run_get_fs_and_path s :=
  (_get_fs_and_path Mock.world (Mock.backend s) Mock.abspath).
Local Abbreviation run_single_file_copy s :=
  (_single_file_copy Mock.world (Mock.backend s) Mock.repr_list).
Local Abbreviation run_single_file_copy_try s :=
  (_single_file_copy_try Mock.world (Mock.backend s)).
Local Abbreviation run_validate s :=
  (_validate_xet_copy Mock.world (Mock.backend s) Mock.parse_url).
Local Abbreviation run_isdir s := (_isdir Mock.world (Mock.backend s)).
Local Abbreviation run_find_entries s :=
  (find_entries Mock.world (Mock.backend s) Mock.repr_list Mock.CHUNK_SIZE
     Mock.MAX_CONCURRENT_COPIES).
Local Abbreviation run_copy s :=
  (_copy Mock.world (Mock.backend s) Mock.abspath Mock.parse_url
     Mock.repr_list Mock.CHUNK_SIZE Mock.MAX_CONCURRENT_COPIES).
Local Abbreviation run_mv s := (_mv Mock.world (Mock.backend s) Mock.abspath).
Local Abbreviation run_rm s :=
  (_rm Mock.world (Mock.backend s) Mock.abspath Mock.parse_url Mock.repr_list).
Local Abbreviation run_info s := (_info Mock.world (Mock.backend s) Mock.abspath).
Local Abbreviation run_duplicate s := (_duplicate Mock.world (Mock.backend s)).

(** C1. Failing input: a move from [s3://bucket/a.txt] to
    [gcs://other/a.txt].  The two handles have different protocols; [_mv]
    prints that it is unable to move between them and then calls [mv] on
    the destination handle, where the specification has the move aborted
    with no mutation on either side. *)
Theorem mv_between_protocols_still_moves :
  run_mv Mock.plain "s3://bucket/a.txt" "gcs://other/a.txt" false "" 0
  = (Ok tt, 3,
     [Call (Filesystem "s3"); Call (Filesystem "gcs");
      Stderr cross_protocol_message;
      Call (Mv Mock.gcs "bucket/a.txt" "other/a.txt")]).
Proof. vm_compute; reflexivity. Qed.

(** C9. Failing input: [_info] on [s3://bucket/a://b], a URI with the
    separator twice.  [_get_fs_and_path] prints [Invalid URL] and goes on:
    the s3 filesystem is built and [info] is called on the path [bucket/a],
    where the specification has the operation abort before any I/O. *)
Theorem malformed_uri_still_used :
  run_info Mock.plain "s3://bucket/a://b" 0
  = (Ok (mk_info "file" (Some 3%Z)), 2,
     [Stderr "Invalid URL: s3://bucket/a://b"; Call (Filesystem "s3");
      Call (Info Mock.s3 "bucket/a")]).
Proof. vm_compute; reflexivity. Qed.

(** C2 does not hold as specified: copying the directory [s3://bucket/dir], which
    holds a sub-directory and the file [a.txt], with [recursive=False]
    creates [backup/dir] on the destination, opens [backup/dir/a.txt] for
    writing and writes the three bytes of the file. *)
Lemma nonrecursive_directory_copy_writes :
  run_copy Mock.tree 1 "s3://bucket/dir" "gcs://backup/dir" false None None 0 0
  = (Ok tt, 10,
     [Call (Filesystem "s3"); Call (Filesystem "gcs");
      Call (IsDir Mock.s3 "bucket/dir");
      Call (Find Mock.s3 "bucket/dir");
      Call (Makedirs Mock.gcs "backup/dir");
      Stdout "Copying bucket/dir/a.txt to backup/dir/a.txt...";
      Acquire 0;
      Call (OpenRb Mock.s3 "bucket/dir/a.txt");
      Call (OpenWb Mock.gcs "backup/dir/a.txt");
      Read 10 1024; Call (Write 11 "abc"); Read 10 1024;
      Call (Close 11); Call (Close 10); Release 0]).
Proof. vm_compute; reflexivity. Qed.

(** C3 does not hold as specified: copying [s3://bucket/a*/b.txt], whose
    wildcard is in the middle segment, does raise the invalid-glob error,
    but only after [isdir] has been called on the source backend. *)
Lemma invalid_glob_raised_after_isdir :
  run_copy Mock.plain 1 "s3://bucket/a*/b.txt" "gcs://backup" true None None
    0 0
  = (Raise (ValueError
       "Invalid glob s3://bucket/a*/b.txt. Wildcards can only appear in the last position"),
     3,
     [Call (Filesystem "s3"); Call (Filesystem "gcs");
      Call (IsDir Mock.s3 "bucket/a*/b.txt")]).
Proof. vm_compute; reflexivity. Qed.

(** [_ltrim_match] outside the directory, on a shorter path, and inside it. *)
Lemma ltrim_match_prefix_witness :
  _ltrim_match "b/c.txt" "a/b"
  = inl (ValueError "Path b/c.txt not in directory a/b")
  /\ _ltrim_match "a" "a/b" = inl (ValueError "Path a not in directory a/b")
  /\ exists r, _ltrim_match "a/b/c.txt" "a/b" = inr r
               /\ "a/b" ++ r = "a/b/c.txt".
Proof.
  split; [|split].
  - apply (proj1 (ltrim_match_prefix "b/c.txt" "a/b")).
    intros r H; discriminate H.
  - apply (proj1 (ltrim_match_prefix "a" "a/b")).
    intros r H; discriminate H.
  - apply (proj2 (ltrim_match_prefix "a/b/c.txt" "a/b")).
    exists "/c.txt"; reflexivity.
Defined.

(** A [.gitattributes] on its way into a xet repository. *)
Lemma single_file_copy_skips_gitattributes_witness :
  PyStr.last_item (PyStr.split "/" "alice/repo/main/.gitattributes")
  = ".gitattributes"
  /\ run_single_file_copy Mock.plain Mock.s3 "bucket/.gitattributes" Mock.xet
       "alice/repo/main/.gitattributes" 1024 (Some 3%Z) 0 0
     = (Ok tt, 0,
        [Stdout "Skipping .gitattributes as that is required for Xet Magic"]).
Proof.
  split; [reflexivity|].
  apply (single_file_copy_skips_gitattributes Mock.world
           (Mock.backend Mock.plain) Mock.repr_list).
  reflexivity.
Defined.

(** A source that cannot be opened: the transfer returns and reports it. *)
Lemma single_file_copy_absorbs_errors_witness :
  is_xet (protocol Mock.local) && is_xet (protocol Mock.gcs) = false
  /\ exists w' l,
       run_single_file_copy Mock.unreadable Mock.local "/data/a.txt" Mock.gcs
         "backup/a.txt" 1024 None 0 0 = (Ok tt, w', l)
       /\ In (Stdout "Failed to copy file:///data/a.txt: refused") l.
Proof.
  split; [reflexivity|].
  destruct (single_file_copy_absorbs_errors Mock.world
              (Mock.backend Mock.unreadable) Mock.repr_list Mock.CHUNK_SIZE
              Mock.MAX_CONCURRENT_COPIES 0 Mock.local "/data/a.txt" Mock.gcs
              "backup/a.txt" 1024 None 0) as [_ H].
  destruct (H eq_refl) as [(w' & l & Hrun & Hlog) _].
  exists w', l; split; [exact Hrun|].
  assert (Hskip : PyStr.last_item (PyStr.split "/" "backup/a.txt")
                  <> ".gitattributes") by (vm_compute; discriminate).
  destruct (Hlog Hskip (BackendError "refused") 1
              [Call (OpenRb Mock.local "/data/a.txt")] eq_refl) as [_ ->].
  vm_compute; tauto.
Defined.

(** A source of exactly 50,000,000 bytes copied into a xet repository. *)
Lemma dedup_hints_threshold_witness :
  PyStr.last_item (PyStr.split "/" "alice/repo/main/a.bin") <> ".gitattributes"
  /\ is_xet (protocol Mock.local) = false
  /\ is_xet (protocol Mock.xet) = true
  /\ Mock.backend Mock.large (Info Mock.local "/data/a.bin") 0
     = (inr (mk_info "file" (Some 50000000%Z)), 1)
  /\ exists pre post,
       snd (run_single_file_copy Mock.large Mock.local "/data/a.bin" Mock.xet
              "alice/repo/main/a.bin" 1024 None 0 0)
       = (pre ++ Call (AddDeduplicationHints Mock.xet "alice/repo/main/a.bin")
              :: post)%list
       /\ Forall (fun e => ~ is_open_for_write e /\ ~ is_hint_call e) pre
       /\ Forall (fun e => ~ is_hint_call e) post.
Proof.
  assert (Hskip : PyStr.last_item (PyStr.split "/" "alice/repo/main/a.bin")
                  <> ".gitattributes") by (vm_compute; discriminate).
  repeat (split; [first [exact Hskip | reflexivity]|]).
  apply (dedup_hints_threshold Mock.world (Mock.backend Mock.large)
           Mock.repr_list 0 Mock.local "/data/a.bin" Mock.xet
           "alice/repo/main/a.bin" 1024 None 0 50000000 Hskip eq_refl eq_refl).
  - right; split; [reflexivity|].
    exists (mk_info "file" (Some 50000000%Z)), 1; split; reflexivity.
  - lia.
Defined.

(** Two files removed in one transaction, and a request naming a branch. *)
Lemma rm_xet_transaction_witness :
  (exists tail,
     run_rm Mock.plain
       ["xet://alice/repo/main/data/a.txt"; "xet://alice/repo/main/b.txt"] "" 0
     = (Ok tt, 5,
        [Call XetFS_new;
         Call (StartTransaction Mock.xet
                 "delete ['xet://alice/repo/main/data/a.txt', 'xet://alice/repo/main/b.txt']");
         Call (Rm Mock.xet "xet://alice/repo/main/data/a.txt");
         Call (Rm Mock.xet "xet://alice/repo/main/b.txt");
         Call (EndTransaction Mock.xet)] ++ tail)%list
     /\ Forall (fun e => is_call e = false) tail)
  /\ (exists report,
        run_rm Mock.plain
          ["xet://alice/repo/main/data/a.txt"; "xet://alice/repo/main"]
          "cleanup" 0
        = (Ok tt, 1, [Call XetFS_new; report])
        /\ is_call report = false).
Proof.
  split.
  - destruct (rm_xet_transaction Mock.world (Mock.backend Mock.plain)
                Mock.abspath Mock.parse_url Mock.repr_list 0
                "xet://alice/repo/main/data/a.txt"
                ["xet://alice/repo/main/b.txt"] "" Mock.xet
                "alice/repo/main/data/a.txt" 1 [Call XetFS_new]
                eq_refl eq_refl) as (_ & _ & H).
    assert (Hnone : forall p,
              In p ["xet://alice/repo/main/data/a.txt";
                    "xet://alice/repo/main/b.txt"] ->
              exists r, Mock.parse_url p (domain Mock.xet) = inr r
                        /\ is_branch_root r = false).
    { intros p [<- | [<- | []]]; eexists; split; reflexivity. }
    exact (H Hnone 4 eq_refl).
  - destruct (rm_xet_transaction Mock.world (Mock.backend Mock.plain)
                Mock.abspath Mock.parse_url Mock.repr_list 0
                "xet://alice/repo/main/data/a.txt"
                ["xet://alice/repo/main"] "cleanup" Mock.xet
                "alice/repo/main/data/a.txt" 1 [Call XetFS_new]
                eq_refl eq_refl) as (_ & H & _).
    destruct H as (report & Hrun & Hcall & _).
    + exists "xet://alice/repo/main", (mk_parsed "main" "").
      split; [right; left; reflexivity | split; reflexivity].
    + exists report; split; assumption.
Defined.

(** A duplicate into the caller's own namespace with [public=True]. *)
Lemma duplicate_public_sets_false_witness :
  Mock.backend Mock.plain XetFS_new 0 = (inr Mock.xet, 1)
  /\ Mock.backend Mock.plain (GetUsername Mock.xet) 1 = (inr "alice", 2)
  /\ Mock.backend Mock.plain
       (DuplicateRepo Mock.xet "xet://bob/repo/" "xet://alice/repo") 2
     = (inr tt, 3)
  /\ In (Call (SetRepoAttr Mock.xet "xet://alice/repo" "public" false))
       (snd (run_duplicate Mock.plain "xet://bob/repo/" None false true false
               0))
  /\ fst (run_duplicate Mock.plain "xet://bob/repo/" None false true false 0)
     = (Ok tt, 4).
Proof.
  repeat (split; [reflexivity|]).
  destruct (duplicate_public_sets_false Mock.world (Mock.backend Mock.plain)
              0 1 2 3 3 "xet://bob/repo/" None false false Mock.xet
              "xet://alice/repo" eq_refl
              (ex_intro _ "alice" (conj eq_refl eq_refl)) eq_refl eq_refl)
    as (Hin & _ & Hok).
  split; [exact Hin | exact (Hok 4 eq_refl)].
Defined.

(** A wildcard in the middle segment, the source written with a trailing slash. *)
Lemma copy_invalid_glob_witness :
  run_get_fs_and_path Mock.plain "s3://bucket/a*/b.txt/" 0
  = (Ok (Mock.s3, "bucket/a*/b.txt/"), 1, [Call (Filesystem "s3")])
  /\ In "a*" (PyStr.but_last (PyStr.split "/" (normalize "bucket/a*/b.txt/")))
  /\ run_copy Mock.plain 1 "s3://bucket/a*/b.txt/" "gcs://backup" true None
       None 0 0
     = (Raise (ValueError
          "Invalid glob s3://bucket/a*/b.txt/. Wildcards can only appear in the last position"),
        3,
        [Call (Filesystem "s3"); Call (Filesystem "gcs");
         Call (IsDir Mock.s3 "bucket/a*/b.txt")]).
Proof.
  split; [reflexivity|].
  assert (Hin : In "a*" (PyStr.but_last
                           (PyStr.split "/" (normalize "bucket/a*/b.txt/"))))
    by (vm_compute; auto).
  split; [exact Hin|].
  destruct (copy_invalid_glob Mock.world (Mock.backend Mock.plain)
              Mock.abspath Mock.parse_url Mock.repr_list Mock.CHUNK_SIZE
              Mock.MAX_CONCURRENT_COPIES 0 0 "s3://bucket/a*/b.txt/"
              "gcs://backup" true None None 0 Mock.s3 Mock.gcs
              "bucket/a*/b.txt/" "backup" 1 2 [Call (Filesystem "s3")]
              [Call (Filesystem "gcs")] "a*" eq_refl eq_refl Hin eq_refl)
    as (_ & _ & H).
  exact (H 2 [] false 3 eq_refl eq_refl).
Defined.

(** A directory holding a sub-directory and a file, copied without [recursive]. *)
Lemma copy_directory_not_recursive_witness :
  run_validate Mock.tree Mock.s3 "bucket/dir" Mock.gcs "backup/dir/" 2
  = (Ok tt, 2, [])
  /\ run_isdir Mock.tree Mock.s3 "bucket/dir" 2
     = (Ok true, 3, [Call (IsDir Mock.s3 "bucket/dir")])
  /\ PyStr.contains "*" "bucket/dir" = false
  /\ Mock.backend Mock.tree (Find Mock.s3 "bucket/dir") 3
     = (inr [("bucket/dir/sub", mk_info "directory" (Some 0%Z));
             ("bucket/dir/a.txt", mk_info "file" (Some 3%Z))], 4)
  /\ exists futures w6 l6,
       run_find_entries Mock.tree Mock.s3 "bucket/dir" Mock.gcs "backup/dir"
         false
         [("bucket/dir/sub", mk_info "directory" (Some 0%Z));
          ("bucket/dir/a.txt", mk_info "file" (Some 3%Z))] 4
       = (Ok futures, w6, l6)
       /\ List.length futures = 1
       /\ run_copy Mock.tree 1 "s3://bucket/dir" "gcs://backup/dir/" false
            None None 0 0
          = (Ok tt, w6,
             [Call (Filesystem "s3"); Call (Filesystem "gcs");
              Call (IsDir Mock.s3 "bucket/dir");
              Call (Find Mock.s3 "bucket/dir")] ++ l6)%list
       /\ placed Mock.world (Mock.backend Mock.tree) Mock.repr_list
            Mock.CHUNK_SIZE Mock.MAX_CONCURRENT_COPIES Mock.s3 "bucket/dir"
            Mock.gcs "backup/dir"
            [("bucket/dir/a.txt", mk_info "file" (Some 3%Z))] 4 w6 l6.
Proof.
  repeat (split; [reflexivity|]).
  pose proof (copy_directory_not_recursive Mock.world
                (Mock.backend Mock.tree) Mock.abspath Mock.parse_url
                Mock.repr_list Mock.CHUNK_SIZE Mock.MAX_CONCURRENT_COPIES 0 0
                "s3://bucket/dir" "gcs://backup/dir/" None None 0 Mock.s3
                Mock.gcs "bucket/dir" "backup/dir/" 1 2 2 3
                [Call (Filesystem "s3")] [Call (Filesystem "gcs")] []
                eq_refl eq_refl eq_refl eq_refl eq_refl) as H.
  cbv zeta in H.
  change (is_xet (protocol Mock.s3) && is_xet (protocol Mock.gcs))
    with false in H; cbv iota in H.
  destruct (H _ 4 eq_refl) as (_ & H2 & _).
  do 3 eexists; split; [vm_compute; reflexivity|].
  match goal with
  | |- _ /\ _ = (_, ?w6, (_ ++ ?l6)%list) /\ _ =>
      destruct (H2 [None] w6 l6 eq_refl) as (Hlen & Hrun & Hplaced)
  end.
  split; [exact Hlen | split; [exact Hrun | exact Hplaced]].
Defined.

(** ** Further examples on the scripted backend *)

Local Abbreviation run_root_copy s :=
  (_root_copy Mock.world (Mock.backend s) Mock.abspath Mock.parse_url
     Mock.repr_list Mock.CHUNK_SIZE Mock.MAX_CONCURRENT_COPIES).

(** An s3 URI: the list of aliases the backend reports becomes the tag. *)
Lemma get_fs_and_path_well_formed_witness :
  PyStr.contains "://" "s3" = false
  /\ PyStr.contains "://" "bucket/dir/a.txt" = false
  /\ run_get_fs_and_path Mock.plain "s3://bucket/dir/a.txt" 0
     = (Ok (Mock.s3, "bucket/dir/a.txt"), 1, [Call (Filesystem "s3")]).
Proof.
  split; [reflexivity | split; [reflexivity|]].
  exact (eq_trans
           (get_fs_and_path_well_formed Mock.world (Mock.backend Mock.plain)
              Mock.abspath 0 "s3" "bucket/dir/a.txt" eq_refl eq_refl)
           eq_refl).
Defined.


(** A file of one chunk copied from s3 to gcs. *)
Lemma single_file_copy_closes_files_witness :
  is_xet (protocol Mock.gcs) = false
  /\ Mock.backend Mock.plain (OpenRb Mock.s3 "bucket/a.txt") 0
     = (inr (10, [inr "abc"]), 1)
  /\ snd (run_single_file_copy_try Mock.plain Mock.s3 "bucket/a.txt" Mock.gcs
            "backup/a.txt" 1024 None 0)
     = [Call (OpenRb Mock.s3 "bucket/a.txt");
        Call (OpenWb Mock.gcs "backup/a.txt");
        Read 10 1024; Call (Write 11 "abc"); Read 10 1024;
        Call (Close 11); Call (Close 10)].
Proof.
  split; [reflexivity | split; [reflexivity|]].
  exact (eq_trans
           (single_file_copy_closes_files Mock.world
              (Mock.backend Mock.plain) 0 1 Mock.s3 "bucket/a.txt" Mock.gcs
              "backup/a.txt" 1024 None 10 [inr "abc"] eq_refl eq_refl)
           eq_refl).
Defined.

(** A file of two chunks copied from s3 to gcs. *)
Lemma single_file_copy_streams_chunks_witness :
  PyStr.last_item (PyStr.split "/" "backup/a.txt") <> ".gitattributes"
  /\ Forall (fun c => c <> "") ["abc"; "def"]
  /\ Mock.backend Mock.two_chunks (OpenRb Mock.s3 "bucket/a.txt") 0
     = (inr (10, map inr ["abc"; "def"]), 1)
  /\ run_ops Mock.world (Mock.backend Mock.two_chunks)
       (map (Write 11) ["abc"; "def"]) 2 = Some 4
  /\ run_single_file_copy Mock.two_chunks Mock.s3 "bucket/a.txt" Mock.gcs
       "backup/a.txt" 1024 None 0 0
     = (Ok tt, 6,
        [Stdout "Copying bucket/a.txt to backup/a.txt..."; Acquire 0;
         Call (OpenRb Mock.s3 "bucket/a.txt");
         Call (OpenWb Mock.gcs "backup/a.txt");
         Read 10 1024; Call (Write 11 "abc");
         Read 10 1024; Call (Write 11 "def");
         Read 10 1024; Call (Close 11); Call (Close 10); Release 0])
  /\ writes_of
       (snd (run_single_file_copy Mock.two_chunks Mock.s3 "bucket/a.txt"
               Mock.gcs "backup/a.txt" 1024 None 0 0))
     = ["abc"; "def"].
Proof.
  assert (Hskip : PyStr.last_item (PyStr.split "/" "backup/a.txt")
                  <> ".gitattributes") by (vm_compute; discriminate).
  assert (Hne : Forall (fun c => c <> "") ["abc"; "def"])
    by (repeat constructor; discriminate).
  split; [exact Hskip | split; [exact Hne|]].
  split; [reflexivity | split; [reflexivity|]].
  exact (single_file_copy_streams_chunks Mock.world
           (Mock.backend Mock.two_chunks) Mock.repr_list 0 1 2 4 5 6 Mock.s3
           "bucket/a.txt" Mock.gcs "backup/a.txt" 1024 None 0 10 11
           ["abc"; "def"] Hskip eq_refl Hne eq_refl eq_refl eq_refl eq_refl
           eq_refl).
Defined.

(** A source whose second read raises. *)
Lemma single_file_copy_read_error_witness :
  PyStr.last_item (PyStr.split "/" "backup/a.txt") <> ".gitattributes"
  /\ Mock.backend Mock.broken_read (OpenRb Mock.s3 "bucket/a.txt") 0
     = (inr (10, (map inr ["abc"]
                  ++ inl (BackendError "connection reset") :: [inr "def"])%list),
        1)
  /\ run_single_file_copy Mock.broken_read Mock.s3 "bucket/a.txt" Mock.gcs
       "backup/a.txt" 1024 None 0 0
     = (Ok tt, 5,
        [Stdout "Copying bucket/a.txt to backup/a.txt..."; Acquire 0;
         Call (OpenRb Mock.s3 "bucket/a.txt");
         Call (OpenWb Mock.gcs "backup/a.txt");
         Read 10 1024; Call (Write 11 "abc"); Read 10 1024;
         Call (Close 11); Call (Close 10);
         Stdout "Failed to copy s3://bucket/a.txt: connection reset";
         Release 0])
  /\ writes_of
       (snd (run_single_file_copy Mock.broken_read Mock.s3 "bucket/a.txt"
               Mock.gcs "backup/a.txt" 1024 None 0 0))
     = ["abc"].
Proof.
  assert (Hskip : PyStr.last_item (PyStr.split "/" "backup/a.txt")
                  <> ".gitattributes") by (vm_compute; discriminate).
  assert (Hne : Forall (fun c => c <> "") ["abc"])
    by (repeat constructor; discriminate).
  split; [exact Hskip | split; [reflexivity|]].
  exact (single_file_copy_read_error Mock.world
           (Mock.backend Mock.broken_read) Mock.repr_list 0 1 2 3 4 5 Mock.s3
           "bucket/a.txt" Mock.gcs "backup/a.txt" 1024 None 0 10 11 ["abc"]
           (BackendError "connection reset") [inr "def"] Hskip eq_refl Hne
           eq_refl eq_refl eq_refl eq_refl eq_refl).
Defined.

(** A copy to gcs looks up no size; a copy to xet without a hint does. *)
Lemma single_file_copy_size_lookup_witness :
  Forall (fun e => ~ is_info_call e)
    (snd (run_single_file_copy Mock.plain Mock.s3 "bucket/a.txt" Mock.gcs
            "backup/a.txt" 1024 None 0 0))
  /\ exists rest,
       snd (run_single_file_copy Mock.large Mock.local "/data/a.bin" Mock.xet
              "alice/repo/main/a.bin" 1024 None 0 0)
       = Stdout "Copying /data/a.bin to alice/repo/main/a.bin..."
         :: Acquire 0 :: Call (Info Mock.local "/data/a.bin") :: rest.
Proof.
  split.
  - apply (proj1 (single_file_copy_size_lookup Mock.world
                    (Mock.backend Mock.plain) Mock.repr_list 0 Mock.s3
                    "bucket/a.txt" Mock.gcs "backup/a.txt" 1024 None 0)).
    left; reflexivity.
  - apply (proj2 (single_file_copy_size_lookup Mock.world
                    (Mock.backend Mock.large) Mock.repr_list 0 Mock.local
                    "/data/a.bin" Mock.xet "alice/repo/main/a.bin" 1024 None
                    0)); try reflexivity.
    vm_compute; discriminate.
Defined.

(** A copy from one branch to another, and a copy from s3 into a branch. *)
Lemma validate_xet_copy_checks_witness :
  run_validate Mock.plain Mock.xet "bob/data/main" Mock.xet "alice/repo/dev" 0
  = (Ok tt, 1, [Call (BranchInfo Mock.xet "bob/data/main")])
  /\ run_validate Mock.plain Mock.s3 "bucket/a.txt" Mock.xet
       "alice/repo/main/a.txt" 0
     = (Ok tt, 1, [Call (BranchInfo Mock.xet "alice/repo/main/a.txt")])
  /\ run_validate Mock.plain Mock.s3 "bucket/a.txt" Mock.gcs "backup/a.txt" 0
     = (Ok tt, 0, []).
Proof.
  split; [|split].
  - exact (eq_trans
             (proj2 (proj2 (validate_xet_copy_checks Mock.world
                              (Mock.backend Mock.plain) Mock.parse_url 0
                              Mock.xet "bob/data/main" Mock.xet
                              "alice/repo/dev"))
                eq_refl eq_refl 1 (mk_parsed "main" "") (mk_parsed "dev" "")
                eq_refl eq_refl eq_refl)
             eq_refl).
  - exact (eq_trans
             (proj1 (proj2 (validate_xet_copy_checks Mock.world
                              (Mock.backend Mock.plain) Mock.parse_url 0
                              Mock.s3 "bucket/a.txt" Mock.xet
                              "alice/repo/main/a.txt"))
                eq_refl eq_refl)
             eq_refl).
  - exact (proj1 (validate_xet_copy_checks Mock.world
                    (Mock.backend Mock.plain) Mock.parse_url 0 Mock.s3
                    "bucket/a.txt" Mock.gcs "backup/a.txt")
             eq_refl eq_refl).
Defined.

(** A copy out of a xet branch that does not exist. *)
Lemma copy_aborts_on_missing_source_branch_witness :
  run_get_fs_and_path Mock.no_branch "xet://alice/repo/main/a.txt" 0
  = (Ok (Mock.xet, "alice/repo/main/a.txt"), 1, [Call XetFS_new])
  /\ Mock.backend Mock.no_branch
       (BranchInfo Mock.xet "alice/repo/main/a.txt") 2
     = (inl (BackendError "refused"), 3)
  /\ run_copy Mock.no_branch 1 "xet://alice/repo/main/a.txt"
       "gcs://backup/a.txt" true None None 0 0
     = (Raise (BackendError "refused"), 3,
        [Call XetFS_new; Call (Filesystem "gcs");
         Call (BranchInfo Mock.xet "alice/repo/main/a.txt")]).
Proof.
  split; [reflexivity | split; [reflexivity|]].
  exact (copy_aborts_on_missing_source_branch Mock.world
           (Mock.backend Mock.no_branch) Mock.abspath Mock.parse_url
           Mock.repr_list Mock.CHUNK_SIZE Mock.MAX_CONCURRENT_COPIES 0 0
           "xet://alice/repo/main/a.txt" "gcs://backup/a.txt" true None None
           0 Mock.xet Mock.gcs "alice/repo/main/a.txt" "backup/a.txt" 1 2 3
           [Call XetFS_new] [Call (Filesystem "gcs")]
           (BackendError "refused") eq_refl eq_refl eq_refl eq_refl).
Defined.

(** One file, its source written with a trailing slash. *)
Lemma copy_single_file_witness :
  run_isdir Mock.plain Mock.s3 (normalize "bucket/a.txt/") 2
  = (Ok false, 3, [Call (IsDir Mock.s3 "bucket/a.txt")])
  /\ PyStr.contains "*" (normalize "bucket/a.txt/") = false
  /\ run_copy Mock.plain 1 "s3://bucket/a.txt/" "gcs://backup/a.txt" true
       None None 0 0
     = (Ok tt, 8,
        [Call (Filesystem "s3"); Call (Filesystem "gcs");
         Call (IsDir Mock.s3 "bucket/a.txt");
         Stdout "Copying bucket/a.txt to backup/a.txt..."; Acquire 0;
         Call (OpenRb Mock.s3 "bucket/a.txt");
         Call (OpenWb Mock.gcs "backup/a.txt");
         Read 10 1024; Call (Write 11 "abc"); Read 10 1024;
         Call (Close 11); Call (Close 10); Release 0]).
Proof.
  split; [reflexivity | split; [reflexivity|]].
  exact (eq_trans
           (copy_single_file Mock.world (Mock.backend Mock.plain)
              Mock.abspath Mock.parse_url Mock.repr_list Mock.CHUNK_SIZE
              Mock.MAX_CONCURRENT_COPIES 0 0 "s3://bucket/a.txt/"
              "gcs://backup/a.txt" true None None 0 Mock.s3 Mock.gcs
              "bucket/a.txt/" "backup/a.txt" 1 2 2 3
              [Call (Filesystem "s3")] [Call (Filesystem "gcs")] []
              eq_refl eq_refl eq_refl eq_refl eq_refl)
           eq_refl).
Defined.

(** A directory of two files: the flag makes no difference. *)
Lemma copy_directory_recursive_irrelevant_witness :
  run_isdir Mock.files Mock.s3 (normalize "bucket/dir") 2
  = (Ok true, 3, [Call (IsDir Mock.s3 "bucket/dir")])
  /\ forallb not_directory (Mock.listing Mock.files) = true
  /\ run_copy Mock.files 1 "s3://bucket/dir" "gcs://backup/dir" true None
       None 0 0
     = run_copy Mock.files 1 "s3://bucket/dir" "gcs://backup/dir" false None
         None 0 0.
Proof.
  split; [reflexivity | split; [reflexivity|]].
  apply (copy_directory_recursive_irrelevant Mock.world
           (Mock.backend Mock.files) Mock.abspath Mock.parse_url
           Mock.repr_list Mock.CHUNK_SIZE Mock.MAX_CONCURRENT_COPIES 0 0
           "s3://bucket/dir" "gcs://backup/dir" None None 0 Mock.s3 Mock.gcs
           "bucket/dir" "backup/dir" 1 2 2 3 [Call (Filesystem "s3")]
           [Call (Filesystem "gcs")] [] [Call (IsDir Mock.s3 "bucket/dir")]
           eq_refl eq_refl eq_refl eq_refl eq_refl).
  intros items w5 H; cbv in H; inversion H; reflexivity.
Defined.

(** The entry [bucket/dir/a.txt] of a copy of [bucket/dir] to
    [backup/dir]. *)
Lemma find_entries_places_entry_witness :
  (itype (mk_info "file" (Some 3%Z)) =? "directory") && negb false = false
  /\ run_find_entries Mock.plain Mock.s3 "bucket/dir" Mock.gcs "backup/dir"
       false [("bucket/dir/a.txt", mk_info "file" (Some 3%Z))] 0
     = (Ok [None], 6,
        [Call (Makedirs Mock.gcs "backup/dir");
         Stdout "Copying bucket/dir/a.txt to backup/dir/a.txt..."; Acquire 0;
         Call (OpenRb Mock.s3 "bucket/dir/a.txt");
         Call (OpenWb Mock.gcs "backup/dir/a.txt");
         Read 10 1024; Call (Write 11 "abc"); Read 10 1024;
         Call (Close 11); Call (Close 10); Release 0]).
Proof.
  split; [reflexivity|].
  exact (eq_trans
           (proj1 (find_entries_places_entry Mock.world
                     (Mock.backend Mock.plain) Mock.repr_list Mock.CHUNK_SIZE
                     Mock.MAX_CONCURRENT_COPIES Mock.s3 "bucket/dir" Mock.gcs
                     "backup/dir" false "/a.txt" (mk_info "file" (Some 3%Z))
                     [] 0 eq_refl))
           eq_refl).
Defined.

(** A listing whose second entry lies outside the source directory. *)
Lemma find_entries_outside_root_witness :
  (forall t, "other/b.txt" <> "bucket/dir" ++ t)
  /\ run_find_entries Mock.plain Mock.s3 "bucket/dir" Mock.gcs "backup/dir"
       true
       [("bucket/dir/a.txt", mk_info "file" (Some 3%Z));
        ("other/b.txt", mk_info "file" (Some 3%Z));
        ("bucket/dir/c.txt", mk_info "file" (Some 3%Z))] 0
     = (Raise (ValueError "Path other/b.txt not in directory bucket/dir"), 6,
        [Call (Makedirs Mock.gcs "backup/dir");
         Stdout "Copying bucket/dir/a.txt to backup/dir/a.txt..."; Acquire 0;
         Call (OpenRb Mock.s3 "bucket/dir/a.txt");
         Call (OpenWb Mock.gcs "backup/dir/a.txt");
         Read 10 1024; Call (Write 11 "abc"); Read 10 1024;
         Call (Close 11); Call (Close 10); Release 0]).
Proof.
  assert (Hout : forall t, "other/b.txt" <> "bucket/dir" ++ t)
    by (intros t H; discriminate H).
  split; [exact Hout|].
  exact (find_entries_outside_root Mock.world (Mock.backend Mock.plain)
           Mock.repr_list Mock.CHUNK_SIZE Mock.MAX_CONCURRENT_COPIES Mock.s3
           "bucket/dir" Mock.gcs "backup/dir" true
           [("bucket/dir/a.txt", mk_info "file" (Some 3%Z))]
           [("bucket/dir/c.txt", mk_info "file" (Some 3%Z))]
           "other/b.txt" (mk_info "file" (Some 3%Z)) 0 6 [None] _
           eq_refl eq_refl Hout).
Defined.

(** The pattern [bucket/dir/*] over a sub-directory and a file. *)
Lemma copy_glob_not_recursive_witness :
  normalize "bucket/dir/*" = "bucket/dir" ++ "/" ++ "*"
  /\ PyStr.contains "/" "*" = false
  /\ PyStr.contains "*" "bucket/dir" = false
  /\ Mock.backend Mock.tree (Glob Mock.s3 "bucket/dir/*") 3
     = (inr [("bucket/dir/sub", mk_info "directory" (Some 0%Z));
             ("bucket/dir/a.txt", mk_info "file" (Some 3%Z))], 4)
  /\ run_copy Mock.tree 1 "s3://bucket/dir/*" "gcs://backup" false None None
       0 0
     = (Ok tt, 10,
        [Call (Filesystem "s3"); Call (Filesystem "gcs");
         Call (IsDir Mock.s3 "bucket/dir/*");
         Call (Glob Mock.s3 "bucket/dir/*");
         Call (Makedirs Mock.gcs "backup");
         Stdout "Copying bucket/dir/a.txt to backup/a.txt..."; Acquire 0;
         Call (OpenRb Mock.s3 "bucket/dir/a.txt");
         Call (OpenWb Mock.gcs "backup/a.txt");
         Read 10 1024; Call (Write 11 "abc"); Read 10 1024;
         Call (Close 11); Call (Close 10); Release 0]).
Proof.
  repeat (split; [reflexivity|]).
  exact (eq_trans
           (copy_glob_not_recursive Mock.world (Mock.backend Mock.tree)
              Mock.abspath Mock.parse_url Mock.repr_list Mock.CHUNK_SIZE
              Mock.MAX_CONCURRENT_COPIES 0 0 "s3://bucket/dir/*"
              "gcs://backup" None None 0 Mock.s3 Mock.gcs "bucket/dir/*"
              "backup" "bucket/dir" "*" 1 2 2 3 4 [Call (Filesystem "s3")]
              [Call (Filesystem "gcs")] [] true
              [("bucket/dir/sub", mk_info "directory" (Some 0%Z));
               ("bucket/dir/a.txt", mk_info "file" (Some 3%Z))]
              eq_refl eq_refl eq_refl eq_refl eq_refl eq_refl eq_refl eq_refl
              eq_refl)
           eq_refl).
Defined.

(** A rename inside a branch, and the same rename refused by the service. *)
Lemma mv_xet_transaction_witness :
  (exists tail,
     run_mv Mock.plain "xet://alice/repo/main/a.txt"
       "xet://alice/repo/main/b.txt" false "" 0
     = (Ok tt, 5,
        [Call XetFS_new; Call XetFS_new;
         Call (StartTransaction Mock.xet
                 "move xet://alice/repo/main/a.txt to xet://alice/repo/main/b.txt");
         Call (Mv Mock.xet "alice/repo/main/a.txt" "alice/repo/main/b.txt");
         Call (EndTransaction Mock.xet)] ++ tail)%list
     /\ Forall (fun e => is_call e = false) tail)
  /\ run_mv Mock.stuck_mv "xet://alice/repo/main/a.txt"
       "xet://alice/repo/main/b.txt" true "" 0
     = (Ok tt, 4,
        [Call XetFS_new; Call XetFS_new;
         Call (StartTransaction Mock.xet
                 "move xet://alice/repo/main/a.txt to xet://alice/repo/main/b.txt recursively");
         Call (Mv Mock.xet "alice/repo/main/a.txt" "alice/repo/main/b.txt");
         Stdout "refused"]).
Proof.
  split.
  - exact (mv_xet_transaction Mock.world (Mock.backend Mock.plain)
             Mock.abspath 0 "xet://alice/repo/main/a.txt"
             "xet://alice/repo/main/b.txt" false "" Mock.xet Mock.xet
             "alice/repo/main/a.txt" "alice/repo/main/b.txt" 1 2 3
             [Call XetFS_new] [Call XetFS_new] eq_refl eq_refl eq_refl
             eq_refl).
  - exact (mv_xet_transaction Mock.world (Mock.backend Mock.stuck_mv)
             Mock.abspath 0 "xet://alice/repo/main/a.txt"
             "xet://alice/repo/main/b.txt" true "" Mock.xet Mock.xet
             "alice/repo/main/a.txt" "alice/repo/main/b.txt" 1 2 3
             [Call XetFS_new] [Call XetFS_new] eq_refl eq_refl eq_refl
             eq_refl).
Defined.

(** A rename on gcs that the backend refuses. *)
Lemma mv_returns_witness :
  run_get_fs_and_path Mock.stuck_mv "gcs://bucket/a.txt" 0
  = (Ok (Mock.gcs, "bucket/a.txt"), 1, [Call (Filesystem "gcs")])
  /\ exists w' tail,
       run_mv Mock.stuck_mv "gcs://bucket/a.txt" "gcs://bucket/b.txt" true ""
         0
       = (Ok tt, w',
          [Call (Filesystem "gcs"); Call (Filesystem "gcs")] ++ tail)%list
       /\ (is_xet (protocol Mock.gcs) = false ->
           exists said,
             tail = Call (Mv Mock.gcs "bucket/a.txt" "bucket/b.txt") :: said
             /\ Forall (fun e => is_call e = false) said).
Proof.
  split; [reflexivity|].
  exact (mv_returns Mock.world (Mock.backend Mock.stuck_mv) Mock.abspath 0
           "gcs://bucket/a.txt" "gcs://bucket/b.txt" true "" Mock.gcs
           Mock.gcs "bucket/a.txt" "bucket/b.txt" 1 2
           [Call (Filesystem "gcs")] [Call (Filesystem "gcs")] eq_refl
           eq_refl).
Defined.

(** Two files removed from gcs. *)
Lemma rm_plain_backend_witness :
  is_xet (protocol Mock.gcs) = false
  /\ run_ops Mock.world (Mock.backend Mock.plain)
       (map (Rm Mock.gcs) ["gcs://bucket/a.txt"; "gcs://bucket/b.txt"]) 1
     = Some 3
  /\ run_rm Mock.plain ["gcs://bucket/a.txt"; "gcs://bucket/b.txt"] "" 0
     = (Ok tt, 3,
        [Call (Filesystem "gcs"); Call (Rm Mock.gcs "gcs://bucket/a.txt");
         Call (Rm Mock.gcs "gcs://bucket/b.txt")]).
Proof.
  split; [reflexivity | split; [reflexivity|]].
  exact (rm_plain_backend Mock.world (Mock.backend Mock.plain) Mock.abspath
           Mock.parse_url Mock.repr_list 0 "gcs://bucket/a.txt"
           ["gcs://bucket/b.txt"] "" Mock.gcs "bucket/a.txt" 1 3
           [Call (Filesystem "gcs")] eq_refl eq_refl eq_refl).
Defined.

(** Three files to remove from a branch, the second one refused. *)
Lemma rm_xet_failure_midway_witness :
  Mock.backend Mock.stuck_rm (Rm Mock.xet "xet://alice/repo/main/b.txt") 3
  = (inl (BackendError "refused"), 4)
  /\ run_rm Mock.stuck_rm
       ["xet://alice/repo/main/a.txt"; "xet://alice/repo/main/b.txt";
        "xet://alice/repo/main/c.txt"] "tidy" 0
     = (Ok tt, 4,
        [Call XetFS_new; Call (StartTransaction Mock.xet "tidy");
         Call (Rm Mock.xet "xet://alice/repo/main/a.txt");
         Call (Rm Mock.xet "xet://alice/repo/main/b.txt");
         Stdout "refused"]).
Proof.
  split; [reflexivity|].
  assert (Hnone : forall p,
            In p ["xet://alice/repo/main/a.txt";
                  "xet://alice/repo/main/b.txt";
                  "xet://alice/repo/main/c.txt"] ->
            exists r, Mock.parse_url p (domain Mock.xet) = inr r
                      /\ is_branch_root r = false).
  { intros p [<- | [<- | [<- | []]]]; eexists; split; reflexivity. }
  exact (rm_xet_failure_midway Mock.world (Mock.backend Mock.stuck_rm)
           Mock.abspath Mock.parse_url Mock.repr_list 0
           "xet://alice/repo/main/a.txt"
           ["xet://alice/repo/main/b.txt"; "xet://alice/repo/main/c.txt"]
           "tidy" Mock.xet "alice/repo/main/a.txt" 1 3 4 [Call XetFS_new]
           ["xet://alice/repo/main/a.txt"] ["xet://alice/repo/main/c.txt"]
           "xet://alice/repo/main/b.txt" (BackendError "refused") eq_refl
           eq_refl eq_refl Hnone eq_refl eq_refl).
Defined.

(** A duplicate of [xet://bob/data//] without a destination. *)
Lemma duplicate_default_destination_witness :
  PyStr.contains "/" "data" = false
  /\ "data" <> ""
  /\ PyStr.lstrip "/" "//" = ""
  /\ run_duplicate Mock.plain ("xet://bob" ++ "/" ++ "data" ++ "//") None
       false false false 0
     = (Ok tt, 3,
        [Call XetFS_new; Call (GetUsername Mock.xet);
         Call (DuplicateRepo Mock.xet "xet://bob/data//" "xet://alice/data")]).
Proof.
  assert (Hne : "data" <> "") by discriminate.
  split; [reflexivity | split; [exact Hne | split; [reflexivity|]]].
  exact (eq_trans
           (duplicate_default_destination Mock.world
              (Mock.backend Mock.plain) 0 1 2 Mock.xet "xet://bob" "data"
              "//" "alice" eq_refl Hne eq_refl eq_refl eq_refl)
           eq_refl).
Defined.

(** A duplicate asked to be private and public on a service that refuses
    to change attributes. *)
Lemma duplicate_attribute_failure_witness :
  Mock.backend Mock.no_attr
    (SetRepoAttr Mock.xet "xet://alice/copy" "private" true) 2
  = (inl (BackendError "refused"), 3)
  /\ run_duplicate Mock.no_attr "xet://bob/data" (Some "xet://alice/copy")
       true true false 0
     = (Ok tt, 4,
        [Call XetFS_new;
         Call (DuplicateRepo Mock.xet "xet://bob/data" "xet://alice/copy");
         Call (SetRepoAttr Mock.xet "xet://alice/copy" "private" true);
         Call (GetUsername Mock.xet)]).
Proof.
  split; [reflexivity|].
  exact (eq_trans
           (duplicate_attribute_failure Mock.world
              (Mock.backend Mock.no_attr) 0 1 2 3 "xet://bob/data"
              "xet://alice/copy" true false Mock.xet
              (BackendError "refused") eq_refl eq_refl eq_refl)
           eq_refl).
Defined.

(** A duplicate on a service that refuses to duplicate. *)
Lemma duplicate_repo_failure_witness :
  Mock.backend Mock.no_duplicate
    (DuplicateRepo Mock.xet "xet://bob/data" "xet://alice/copy") 1
  = (inl (BackendError "refused"), 2)
  /\ run_duplicate Mock.no_duplicate "xet://bob/data"
       (Some "xet://alice/copy") true true true 0
     = (Raise (BackendError "refused"), 2,
        [Call XetFS_new;
         Call (DuplicateRepo Mock.xet "xet://bob/data" "xet://alice/copy")]).
Proof.
  split; [reflexivity|].
  exact (duplicate_repo_failure Mock.world (Mock.backend Mock.no_duplicate)
           0 1 2 "xet://bob/data" "xet://alice/copy" true true true Mock.xet
           (BackendError "refused") eq_refl eq_refl).
Defined.

(** The directory [s3://bucket/dir/], written with a trailing slash, copied
    into the existing directory [gcs://backup]. *)
Lemma root_copy_into_directory_witness :
  PyStr.contains "/" "" = false
  /\ run_isdir Mock.empty_directory Mock.gcs "backup" 1
     = (Ok true, 2, [Call (IsDir Mock.gcs "backup")])
  /\ run_root_copy Mock.empty_directory 1 ("s3://bucket/dir" ++ "/" ++ "")
       "gcs://backup" "msg" true 0 0
     = (let '(r, w', lc) :=
          run_copy Mock.empty_directory 1 "s3://bucket/dir/" "gcs://backup/"
            true None None 0 2 in
        (r, w',
         [Call (Filesystem "gcs"); Call (IsDir Mock.gcs "backup")] ++ lc)%list).
Proof.
  split; [reflexivity | split; [reflexivity|]].
  exact (root_copy_into_directory Mock.world
           (Mock.backend Mock.empty_directory) Mock.abspath Mock.parse_url
           Mock.repr_list Mock.CHUNK_SIZE Mock.MAX_CONCURRENT_COPIES 1 0
           "s3://bucket/dir" "" "gcs://backup" "msg" true 0 Mock.gcs "backup"
           1 2 [Call (Filesystem "gcs")] true eq_refl eq_refl eq_refl
           eq_refl).
Defined.

(** A root copy into a branch from a branch that does not exist. *)
Lemma root_copy_transaction_witness :
  run_isdir Mock.no_branch Mock.xet "alice/repo/main" 1
  = (Ok false, 2, [Call (IsDirOrBranch Mock.xet "alice/repo/main")])
  /\ Mock.backend Mock.no_branch (StartTransaction Mock.xet "msg") 2
     = (inr tt, 3)
  /\ run_root_copy Mock.no_branch 1 "xet://bob/data/main/a.txt"
       "xet://alice/repo/main" "msg" true 0 0
     = (Raise (BackendError "refused"), 6,
        [Call XetFS_new; Call (IsDirOrBranch Mock.xet "alice/repo/main");
         Call (StartTransaction Mock.xet "msg");
         Call XetFS_new; Call XetFS_new;
         Call (BranchInfo Mock.xet "bob/data/main/a.txt")]).
Proof.
  split; [reflexivity | split; [reflexivity|]].
  exact (eq_trans
           (root_copy_transaction Mock.world (Mock.backend Mock.no_branch)
              Mock.abspath Mock.parse_url Mock.repr_list Mock.CHUNK_SIZE
              Mock.MAX_CONCURRENT_COPIES 1 0 "xet://bob/data/main/a.txt"
              "xet://alice/repo/main" "msg" true 0 Mock.xet "alice/repo/main"
              1 2 3 [Call XetFS_new] false eq_refl eq_refl eq_refl eq_refl)
           eq_refl).
Defined.

(** A size that cannot be looked up, and hints that are refused. *)
Lemma single_file_copy_preparation_failure_witness :
  PyStr.last_item (PyStr.split "/" "alice/repo/main/a.bin") <> ".gitattributes"
  /\ run_single_file_copy Mock.no_info Mock.s3 "bucket/a.bin" Mock.xet
       "alice/repo/main/a.bin" 1024 None 0 0
     = (Ok tt, 1,
        [Stdout "Copying bucket/a.bin to alice/repo/main/a.bin..."; Acquire 0;
         Call (Info Mock.s3 "bucket/a.bin");
         Stdout "Failed to copy s3://bucket/a.bin: refused"; Release 0])
  /\ run_single_file_copy Mock.no_hints Mock.s3 "bucket/a.bin" Mock.xet
       "alice/repo/main/a.bin" 1024 (Some 50000000%Z) 0 0
     = (Ok tt, 1,
        [Stdout "Copying bucket/a.bin to alice/repo/main/a.bin..."; Acquire 0;
         Call (AddDeduplicationHints Mock.xet "alice/repo/main/a.bin");
         Stdout "Failed to copy s3://bucket/a.bin: refused"; Release 0]).
Proof.
  assert (Hskip : PyStr.last_item (PyStr.split "/" "alice/repo/main/a.bin")
                  <> ".gitattributes") by (vm_compute; discriminate).
  split; [exact Hskip | split].
  - exact (proj1 (single_file_copy_preparation_failure Mock.world
                    (Mock.backend Mock.no_info) Mock.repr_list 0 1 Mock.s3
                    "bucket/a.bin" Mock.xet "alice/repo/main/a.bin" 1024 0
                    (BackendError "refused") Hskip eq_refl eq_refl)
             eq_refl).
  - apply (proj2 (single_file_copy_preparation_failure Mock.world
                    (Mock.backend Mock.no_hints) Mock.repr_list 0 1 Mock.s3
                    "bucket/a.bin" Mock.xet "alice/repo/main/a.bin" 1024 0
                    (BackendError "refused") Hskip eq_refl eq_refl)
             50000000%Z); [lia | reflexivity].
Defined.
